(** * lucy-code orchestrator: task state machine, plan validator, file policy,
      task store, plan normalisation and rule-based intent classifier.

    A shallow embedding of [src/lucy_orchestrator] (Python).  Every module of
    the source that is modelled has a Rocq module of the same name.

    Conventions.
    - A Python [str] is a [string] holding its UTF-8 bytes; where the source
      works on characters (whitespace stripping, lower-casing, regular
      expressions, globs) the bytes are decoded to code points first.
    - A Python [dict] is an association list in insertion order, with unique
      keys; a JSON value is a [json].  JSON numbers are integers.
    - [None] in an [Optional] field is [None]; Python truthiness is written
      out ([truthy_opt], [json_truthy]).
    - A function that mutates the task object, reads the clock or touches the
      disk runs in the monad [M], whose state survives a raised exception,
      as it does in Python. *)

From Stdlib Require Import ZArith QArith Lia Bool List Ascii String DecimalString.
From stdpp Require Import base option list gmap strings.

Set Warnings "-register-all".

Local Open Scope string_scope.
Local Open Scope Z_scope.

(* ------------------------------------------------------------------ *)
(** ** exceptions.py *)

Module exceptions.

(** The exception classes of the package; [PyException] stands for any other
    subclass of [Exception] (built-in errors, errors of injected
    collaborators). *)
Inductive ExnClass : Type :=
  | OrchestratorError
  | InvalidTransitionError
  | PlanValidationError
  | PolicyViolationError
  | TaskNotFoundError
  | WorktreeError
  | OpenCodeInvocationError
  | PyException.

(** An exception object: its class and [str(exc)]. *)
Record Exn : Type := mkExn { exn_class : ExnClass; exn_msg : string }.

(** [isinstance(exc, OrchestratorError)]: every class of the package derives
    from [OrchestratorError]. *)
Definition is_OrchestratorError (e : Exn) : bool :=
  match exn_class e with
  | PyException => false
  | _ => true
  end.

End exceptions.

Import exceptions.

(* ------------------------------------------------------------------ *)
(** ** Python values *)

Module py.

(** JSON values as produced by [json.loads] (and consumed by [json.dump]). *)
Inductive json : Type :=
  | JNull
  | JBool (b : bool)
  | JInt (z : Z)
  | JStr (s : string)
  | JList (items : list json)
  | JObj (fields : list (string * json)).

(** A Python dict with string keys. *)
Definition dict := list (string * json).

(** [d.get(key)] *)
Fixpoint dict_get (d : dict) (key : string) : option json :=
  match d with
  | [] => None
  | (k, v) :: rest => if String.eqb k key then Some v else dict_get rest key
  end.

(** [d[key] = value]: overwrites in place, or appends a new key. *)
Fixpoint dict_set (d : dict) (key : string) (value : json) : dict :=
  match d with
  | [] => [(key, value)]
  | (k, v) :: rest =>
      if String.eqb k key then (k, value) :: rest
      else (k, v) :: dict_set rest key value
  end.

(** [d.update(other)] *)
Definition dict_update (d other : dict) : dict :=
  fold_left (fun acc kv => dict_set acc (fst kv) (snd kv)) other d.

(** [bool(x)] for an [Optional[str]]: [None] and [""] are falsy. *)
Definition truthy_opt (x : option string) : bool :=
  match x with
  | Some s => negb (String.eqb s "")
  | None => false
  end.

Definition truthy_str (s : string) : bool := negb (String.eqb s "").

(** [bool(x)] for a JSON value. *)
Definition json_truthy (x : json) : bool :=
  match x with
  | JNull => false
  | JBool b => b
  | JInt z => negb (z =? 0)
  | JStr s => truthy_str s
  | JList l => match l with [] => false | _ => true end
  | JObj l => match l with [] => false | _ => true end
  end.

(** [str(n)] for an integer. *)
Definition str_of_Z (z : Z) : string := NilZero.string_of_int (Z.to_int z).

(** [sep.join(parts)] *)
Definition join (sep : string) (parts : list string) : string :=
  String.concat sep parts.

(** *** Code points *)

Definition byte_val (a : ascii) : N := N_of_ascii a.

(** UTF-8 decoding of a byte string into code points.  A truncated trailing
    sequence (which a Python [str] cannot contain) is dropped. *)
Fixpoint utf8_decode (s : string) : list N :=
  match s with
  | EmptyString => []
  | String b0 t0 =>
      let n0 := byte_val b0 in
      if (n0 <? 128)%N then n0 :: utf8_decode t0
      else
        match t0 with
        | EmptyString => []
        | String b1 t1 =>
            let n1 := (byte_val b1 mod 64)%N in
            if (n0 <? 224)%N then ((n0 mod 32) * 64 + n1)%N :: utf8_decode t1
            else
              match t1 with
              | EmptyString => []
              | String b2 t2 =>
                  let n2 := (byte_val b2 mod 64)%N in
                  if (n0 <? 240)%N
                  then ((n0 mod 16) * 4096 + n1 * 64 + n2)%N :: utf8_decode t2
                  else
                    match t2 with
                    | EmptyString => []
                    | String b3 t3 =>
                        let n3 := (byte_val b3 mod 64)%N in
                        ((n0 mod 8) * 262144 + n1 * 4096 + n2 * 64 + n3)%N
                          :: utf8_decode t3
                    end
              end
        end
  end.

(** [str.isspace] on one code point: the Unicode white-space characters
    (also the class [\s] of [re] on [str] patterns). *)
Definition isspace (c : N) : bool :=
  ((9 <=? c) && (c <=? 13) || (28 <=? c) && (c <=? 32)
   || (c =? 133) || (c =? 160) || (c =? 5760)
   || (8192 <=? c) && (c <=? 8202)
   || (c =? 8232) || (c =? 8233) || (c =? 8239) || (c =? 8287)
   || (c =? 12288))%N.

(** [bool(s.strip())]: the string has a character that is not white space. *)
Definition nonblank (s : string) : bool :=
  existsb (fun c => negb (isspace c)) (utf8_decode s).

(** *** Built-in conversions on JSON values *)

(** [str.lower] on the ASCII letters (no other character lower-cases to
    one). *)
Definition lower_char (c : ascii) : ascii :=
  let n := byte_val c in
  if ((65 <=? n) && (n <=? 90))%N then ascii_of_N (n + 32) else c.

Fixpoint lower (s : string) : string :=
  match s with
  | EmptyString => EmptyString
  | String c rest => String (lower_char c) (lower rest)
  end.

(** The characters of a string, each as a string: a byte that continues a
    UTF-8 sequence stays with the byte that starts it. *)
Fixpoint chars_from (s : string) : string * list string :=
  match s with
  | EmptyString => (EmptyString, [])
  | String c rest =>
      let '(pending, done) := chars_from rest in
      if ((128 <=? byte_val c) && (byte_val c <? 192))%N
      then (String c pending, done)
      else (EmptyString, String c pending :: done)
  end.

Definition chars (s : string) : list string :=
  let '(pending, done) := chars_from s in
  match pending with
  | EmptyString => done
  | _ => pending :: done
  end.

(** [x.get(key)] on a value that should be a dict. *)
Definition py_get (x : json) (key : string) : Exn + option json :=
  match x with
  | JObj d => inr (dict_get d key)
  | _ => inl (mkExn PyException "AttributeError: object has no attribute 'get'")
  end.

(** [x or fallback], where [x] is the result of a [get] without default. *)
Definition py_or (x : option json) (fallback : json) : json :=
  match x with
  | Some v => if json_truthy v then v else fallback
  | None => fallback
  end.

(** [list(x)] and [for item in x]. *)
Definition py_iter (x : json) : Exn + list json :=
  match x with
  | JList items => inr items
  | JStr s => inr (map JStr (chars s))
  | JObj d => inr (map (fun kv : string * json => JStr (fst kv)) d)
  | _ => inl (mkExn PyException "TypeError: object is not iterable")
  end.

Definition is_str (x : json) : bool :=
  match x with JStr _ => true | _ => false end.

(** Two built-ins are left open: the text [repr] prints for a list or a
    dict, and the integer [int] reads from a string, if any. *)
Record Builtins : Type := mkBuiltins {
  repr_container : json -> string;
  int_of_str : string -> option Z
}.

(** [str(x)] *)
Definition py_str (B : Builtins) (x : json) : string :=
  match x with
  | JStr s => s
  | JInt z => str_of_Z z
  | JBool true => "True"
  | JBool false => "False"
  | JNull => "None"
  | _ => repr_container B x
  end.

(** [int(x)] *)
Definition py_int (B : Builtins) (x : json) : Exn + Z :=
  match x with
  | JInt z => inr z
  | JBool b => inr (if b then 1 else 0)
  | JStr s =>
      match int_of_str B s with
      | Some z => inr z
      | None => inl (mkExn PyException "ValueError: invalid literal for int()")
      end
  | _ => inl (mkExn PyException "TypeError: int() argument")
  end.

(** *** Computations that may raise *)

Definition ebind {A B} (r : Exn + A) (k : A -> Exn + B) : Exn + B :=
  match r with
  | inl e => inl e
  | inr a => k a
  end.

Declare Scope e_scope.
Delimit Scope e_scope with E.
Notation "x <-- r ;; k" := (ebind r (fun x => k))
  (at level 20, r at level 99, k at level 200, only parsing) : e_scope.

(** [[f(item) for item in items]], stopping at the first exception. *)
Fixpoint emap {A B} (f : A -> Exn + B) (items : list A) : Exn + list B :=
  match items with
  | [] => inr []
  | item :: rest =>
      ebind (f item) (fun b => ebind (emap f rest) (fun bs => inr (b :: bs)))
  end.

(** [data[key]] *)
Definition py_item (data : dict) (key : string) : Exn + json :=
  match dict_get data key with
  | Some v => inr v
  | None => inl (mkExn PyException ("KeyError: " +:+ key))
  end.

(** A value stored in a field annotated [str], [Optional[str]] or [dict]:
    the records of the model hold such fields with their annotated type, and
    a value of another type is refused where Python would carry it along. *)
Definition as_str (x : json) : Exn + string :=
  match x with
  | JStr s => inr s
  | _ => inl (mkExn PyException "TypeError: expected str")
  end.

Definition as_opt_str (x : json) : Exn + option string :=
  match x with
  | JStr s => inr (Some s)
  | JNull => inr None
  | _ => inl (mkExn PyException "TypeError: expected str or None")
  end.

Definition as_dict (x : json) : Exn + dict :=
  match x with
  | JObj d => inr d
  | _ => inl (mkExn PyException "TypeError: expected dict")
  end.

(** [dict(x)]: a copy of a dict; otherwise [x] is iterated and each item
    must itself yield a key and a value. *)
Definition py_dict (x : json) : Exn + dict :=
  match x with
  | JObj d => inr d
  | _ =>
      ebind (py_iter x) (fun items =>
        fold_left
          (fun acc item =>
             ebind acc (fun d =>
               ebind (py_iter item) (fun pair =>
                 match pair with
                 | [JStr k; v] => inr (dict_set d k v)
                 | [_; _] =>
                     inl (mkExn PyException "TypeError: expected str key")
                 | _ =>
                     inl (mkExn PyException
                            "ValueError: dictionary update sequence element")
                 end)))
          items (inr []))
  end.

(** *** [json.dumps(value, indent=2, ensure_ascii=False)] *)

Definition hex_digit (n : N) : ascii :=
  ascii_of_N (if (n <? 10)%N then 48 + n else 87 + n).

(** One character of a string literal: quote, backslash and the control
    characters are escaped, everything else is written as it is. *)
Definition dquote : string := String (ascii_of_N 34) "".

Definition encode_char (c : ascii) : string :=
  let n := byte_val c in
  if (n =? 34)%N then "\" +:+ dquote else
  if (n =? 92)%N then "\\" else
  if (n =? 8)%N then "\b" else
  if (n =? 12)%N then "\f" else
  if (n =? 10)%N then "\n" else
  if (n =? 13)%N then "\r" else
  if (n =? 9)%N then "\t" else
  if (n <? 32)%N then
    "\u00" +:+ String (hex_digit (n / 16)) (String (hex_digit (n mod 16)) "")
  else String c "".

Fixpoint encode_chars (s : string) : string :=
  match s with
  | EmptyString => ""
  | String c rest => encode_char c +:+ encode_chars rest
  end.

Definition encode_str (s : string) : string :=
  dquote +:+ encode_chars s +:+ dquote.

Fixpoint spaces (n : nat) : string :=
  match n with
  | O => ""
  | S n' => String " " (spaces n')
  end.

(** A line break followed by the indentation of [level]. *)
Definition newline_indent (level : nat) : string :=
  String (ascii_of_N 10) (spaces (2 * level)).

Fixpoint dumps_at (level : nat) (value : json) : string :=
  match value with
  | JNull => "null"
  | JBool true => "true"
  | JBool false => "false"
  | JInt z => str_of_Z z
  | JStr s => encode_str s
  | JList [] => "[]"
  | JList items =>
      "[" +:+ newline_indent (S level)
      +:+ join ("," +:+ newline_indent (S level))
            (map (dumps_at (S level)) items)
      +:+ newline_indent level +:+ "]"
  | JObj [] => "{}"
  | JObj fields =>
      "{" +:+ newline_indent (S level)
      +:+ join ("," +:+ newline_indent (S level))
            (map (fun kv : string * json =>
                    let (k, v) := kv in
                    encode_str k +:+ ": " +:+ dumps_at (S level) v) fields)
      +:+ newline_indent level +:+ "}"
  end.

Definition json_dumps (value : json) : string := dumps_at 0 value.

(** An [Optional[str]] as a JSON value. *)
Definition json_of_opt (x : option string) : json :=
  match x with
  | Some s => JStr s
  | None => JNull
  end.

(** *** Strings as sequences of characters *)

(** A character, given with its bytes, is white space. *)
Definition char_isspace (ch : string) : bool :=
  match utf8_decode ch with
  | [c] => isspace c
  | _ => false
  end.

Fixpoint lstrip_chars (l : list string) : list string :=
  match l with
  | ch :: rest => if char_isspace ch then lstrip_chars rest else l
  | [] => []
  end.

(** [s.strip()] *)
Definition str_strip (s : string) : string :=
  String.concat "" (rev (lstrip_chars (rev (lstrip_chars (chars s))))).

(** [a < b] on [str]: the order of the code points, which on UTF-8 is the
    order of the bytes. *)
Definition str_lt (a b : string) : bool := String.ltb a b.

(** *** [sorted] *)

(** [x] goes before the first element that is not below it. *)
Fixpoint insert_sorted {A} (lt : A -> A -> bool) (x : A) (l : list A)
  : list A :=
  match l with
  | [] => [x]
  | y :: rest =>
      if lt y x then y :: insert_sorted lt x rest else x :: y :: rest
  end.

(** [sorted(items)] for the order [lt].  The sort is stable: elements that
    compare equal keep the order they had.  With [reverse=True] the list is
    sorted as if each comparison were reversed, which is [sorted] for the
    converse order. *)
Definition sorted {A} (lt : A -> A -> bool) (items : list A) : list A :=
  fold_right (insert_sorted lt) [] items.

End py.

Import py.


(* ------------------------------------------------------------------ *)
(** ** models.py *)

Module models.

Module TaskState.
Inductive t : Type :=
  | NEW | CLARIFYING | WAIT_APPROVAL | RUNNING | TESTING | DONE | FAILED
  | CANCELLED.

#[global] Instance eq_dec : EqDecision t.
Proof. solve_decision. Defined.

Definition value (s : t) : string :=
  match s with
  | NEW => "NEW"
  | CLARIFYING => "CLARIFYING"
  | WAIT_APPROVAL => "WAIT_APPROVAL"
  | RUNNING => "RUNNING"
  | TESTING => "TESTING"
  | DONE => "DONE"
  | FAILED => "FAILED"
  | CANCELLED => "CANCELLED"
  end.

(** [TaskState(x)] *)
Definition of_value (x : json) : Exn + t :=
  match x with
  | JStr "NEW" => inr NEW
  | JStr "CLARIFYING" => inr CLARIFYING
  | JStr "WAIT_APPROVAL" => inr WAIT_APPROVAL
  | JStr "RUNNING" => inr RUNNING
  | JStr "TESTING" => inr TESTING
  | JStr "DONE" => inr DONE
  | JStr "FAILED" => inr FAILED
  | JStr "CANCELLED" => inr CANCELLED
  | _ => inl (mkExn PyException "ValueError: not a valid TaskState")
  end.
End TaskState.

Module QuestionStatus.
Inductive t : Type := OPEN | ANSWERED.

#[global] Instance eq_dec : EqDecision t.
Proof. solve_decision. Defined.

Definition value (s : t) : string :=
  match s with OPEN => "open" | ANSWERED => "answered" end.

(** [QuestionStatus(x)] *)
Definition of_value (x : json) : Exn + t :=
  match x with
  | JStr "open" => inr OPEN
  | JStr "answered" => inr ANSWERED
  | _ => inl (mkExn PyException "ValueError: not a valid QuestionStatus")
  end.
End QuestionStatus.

Module StepType.
Inductive t : Type := CODE | TEST.

#[global] Instance eq_dec : EqDecision t.
Proof. solve_decision. Defined.

Definition value (s : t) : string :=
  match s with CODE => "code" | TEST => "test" end.

(** [StepType(x)] *)
Definition of_value (x : json) : Exn + t :=
  match x with
  | JStr "code" => inr CODE
  | JStr "test" => inr TEST
  | _ => inl (mkExn PyException "ValueError: not a valid StepType")
  end.
End StepType.

Module StepStatus.
Inductive t : Type := PENDING | RUNNING | COMPLETED | FAILED.

Definition value (s : t) : string :=
  match s with
  | PENDING => "pending"
  | RUNNING => "running"
  | COMPLETED => "completed"
  | FAILED => "failed"
  end.

(** [StepStatus(x)] *)
Definition of_value (x : json) : Exn + t :=
  match x with
  | JStr "pending" => inr PENDING
  | JStr "running" => inr RUNNING
  | JStr "completed" => inr COMPLETED
  | JStr "failed" => inr FAILED
  | _ => inl (mkExn PyException "ValueError: not a valid StepStatus")
  end.
End StepStatus.

(** The [answer] of a question and the [assumptions] of a plan are annotated
    [str] in the source but are never checked or converted, so they hold the
    JSON value they were given. *)
Module PlanQuestion.
Record t : Type := mk {
  id : string;
  question : string;
  required : bool;
  status : QuestionStatus.t;
  answer : json
}.

Definition from_dict (data : dict) : Exn + t :=
  (id <-- ebind (py_item data "id") as_str ;;
   question <-- ebind (py_item data "question") as_str ;;
   let required := json_truthy (default (JBool true) (dict_get data "required")) in
   status <-- QuestionStatus.of_value
                (default (JStr "open") (dict_get data "status")) ;;
   let answer := default JNull (dict_get data "answer") in
   inr (mk id question required status answer))%E.

Definition to_dict (self : t) : dict :=
  [ ("id", JStr (id self));
    ("question", JStr (question self));
    ("required", JBool (required self));
    ("status", JStr (QuestionStatus.value (status self)));
    ("answer", answer self) ].
End PlanQuestion.

Module PlanStep.
Record t : Type := mk {
  id : string;
  step_type : StepType.t;
  title : string;
  command : option string;
  status : StepStatus.t
}.

Definition from_dict (data : dict) : Exn + t :=
  (id <-- ebind (py_item data "id") as_str ;;
   step_type <-- ebind (py_item data "type") StepType.of_value ;;
   title <-- ebind (py_item data "title") as_str ;;
   command <-- as_opt_str (default JNull (dict_get data "command")) ;;
   status <-- StepStatus.of_value
                (default (JStr "pending") (dict_get data "status")) ;;
   inr (mk id step_type title command status))%E.

Definition to_dict (self : t) : dict :=
  [ ("id", JStr (id self));
    ("type", JStr (StepType.value (step_type self)));
    ("title", JStr (title self));
    ("command", json_of_opt (command self));
    ("status", JStr (StepStatus.value (status self))) ].
End PlanStep.

Module PlanConstraints.
Record t : Type := mk {
  allowed_paths : list string;
  forbidden_paths : list string;
  max_files_changed : Z
}.

Definition from_dict (B : Builtins) (data : dict) : Exn + t :=
  (allowed <-- py_iter (default (JList []) (dict_get data "allowed_paths")) ;;
   allowed_paths <-- emap as_str allowed ;;
   forbidden <-- py_iter
                   (default (JList []) (dict_get data "forbidden_paths")) ;;
   forbidden_paths <-- emap as_str forbidden ;;
   max_files_changed <-- py_int B (default (JInt 20)
                                     (dict_get data "max_files_changed")) ;;
   inr (mk allowed_paths forbidden_paths max_files_changed))%E.

Definition to_dict (self : t) : dict :=
  [ ("allowed_paths", JList (map JStr (allowed_paths self)));
    ("forbidden_paths", JList (map JStr (forbidden_paths self)));
    ("max_files_changed", JInt (max_files_changed self)) ].
End PlanConstraints.

Module Plan.
Record t : Type := mk {
  plan_id : string;
  task_id : string;
  version : Z;
  goal : string;
  assumptions : list json;
  constraints : PlanConstraints.t;
  questions : list PlanQuestion.t;
  steps : list PlanStep.t;
  approval_gate_before_run : bool;
  approval_gate_before_commit : bool;
  created_at : string;
  created_by : string
}.

Definition open_required_questions (self : t) : list PlanQuestion.t :=
  filter (fun q => PlanQuestion.required q = true
                   /\ PlanQuestion.status q = QuestionStatus.OPEN) (questions self).

(** [now] is what [utc_now_iso()] returns when [from_dict] calls it. *)
Definition from_dict (B : Builtins) (now : string) (data : dict) : Exn + t :=
  (let approval_gate := default (JObj []) (dict_get data "approval_gate") in
   let metadata := default (JObj []) (dict_get data "metadata") in
   plan_id <-- ebind (py_item data "plan_id") as_str ;;
   task_id <-- ebind (py_item data "task_id") as_str ;;
   version <-- py_int B (default (JInt 1) (dict_get data "version")) ;;
   goal <-- as_str (default (JStr "") (dict_get data "goal")) ;;
   assumptions <-- py_iter (default (JList []) (dict_get data "assumptions")) ;;
   constraints_data <-- as_dict (default (JObj []) (dict_get data "constraints")) ;;
   constraints <-- PlanConstraints.from_dict B constraints_data ;;
   question_items <-- py_iter (default (JList []) (dict_get data "questions")) ;;
   questions <-- emap (fun item => ebind (as_dict item) PlanQuestion.from_dict)
                   question_items ;;
   step_items <-- py_iter (default (JList []) (dict_get data "steps")) ;;
   steps <-- emap (fun item => ebind (as_dict item) PlanStep.from_dict)
               step_items ;;
   before_run <-- py_get approval_gate "required_before_run" ;;
   before_commit <-- py_get approval_gate "required_before_commit" ;;
   created_at <-- py_get metadata "created_at" ;;
   created_at <-- as_str (default (JStr now) created_at) ;;
   created_by <-- py_get metadata "created_by" ;;
   created_by <-- as_str (default (JStr "orchestrator") created_by) ;;
   inr (mk plan_id task_id version goal assumptions constraints questions steps
          (json_truthy (default (JBool true) before_run))
          (json_truthy (default (JBool true) before_commit))
          created_at created_by))%E.

Definition to_dict (self : t) : dict :=
  [ ("plan_id", JStr (plan_id self));
    ("task_id", JStr (task_id self));
    ("version", JInt (version self));
    ("goal", JStr (goal self));
    ("assumptions", JList (assumptions self));
    ("constraints", JObj (PlanConstraints.to_dict (constraints self)));
    ("questions",
     JList (map (fun q => JObj (PlanQuestion.to_dict q)) (questions self)));
    ("steps", JList (map (fun x => JObj (PlanStep.to_dict x)) (steps self)));
    ("approval_gate",
     JObj [ ("required_before_run", JBool (approval_gate_before_run self));
            ("required_before_commit",
             JBool (approval_gate_before_commit self)) ]);
    ("metadata",
     JObj [ ("created_at", JStr (created_at self));
            ("created_by", JStr (created_by self)) ]) ].
End Plan.

Module Approval.
Record t : Type := mk {
  required : bool;
  approved_by : option string;
  approved_at : option string
}.

Definition is_approved (self : t) : bool :=
  if negb (required self) then true
  else truthy_opt (approved_by self) && truthy_opt (approved_at self).

Definition to_dict (self : t) : dict :=
  [ ("required", JBool (required self));
    ("approved_by", json_of_opt (approved_by self));
    ("approved_at", json_of_opt (approved_at self)) ].

Definition from_dict (data : dict) : Exn + t :=
  (let required :=
     json_truthy (default (JBool true) (dict_get data "required")) in
   approved_by <-- as_opt_str (default JNull (dict_get data "approved_by")) ;;
   approved_at <-- as_opt_str (default JNull (dict_get data "approved_at")) ;;
   inr (mk required approved_by approved_at))%E.
End Approval.

Module ExecutionInfo.
Record t : Type := mk {
  attempt : Z;
  max_attempts : Z;
  last_error : option string
}.

Definition to_dict (self : t) : dict :=
  [ ("attempt", JInt (attempt self));
    ("max_attempts", JInt (max_attempts self));
    ("last_error", json_of_opt (last_error self)) ].

Definition from_dict (B : Builtins) (data : dict) : Exn + t :=
  (attempt <-- py_int B (default (JInt 0) (dict_get data "attempt")) ;;
   max_attempts <-- py_int B (default (JInt 3)
                                (dict_get data "max_attempts")) ;;
   last_error <-- as_opt_str (default JNull (dict_get data "last_error")) ;;
   inr (mk attempt max_attempts last_error))%E.
End ExecutionInfo.

Module TaskArtifacts.
Record t : Type := mk {
  clarify_summary : option string;
  diff_path : option string;
  test_report_path : option string;
  pr_url : option string;
  changed_files : list string;
  test_results : list dict
}.

Definition to_dict (self : t) : dict :=
  [ ("clarify_summary", json_of_opt (clarify_summary self));
    ("diff_path", json_of_opt (diff_path self));
    ("test_report_path", json_of_opt (test_report_path self));
    ("pr_url", json_of_opt (pr_url self));
    ("changed_files", JList (map JStr (changed_files self)));
    ("test_results", JList (map JObj (test_results self))) ].

Definition from_dict (data : dict) : Exn + t :=
  (clarify_summary <-- as_opt_str
                         (default JNull (dict_get data "clarify_summary")) ;;
   diff_path <-- as_opt_str (default JNull (dict_get data "diff_path")) ;;
   test_report_path <-- as_opt_str
                          (default JNull (dict_get data "test_report_path")) ;;
   pr_url <-- as_opt_str (default JNull (dict_get data "pr_url")) ;;
   changed <-- py_iter (default (JList []) (dict_get data "changed_files")) ;;
   changed_files <-- emap as_str changed ;;
   results <-- py_iter (default (JList []) (dict_get data "test_results")) ;;
   test_results <-- emap as_dict results ;;
   inr (mk clarify_summary diff_path test_report_path pr_url changed_files
          test_results))%E.
End TaskArtifacts.

Module TaskSource.
Record t : Type := mk {
  type : string;
  user_id : string;
  chat_id : string;
  message_id : string
}.

Definition to_dict (self : t) : dict :=
  [ ("type", JStr (type self));
    ("user_id", JStr (user_id self));
    ("chat_id", JStr (chat_id self));
    ("message_id", JStr (message_id self)) ].

Definition from_dict (data : dict) : Exn + t :=
  (type <-- as_str (default (JStr "unknown") (dict_get data "type")) ;;
   user_id <-- as_str (default (JStr "") (dict_get data "user_id")) ;;
   chat_id <-- as_str (default (JStr "") (dict_get data "chat_id")) ;;
   message_id <-- as_str (default (JStr "") (dict_get data "message_id")) ;;
   inr (mk type user_id chat_id message_id))%E.
End TaskSource.

Module RepoContext.
Record t : Type := mk {
  name : string;
  base_branch : string;
  worktree_path : option string;
  branch : option string
}.

Definition to_dict (self : t) : dict :=
  [ ("name", JStr (name self));
    ("base_branch", JStr (base_branch self));
    ("worktree_path", json_of_opt (worktree_path self));
    ("branch", json_of_opt (branch self)) ].

Definition from_dict (data : dict) : Exn + t :=
  (name <-- as_str (default (JStr "") (dict_get data "name")) ;;
   base_branch <-- as_str (default (JStr "main")
                             (dict_get data "base_branch")) ;;
   worktree_path <-- as_opt_str
                       (default JNull (dict_get data "worktree_path")) ;;
   branch <-- as_opt_str (default JNull (dict_get data "branch")) ;;
   inr (mk name base_branch worktree_path branch))%E.
End RepoContext.

Module TaskEvent.
Record t : Type := mk {
  timestamp : string;
  event_type : string;
  message : string;
  payload : dict
}.

Definition to_dict (self : t) : dict :=
  [ ("timestamp", JStr (timestamp self));
    ("event_type", JStr (event_type self));
    ("message", JStr (message self));
    ("payload", JObj (payload self)) ].

Definition from_dict (data : dict) : Exn + t :=
  (timestamp <-- ebind (py_item data "timestamp") as_str ;;
   event_type <-- ebind (py_item data "event_type") as_str ;;
   message <-- as_str (default (JStr "") (dict_get data "message")) ;;
   payload <-- py_dict (default (JObj []) (dict_get data "payload")) ;;
   inr (mk timestamp event_type message payload))%E.
End TaskEvent.

Module Task.
Record t : Type := mk {
  task_id : string;
  title : string;
  description : string;
  source : TaskSource.t;
  repo : RepoContext.t;
  state : TaskState.t;
  approval : Approval.t;
  plan : option Plan.t;
  execution : ExecutionInfo.t;
  artifacts : TaskArtifacts.t;
  event_log : list TaskEvent.t;
  created_at : string;
  updated_at : string
}.

Definition to_dict (self : t) : dict :=
  [ ("task_id", JStr (task_id self));
    ("title", JStr (title self));
    ("description", JStr (description self));
    ("source", JObj (TaskSource.to_dict (source self)));
    ("repo", JObj (RepoContext.to_dict (repo self)));
    ("state", JStr (TaskState.value (state self)));
    ("approval", JObj (Approval.to_dict (approval self)));
    ("plan",
     match plan self with
     | Some p => JObj (Plan.to_dict p)
     | None => JNull
     end);
    ("execution", JObj (ExecutionInfo.to_dict (execution self)));
    ("artifacts", JObj (TaskArtifacts.to_dict (artifacts self)));
    ("event_log",
     JList (map (fun ev => JObj (TaskEvent.to_dict ev)) (event_log self)));
    ("timestamps",
     JObj [ ("created_at", JStr (created_at self));
            ("updated_at", JStr (updated_at self)) ]) ].

(** Attribute assignments [task.<field> = v]. *)
Definition set_state (v : TaskState.t) (x : t) : t :=
  mk (task_id x) (title x) (description x) (source x) (repo x) v
     (approval x) (plan x) (execution x) (artifacts x) (event_log x)
     (created_at x) (updated_at x).
Definition set_execution (v : ExecutionInfo.t) (x : t) : t :=
  mk (task_id x) (title x) (description x) (source x) (repo x) (state x)
     (approval x) (plan x) v (artifacts x) (event_log x)
     (created_at x) (updated_at x).
Definition set_artifacts (v : TaskArtifacts.t) (x : t) : t :=
  mk (task_id x) (title x) (description x) (source x) (repo x) (state x)
     (approval x) (plan x) (execution x) v (event_log x)
     (created_at x) (updated_at x).
Definition set_event_log (v : list TaskEvent.t) (x : t) : t :=
  mk (task_id x) (title x) (description x) (source x) (repo x) (state x)
     (approval x) (plan x) (execution x) (artifacts x) v
     (created_at x) (updated_at x).
Definition set_updated_at (v : string) (x : t) : t :=
  mk (task_id x) (title x) (description x) (source x) (repo x) (state x)
     (approval x) (plan x) (execution x) (artifacts x) (event_log x)
     (created_at x) v.

(** [Task.from_dict].  The call reads the clock up to three times, for the
    defaults of the plan's [created_at] and of the task's two timestamps:
    [now_plan], [now_created] and [now_updated] are these readings. *)
Definition from_dict (B : Builtins) (now_plan now_created now_updated : string)
    (data : dict) : Exn + t :=
  (let timestamps := default (JObj []) (dict_get data "timestamps") in
   task_id <-- ebind (py_item data "task_id") as_str ;;
   title <-- as_str (default (JStr "") (dict_get data "title")) ;;
   description <-- as_str (default (JStr "") (dict_get data "description")) ;;
   source_data <-- as_dict (default (JObj []) (dict_get data "source")) ;;
   source <-- TaskSource.from_dict source_data ;;
   repo_data <-- as_dict (default (JObj []) (dict_get data "repo")) ;;
   repo <-- RepoContext.from_dict repo_data ;;
   state <-- TaskState.of_value
               (default (JStr (TaskState.value TaskState.NEW))
                  (dict_get data "state")) ;;
   approval_data <-- as_dict (default (JObj []) (dict_get data "approval")) ;;
   approval <-- Approval.from_dict approval_data ;;
   plan <-- (if json_truthy (default JNull (dict_get data "plan"))
             then plan_value <-- py_item data "plan" ;;
                  plan_data <-- as_dict plan_value ;;
                  plan <-- Plan.from_dict B now_plan plan_data ;;
                  inr (Some plan)
             else inr None) ;;
   execution_data <-- as_dict (default (JObj []) (dict_get data "execution")) ;;
   execution <-- ExecutionInfo.from_dict B execution_data ;;
   artifacts_data <-- as_dict (default (JObj []) (dict_get data "artifacts")) ;;
   artifacts <-- TaskArtifacts.from_dict artifacts_data ;;
   event_items <-- py_iter (default (JList []) (dict_get data "event_log")) ;;
   event_log <-- emap (fun item => ebind (as_dict item) TaskEvent.from_dict)
                   event_items ;;
   created_at <-- py_get timestamps "created_at" ;;
   created_at <-- as_str (default (JStr now_created) created_at) ;;
   updated_at <-- py_get timestamps "updated_at" ;;
   updated_at <-- as_str (default (JStr now_updated) updated_at) ;;
   inr (mk task_id title description source repo state approval plan execution
          artifacts event_log created_at updated_at))%E.
End Task.

End models.

Import models.

(* ------------------------------------------------------------------ *)
(** ** The mutable environment of a call *)

Module runtime.

(** What lies outside the task object: the wall clock (its successive
    readings, and how many were taken), the task files of the store, each
    held as the task it decodes to, and the report files, each held as the
    JSON document written. *)
Record World : Type := mkWorld {
  clock_readings : nat -> string;
  clock_reads : nat;
  task_files : gmap string Task.t;
  report_files : gmap string json
}.

Definition State : Type := (Task.t * World)%type.

(** A computation on the task object bound to [task] and on the world; an
    exception keeps the state reached when it was raised. *)
Definition M (A : Type) : Type := State -> State * (Exn + A).

Definition ret {A} (a : A) : M A := fun s => (s, inr a).

Definition bind {A B} (m : M A) (k : A -> M B) : M B :=
  fun s =>
    match m s with
    | (s', inr a) => k a s'
    | (s', inl e) => (s', inl e)
    end.

Definition raise {A} (e : Exn) : M A := fun s => (s, inl e).

(** Run a pure check that may raise. *)
Definition lift {A} (r : Exn + A) : M A := fun s => (s, r).

Definition get_task : M Task.t := fun s => (s, inr (fst s)).

Definition modify_task (f : Task.t -> Task.t) : M unit :=
  fun s => ((f (fst s), snd s), inr tt).

Definition modify_world (f : World -> World) : M unit :=
  fun s => ((fst s, f (snd s)), inr tt).

(** [try: body except Exception as exc: handler(exc)] *)
Definition try_except {A} (body : M A) (handler : Exn -> M A) : M A :=
  fun s =>
    match body s with
    | (s', inr a) => (s', inr a)
    | (s', inl e) => handler e s'
    end.

Declare Scope m_scope.
Delimit Scope m_scope with M.
Notation "x <- m ;; k" := (bind m (fun x => k))
  (at level 20, m at level 99, k at level 200, only parsing) : m_scope.
Notation "m ;; k" := (bind m (fun _ => k))
  (at level 100, k at level 200, only parsing, right associativity) : m_scope.

(** models.py, [utc_now_iso]: one reading of the clock. *)
Definition utc_now_iso : M string :=
  fun s =>
    let w := snd s in
    ((fst s,
      mkWorld (clock_readings w) (S (clock_reads w)) (task_files w)
              (report_files w)),
     inr (clock_readings w (clock_reads w))).

Local Open Scope m_scope.

(** models.py, [Task.record_event] *)
Definition record_event (event_type message : string) (payload : option dict)
  : M unit :=
  ts <- utc_now_iso ;;
  modify_task (fun task =>
    Task.set_event_log
      (Task.event_log task ++
        [TaskEvent.mk ts event_type message
           (match payload with Some d => d | None => [] end)])
      task) ;;
  now <- utc_now_iso ;;
  modify_task (Task.set_updated_at now).

End runtime.

Import runtime.

(* ------------------------------------------------------------------ *)
(** ** state_machine.py *)

Module state_machine.

Import TaskState.

Definition _ALLOWED_TRANSITIONS (s : TaskState.t) : list TaskState.t :=
  match s with
  | NEW => [CLARIFYING; FAILED; CANCELLED]
  | CLARIFYING => [WAIT_APPROVAL; FAILED; CANCELLED]
  | WAIT_APPROVAL => [RUNNING; FAILED; CANCELLED]
  | RUNNING => [TESTING; FAILED; CANCELLED]
  | TESTING => [DONE; FAILED; CANCELLED]
  | FAILED => [RUNNING; CANCELLED]
  | DONE => []
  | CANCELLED => []
  end.

Definition invalid (msg : string) : Exn + unit :=
  inl (mkExn InvalidTransitionError msg).

Definition assert_transition (task : Task.t) (target : TaskState.t)
  : Exn + unit :=
  let allowed := _ALLOWED_TRANSITIONS (Task.state task) in
  if negb (bool_decide (target ∈ allowed)) then
    invalid ("Invalid transition: " +:+ value (Task.state task)
             +:+ " -> " +:+ value target)
  else
    let check_running :=
      if bool_decide (target = RUNNING) then
        if Approval.required (Task.approval task)
           && negb (Approval.is_approved (Task.approval task))
        then invalid "Task approval is required before RUNNING"
        else
          match Task.plan task with
          | None => invalid "Task plan is required before RUNNING"
          | Some plan =>
              let open_questions := Plan.open_required_questions plan in
              match open_questions with
              | _ :: _ =>
                  let ids := join ", " (map PlanQuestion.id open_questions) in
                  invalid ("Open required questions remain: " +:+ ids)
              | [] => inr tt
              end
          end
      else inr tt in
    match check_running with
    | inl e => inl e
    | inr _ =>
        if bool_decide (target = TESTING)
           && negb (truthy_opt (TaskArtifacts.diff_path (Task.artifacts task)))
        then invalid "Diff artifact is required before TESTING"
        else if bool_decide (target = DONE)
                && negb (truthy_opt
                           (TaskArtifacts.test_report_path
                              (Task.artifacts task)))
        then invalid "Test report is required before DONE"
        else inr tt
    end.

Local Open Scope m_scope.

Definition transition (target : TaskState.t) (event_type message : string)
    (payload : option dict) : M unit :=
  task <- get_task ;;
  lift (assert_transition task target) ;;
  let previous := Task.state task in
  modify_task (Task.set_state target) ;;
  let event_payload :=
    [("from", JStr (value previous)); ("to", JStr (value target))] in
  let event_payload :=
    match payload with
    | Some (kv :: more) => dict_update event_payload (kv :: more)
    | _ => event_payload
    end in
  record_event event_type message (Some event_payload).

End state_machine.

(* ------------------------------------------------------------------ *)
(** ** fnmatch (Python standard library, POSIX) *)

Module fnmatch.

Local Open Scope N_scope.

(** One element of a bracket expression. *)
Inductive item : Type :=
  | Single (c : N)
  | Range (lo hi : N).

(** What [fnmatch.translate] makes of a pattern, piece by piece. *)
Inductive token : Type :=
  | Star                                  (* [*]: any run of characters *)
  | AnyChar                               (* [?]: any one character *)
  | Class (negated : bool) (items : list item)   (* [[seq]], [[!seq]] *)
  | Lit (c : N).

Definition c_star : N := 42.
Definition c_question : N := 63.
Definition c_lbracket : N := 91.
Definition c_rbracket : N := 93.
Definition c_bang : N := 33.
Definition c_hyphen : N := 45.

(** The text up to the next []] and the text after it. *)
Fixpoint until_rbracket (l : list N) : option (list N * list N) :=
  match l with
  | [] => None
  | c :: rest =>
      if c =? c_rbracket then Some ([], rest)
      else match until_rbracket rest with
           | Some (stuff, after) => Some (c :: stuff, after)
           | None => None
           end
  end.

(** The body of a bracket expression that starts at [l] (just after the
    [[]): a leading [!] and then a leading []] belong to the body. *)
Definition bracket_body (l : list N) : option (list N * list N) :=
  let '(bang, l1) :=
    match l with
    | c :: rest => if c =? c_bang then ([c], rest) else ([], l)
    | [] => ([], l)
    end in
  let '(first, l2) :=
    match l1 with
    | c :: rest => if c =? c_rbracket then ([c], rest) else ([], l1)
    | [] => ([], l1)
    end in
  match until_rbracket l2 with
  | Some (stuff, after) => Some ((bang ++ first ++ stuff)%list, after)
  | None => None
  end.

(** Members of a bracket body: [a-b] between two characters is a range. *)
Fixpoint items_of (l : list N) : list item :=
  match l with
  | [] => []
  | c1 :: rest =>
      match rest with
      | h :: c2 :: rest' =>
          if h =? c_hyphen then Range c1 c2 :: items_of rest'
          else Single c1 :: items_of rest
      | _ => Single c1 :: items_of rest
      end
  end.

Definition class_of (stuff : list N) : token :=
  match stuff with
  | c :: rest => if c =? c_bang then Class true (items_of rest)
                 else Class false (items_of stuff)
  | [] => Class false []
  end.

(** [translate]; the fuel is the length of the pattern. *)
Fixpoint tokens (fuel : nat) (pat : list N) : list token :=
  match fuel with
  | O => []
  | S fuel' =>
      match pat with
      | [] => []
      | c :: rest =>
          if c =? c_star then Star :: tokens fuel' rest
          else if c =? c_question then AnyChar :: tokens fuel' rest
          else if c =? c_lbracket then
            match bracket_body rest with
            | Some (stuff, after) => class_of stuff :: tokens fuel' after
            | None => Lit c :: tokens fuel' rest
            end
          else Lit c :: tokens fuel' rest
      end
  end.

Definition in_item (c : N) (i : item) : bool :=
  match i with
  | Single x => c =? x
  | Range lo hi => (lo <=? c) && (c <=? hi)
  end.

(** The whole of [s] matches the pattern pieces. *)
Fixpoint matches (toks : list token) (s : list N) : bool :=
  match toks with
  | [] => match s with [] => true | _ => false end
  | Star :: more =>
      (fix skip (s : list N) : bool :=
         matches more s
         || match s with
            | [] => false
            | _ :: s' => skip s'
            end) s
  | AnyChar :: more =>
      match s with
      | _ :: s' => matches more s'
      | [] => false
      end
  | Class negated items :: more =>
      match s with
      | c :: s' => xorb negated (existsb (in_item c) items) && matches more s'
      | [] => false
      end
  | Lit x :: more =>
      match s with
      | c :: s' => (c =? x) && matches more s'
      | [] => false
      end
  end.

(** [fnmatch.fnmatch(name, pat)]; [os.path.normcase] is the identity on
    POSIX. *)
Definition fnmatch (name pat : string) : bool :=
  let p := utf8_decode pat in
  matches (tokens (length p) p) (utf8_decode name).

End fnmatch.

(* ------------------------------------------------------------------ *)
(** ** policy.py *)

Module policy.

Definition _matches_any (path : string) (patterns : list string) : bool :=
  existsb (fun pattern => fnmatch.fnmatch path pattern) patterns.

(** [file_path.replace("\\", "/")] *)
Fixpoint normalize (file_path : string) : string :=
  match file_path with
  | EmptyString => EmptyString
  | String c rest =>
      String (if Ascii.eqb c "\"%char then "/"%char else c) (normalize rest)
  end.

Definition violation (msg : string) : Exn + unit :=
  inl (mkExn PolicyViolationError msg).

(** The loop over [changed_files]. *)
Fixpoint check_paths (changed_files : list string)
    (constraints : PlanConstraints.t) : Exn + unit :=
  match changed_files with
  | [] => inr tt
  | file_path :: rest =>
      let normalized := normalize file_path in
      let forbidden_paths := PlanConstraints.forbidden_paths constraints in
      let allowed_paths := PlanConstraints.allowed_paths constraints in
      if match forbidden_paths with [] => false | _ => true end
         && _matches_any normalized forbidden_paths
      then violation ("File is forbidden by policy: " +:+ normalized)
      else if match allowed_paths with [] => false | _ => true end
              && negb (_matches_any normalized allowed_paths)
      then violation ("File is outside allowed paths: " +:+ normalized)
      else check_paths rest constraints
  end.

Definition enforce_file_policy (changed_files : list string)
    (constraints : PlanConstraints.t) : Exn + unit :=
  let n := Z.of_nat (length changed_files) in
  if (PlanConstraints.max_files_changed constraints <? n)%Z then
    violation ("Changed files exceeded max_files_changed: "
               +:+ str_of_Z n +:+ " > "
               +:+ str_of_Z (PlanConstraints.max_files_changed constraints))
  else check_paths changed_files constraints.

End policy.

(* ------------------------------------------------------------------ *)
(** ** plan.py *)

Module plan.

#[global] Instance StepType_countable : Countable StepType.t.
Proof.
  refine (inj_countable'
            (fun s => match s with StepType.CODE => false
                                 | StepType.TEST => true end)
            (fun b : bool => if b then StepType.TEST else StepType.CODE) _).
  by intros [].
Defined.

(** [step.command and step.command.strip()] as a condition. *)
Definition has_command (command : option string) : bool :=
  match command with
  | Some s => truthy_str s && nonblank s
  | None => false
  end.

(** The state of the loop over [plan.steps]. *)
Record loop_state : Type := mk_loop {
  seen_step_ids : gset string;
  step_types : gset StepType.t;
  errors : list string
}.

(** One iteration of [for step in plan.steps]. *)
Definition loop_body (st : loop_state) (step : PlanStep.t) : loop_state :=
  let '(seen, errs) :=
    if negb (truthy_str (PlanStep.id step)) then
      (seen_step_ids st, (errors st ++ ["every step must have an id"])%list)
    else if bool_decide (PlanStep.id step ∈ seen_step_ids st) then
      (seen_step_ids st,
       (errors st ++ ["duplicate step id: " +:+ PlanStep.id step])%list)
    else
      (seen_step_ids st ∪ {[ PlanStep.id step ]}, errors st) in
  let types := step_types st ∪ {[ PlanStep.step_type step ]} in
  let errs :=
    if bool_decide (PlanStep.step_type step = StepType.TEST)
       && negb (has_command (PlanStep.command step))
    then (errs ++ ["test step '" +:+ PlanStep.id step
                   +:+ "' requires command"])%list
    else errs in
  mk_loop seen types errs.

Definition validate_plan (plan : Plan.t) : list string :=
  let errors : list string := [] in
  let errors :=
    if negb (truthy_str (Plan.plan_id plan))
    then (errors ++ ["plan_id is required"])%list else errors in
  let errors :=
    if negb (truthy_str (Plan.task_id plan))
    then (errors ++ ["task_id is required"])%list else errors in
  let errors :=
    if negb (nonblank (Plan.goal plan))
    then (errors ++ ["goal is required"])%list else errors in
  let errors :=
    match PlanConstraints.allowed_paths (Plan.constraints plan) with
    | [] => (errors ++ ["constraints.allowed_paths must not be empty"])%list
    | _ => errors
    end in
  let errors :=
    if (PlanConstraints.max_files_changed (Plan.constraints plan) <=? 0)%Z
    then (errors ++ ["constraints.max_files_changed must be > 0"])%list
    else errors in
  match Plan.steps plan with
  | [] => (errors ++ ["at least one plan step is required"])%list
  | steps =>
      let st := fold_left loop_body steps (mk_loop ∅ ∅ errors) in
      let errors := plan.errors st in
      let errors :=
        if negb (bool_decide (StepType.CODE ∈ step_types st))
        then (errors ++ ["plan requires at least one code step"])%list
        else errors in
      let errors :=
        if negb (bool_decide (StepType.TEST ∈ step_types st))
        then (errors ++ ["plan requires at least one test step"])%list
        else errors in
      errors
  end.

Definition assert_plan_valid (plan : Plan.t) : Exn + unit :=
  let errors := validate_plan plan in
  match errors with
  | _ :: _ => inl (mkExn PlanValidationError (join "; " errors))
  | [] => inr tt
  end.

End plan.

(* ------------------------------------------------------------------ *)
(** ** store.py: the task store as the orchestrator uses it *)

Module store.

Local Open Scope m_scope.

(** [TaskStore.get]: the task decoded from the file of [task_id]. *)
Definition get (w : World) (task_id : string) : Exn + Task.t :=
  match task_files w !! task_id with
  | None => inl (mkExn TaskNotFoundError ("Task not found: " +:+ task_id))
  | Some task => inr task
  end.

(** [TaskStore.save], run to completion: the file of the task holds it. *)
Definition save : M unit :=
  task <- get_task ;;
  modify_world (fun w =>
    mkWorld (clock_readings w) (clock_reads w)
      (<[ Task.task_id task := task ]> (task_files w)) (report_files w)).

(** *** [TaskStore.save] on the disk

    [path.open("w")] creates or truncates the file; [json.dump] then writes
    the text through the file object, which hands it to the file in pieces
    as its buffer fills and when the file is closed. *)

Definition _task_path (root_dir task_id : string) : string :=
  root_dir +:+ "/" +:+ task_id +:+ ".json".

(** What [save] writes: [json.dump(task.to_dict(), indent=2,
    ensure_ascii=False)]. *)
Definition record_text (task : Task.t) : string :=
  json_dumps (JObj (Task.to_dict task)).

(** The files of the disk, by path. *)
Definition Disk : Type := gmap string string.

Inductive file_op : Type :=
  | Truncate (path : string)
  | Append (path : string) (data : string).

Definition apply_op (disk : Disk) (op : file_op) : Disk :=
  match op with
  | Truncate path => <[ path := "" ]> disk
  | Append path data =>
      <[ path := default "" (disk !! path) +:+ data ]> disk
  end.

Definition apply_ops (ops : list file_op) (disk : Disk) : Disk :=
  fold_left apply_op ops disk.

(** The file operations of one [save], when the text reaches the file in
    the given pieces. *)
Definition save_ops (root_dir : string) (task : Task.t)
    (pieces : list string) : list file_op :=
  let path := _task_path root_dir (Task.task_id task) in
  Truncate path :: map (Append path) pieces.

(** A [save] interrupted after [n] of its file operations. *)
Definition save_interrupted (n : nat) (root_dir : string) (task : Task.t)
    (pieces : list string) (disk : Disk) : Disk :=
  apply_ops (take n (save_ops root_dir task pieces)) disk.

(** *** [TaskStore.list]

    [root_dir.glob("*.json")] yields the files that lie in the directory
    itself, so a task whose id holds a slash, whose file would lie below the
    directory, is not listed.  Paths of one directory compare as their file
    names do. *)

Fixpoint has_slash (s : string) : bool :=
  match s with
  | EmptyString => false
  | String c rest => Ascii.eqb c "/"%char || has_slash rest
  end.

Definition file_name (task_id : string) : string := task_id +:+ ".json".

Definition path_lt (a b : string * Task.t) : bool :=
  str_lt (file_name (fst a)) (file_name (fst b)).

(** The name is [list_] because [list] is the type of lists. *)
Definition list_ (w : World) : list Task.t :=
  map snd
    (sorted path_lt
       (filter (fun kv => has_slash (fst kv) = false)
          (map_to_list (task_files w)))).

End store.

(* ------------------------------------------------------------------ *)
(** ** adapters/opencode.py: results and the client protocol *)

Module opencode_results.

Module BuildExecutionResult.
Record t : Type := mk {
  changed_files : list string;
  diff_path : string;
  output_text : string;
  usage : dict
}.
End BuildExecutionResult.

Module TestExecutionResult.
Record t : Type := mk {
  command : string;
  exit_code : Z;
  log_path : string;
  duration_ms : Z
}.

Definition to_dict (self : t) : dict :=
  [ ("command", JStr (command self));
    ("exit_code", JInt (exit_code self));
    ("log_path", JStr (log_path self));
    ("duration_ms", JInt (duration_ms self)) ].
End TestExecutionResult.

(** The [OpenCodeClient] protocol, as far as [run_task] calls it.  A client
    is injected; what it returns or raises is its own business.  [run_test]
    also gets the number of test commands already run in the call, so that
    two runs of one command may differ. *)
Record OpenCodeClient : Type := mkClient {
  build : Task.t -> Exn + BuildExecutionResult.t;
  run_test : nat -> Task.t -> string -> Exn + TestExecutionResult.t
}.

End opencode_results.

Import opencode_results.

(* ------------------------------------------------------------------ *)
(** ** orchestrator.py *)

Module orchestrator.

Import TaskState.
Local Open Scope m_scope.

Record Orchestrator : Type := mkOrchestrator {
  opencode_client : OpenCodeClient;
  report_dir : string
}.

(** [task.plan.<attr>]: an [AttributeError] on a missing plan. *)
Definition get_plan : M Plan.t :=
  task <- get_task ;;
  match Task.plan task with
  | Some plan => ret plan
  | None =>
      raise (mkExn PyException
               "'NoneType' object has no attribute")
  end.

Definition set_attempt (n : Z) (task : Task.t) : Task.t :=
  let e := Task.execution task in
  Task.set_execution
    (ExecutionInfo.mk n (ExecutionInfo.max_attempts e)
       (ExecutionInfo.last_error e)) task.

Definition set_last_error (err : option string) (task : Task.t) : Task.t :=
  let e := Task.execution task in
  Task.set_execution
    (ExecutionInfo.mk (ExecutionInfo.attempt e) (ExecutionInfo.max_attempts e)
       err) task.

Definition set_diff_path (v : option string) (task : Task.t) : Task.t :=
  let a := Task.artifacts task in
  Task.set_artifacts
    (TaskArtifacts.mk (TaskArtifacts.clarify_summary a) v
       (TaskArtifacts.test_report_path a) (TaskArtifacts.pr_url a)
       (TaskArtifacts.changed_files a) (TaskArtifacts.test_results a)) task.

Definition set_changed_files (v : list string) (task : Task.t) : Task.t :=
  let a := Task.artifacts task in
  Task.set_artifacts
    (TaskArtifacts.mk (TaskArtifacts.clarify_summary a)
       (TaskArtifacts.diff_path a) (TaskArtifacts.test_report_path a)
       (TaskArtifacts.pr_url a) v (TaskArtifacts.test_results a)) task.

Definition set_test_results (v : list dict) (task : Task.t) : Task.t :=
  let a := Task.artifacts task in
  Task.set_artifacts
    (TaskArtifacts.mk (TaskArtifacts.clarify_summary a)
       (TaskArtifacts.diff_path a) (TaskArtifacts.test_report_path a)
       (TaskArtifacts.pr_url a) (TaskArtifacts.changed_files a) v) task.

Definition set_test_report_path (v : option string) (task : Task.t) : Task.t :=
  let a := Task.artifacts task in
  Task.set_artifacts
    (TaskArtifacts.mk (TaskArtifacts.clarify_summary a)
       (TaskArtifacts.diff_path a) v (TaskArtifacts.pr_url a)
       (TaskArtifacts.changed_files a) (TaskArtifacts.test_results a)) task.

(** [item.get("exit_code", 1) == 0] *)
Definition exit_code_zero (item : dict) : bool :=
  match dict_get item "exit_code" with
  | Some (JInt z) => z =? 0
  | Some (JBool b) => negb b
  | Some _ => false
  | None => false
  end.

(** [Orchestrator._write_test_report]; the path is
    [report_dir / f"{task_id}_test_report.json"]. *)
Definition _write_test_report (self : Orchestrator) (task_id : string)
    (results : list dict) : M string :=
  let report_path :=
    report_dir self +:+ "/" +:+ task_id +:+ "_test_report.json" in
  generated_at <- utc_now_iso ;;
  let payload :=
    JObj [ ("task_id", JStr task_id);
           ("generated_at", JStr generated_at);
           ("results", JList (map JObj results));
           ("passed", JBool (forallb exit_code_zero results)) ] in
  modify_world (fun w =>
    mkWorld (clock_readings w) (clock_reads w) (task_files w)
      (<[ report_path := payload ]> (report_files w))) ;;
  ret report_path.

(** The loop over the test steps of [run_task]: the results gathered and
    [all_passed]; it stops at the first command that fails. *)
Fixpoint run_test_steps (client : OpenCodeClient) (task : Task.t)
    (test_steps : list PlanStep.t) (done : nat) (test_results : list dict)
  : Exn + (list dict * bool) :=
  match test_steps with
  | [] => inr (test_results, true)
  | step :: rest =>
      let command :=
        match PlanStep.command step with Some s => s | None => "" end in
      match run_test client done task command with
      | inl e => inl e
      | inr result =>
          let test_results :=
            (test_results ++ [TestExecutionResult.to_dict result])%list in
          if negb (TestExecutionResult.exit_code result =? 0)
          then inr (test_results, false)
          else run_test_steps client task rest (S done) test_results
      end
  end.

(** The body of the [try] of [run_task]. *)
Definition run_task_body (self : Orchestrator) : M unit :=
  state_machine.transition RUNNING "state.change" "Entering RUNNING" None ;;
  task <- get_task ;;
  match Task.plan task with
  | None => raise (mkExn OrchestratorError "Task plan is missing")
  | Some plan0 =>
      lift (plan.assert_plan_valid plan0) ;;
      task <- get_task ;;
      build_result <- lift (build (opencode_client self) task) ;;
      modify_task
        (set_diff_path (Some (BuildExecutionResult.diff_path build_result))) ;;
      modify_task
        (set_changed_files (BuildExecutionResult.changed_files build_result)) ;;
      task <- get_task ;;
      plan1 <- get_plan ;;
      lift (policy.enforce_file_policy
              (TaskArtifacts.changed_files (Task.artifacts task))
              (Plan.constraints plan1)) ;;
      task <- get_task ;;
      record_event "build.completed" "Build step completed"
        (Some
           [ ("diff_path",
              match TaskArtifacts.diff_path (Task.artifacts task) with
              | Some p => JStr p
              | None => JNull
              end);
             ("changed_files",
              JInt (Z.of_nat
                      (length (TaskArtifacts.changed_files
                                 (Task.artifacts task))))) ]) ;;
      state_machine.transition TESTING "state.change" "Entering TESTING"
        None ;;
      plan2 <- get_plan ;;
      let test_steps :=
        filter (fun step => PlanStep.step_type step = StepType.TEST)
          (Plan.steps plan2) in
      task <- get_task ;;
      ran <- lift (run_test_steps (opencode_client self) task test_steps O []) ;;
      let '(test_results, all_passed) := ran in
      report_path <- _write_test_report self (Task.task_id task)
                       test_results ;;
      modify_task (set_test_results test_results) ;;
      modify_task (set_test_report_path (Some report_path)) ;;
      if all_passed then
        modify_task (set_last_error None) ;;
        state_machine.transition DONE "state.change" "Task completed" None
      else
        modify_task (set_last_error (Some "One or more tests failed")) ;;
        state_machine.transition FAILED "state.change" "Task failed in tests"
          None
  end.

(** The [except Exception as exc] clause of [run_task]. *)
Definition run_task_handler (exc : Exn) : M unit :=
  modify_task (set_last_error (Some (exn_msg exc))) ;;
  task <- get_task ;;
  (if negb (bool_decide (Task.state task ∈ [FAILED; DONE; CANCELLED])) then
     try_except
       (state_machine.transition FAILED "state.change" "Task failed" None)
       (fun _ =>
          modify_task (Task.set_state FAILED) ;;
          now <- utc_now_iso ;;
          modify_task (Task.set_updated_at now))
   else ret tt) ;;
  record_event "run.failed" "Task run failed"
    (Some [("error", JStr (exn_msg exc))]) ;;
  store.save ;;
  raise exc.

(** [run_task] from the point where the task has been loaded. *)
Definition run_loaded_task (self : Orchestrator) : M unit :=
  task <- get_task ;;
  let attempt := ExecutionInfo.attempt (Task.execution task) in
  let max_attempts := ExecutionInfo.max_attempts (Task.execution task) in
  if bool_decide (Task.state task = FAILED) && (max_attempts <=? attempt)%Z
  then
    raise (mkExn OrchestratorError
             ("Task exceeded max attempts: " +:+ str_of_Z attempt +:+ "/"
              +:+ str_of_Z max_attempts))
  else
    modify_task (set_attempt (attempt + 1)) ;;
    task <- get_task ;;
    record_event "run.started" "Task run started"
      (Some [("attempt",
              JInt (ExecutionInfo.attempt (Task.execution task)))]) ;;
    try_except (run_task_body self) run_task_handler ;;
    store.save.

(** [Orchestrator.run_task]: the world it leaves, and the task it returns or
    the exception it raises. *)
Definition run_task (self : Orchestrator) (task_id : string) (w : World)
  : World * (Exn + Task.t) :=
  match store.get w task_id with
  | inl e => (w, inl e)
  | inr task =>
      match run_loaded_task self (task, w) with
      | ((task', w'), inr _) => (w', inr task')
      | ((_, w'), inl e) => (w', inl e)
      end
  end.

End orchestrator.

(* ------------------------------------------------------------------ *)
(** ** adapters/opencode.py: from the agent's payload to a plan *)

Module opencode.

Section PlanPayload.

Variable B : Builtins.

Local Open Scope e_scope.

Definition step_dict (id type title : string) (command : json)
    (status : string) : dict :=
  [ ("id", JStr id); ("type", JStr type); ("title", JStr title);
    ("command", command); ("status", JStr status) ].

(** [{state.value for state in StepStatus}] *)
Definition step_status_values : list string :=
  map StepStatus.value
    [StepStatus.PENDING; StepStatus.RUNNING; StepStatus.COMPLETED;
     StepStatus.FAILED].

(** The [normalized] dict of one item of the loop of [_normalize_steps], and
    the step type chosen for it. *)
Definition normalize_step (idx : Z) (item : dict) : dict * string :=
  let step_type_raw :=
    lower (py_str B (default (JStr "code") (dict_get item "type"))) in
  let step_type :=
    if String.eqb step_type_raw (StepType.value StepType.TEST)
    then StepType.value StepType.TEST
    else StepType.value StepType.CODE in
  let status_raw :=
    lower (py_str B (default (JStr (StepStatus.value StepStatus.PENDING))
                       (dict_get item "status"))) in
  let status :=
    if existsb (String.eqb status_raw) step_status_values
    then status_raw
    else StepStatus.value StepStatus.PENDING in
  let command := default JNull (dict_get item "command") in
  let command :=
    if String.eqb step_type (StepType.value StepType.TEST)
       && negb (match command with
                | JStr s => nonblank s
                | _ => false
                end)
    then JStr "pytest -q"
    else command in
  (step_dict
     (py_str B (py_or (dict_get item "id") (JStr ("s" +:+ str_of_Z idx))))
     step_type
     (py_str B (py_or (dict_get item "title")
                  (JStr ("Step " +:+ str_of_Z idx))))
     (if is_str command then command else JNull)
     status,
   step_type).

(** The loop of [_normalize_steps]: [output], [has_code] and [has_test]
    after the items from index [idx] on. *)
Fixpoint normalize_steps_loop (items : list json) (idx : Z)
    (output : list dict) (has_code has_test : bool)
  : list dict * bool * bool :=
  match items with
  | [] => (output, has_code, has_test)
  | JObj item :: rest =>
      let '(normalized, step_type) := normalize_step idx item in
      normalize_steps_loop rest (idx + 1) (output ++ [normalized])%list
        (has_code || String.eqb step_type (StepType.value StepType.CODE))
        (has_test || String.eqb step_type (StepType.value StepType.TEST))
  | _ :: rest => normalize_steps_loop rest (idx + 1) output has_code has_test
  end.

Definition default_code_step : dict :=
  step_dict "s_code" (StepType.value StepType.CODE)
    "Implement required changes" JNull (StepStatus.value StepStatus.PENDING).

Definition default_test_step : dict :=
  step_dict "s_test" (StepType.value StepType.TEST) "Run tests"
    (JStr "pytest -q") (StepStatus.value StepStatus.PENDING).

Definition _normalize_steps (payload : json) : list dict :=
  match payload with
  | JList items =>
      let '(output, has_code, has_test) :=
        normalize_steps_loop items 1 [] false false in
      let output :=
        match output with
        | _ :: _ => if negb has_code then default_code_step :: output
                    else output
        | [] => output
        end in
      let output :=
        match output with
        | _ :: _ => if negb has_test then (output ++ [default_test_step])%list
                    else output
        | [] => output
        end in
      output
  | _ => []
  end.

Definition normalize_question (idx : Z) (item : dict) : dict :=
  let status_raw :=
    lower (py_str B (default (JStr "open") (dict_get item "status"))) in
  let status :=
    if String.eqb status_raw "answered" then "answered" else "open" in
  [ ("id", JStr (py_str B (py_or (dict_get item "id")
                             (JStr ("q" +:+ str_of_Z idx)))));
    ("question", JStr (py_str B (py_or (dict_get item "question") (JStr ""))));
    ("required",
     JBool (json_truthy (default (JBool true) (dict_get item "required"))));
    ("status", JStr status);
    ("answer", default JNull (dict_get item "answer")) ].

Fixpoint normalize_questions_loop (items : list json) (idx : Z) : list dict :=
  match items with
  | [] => []
  | JObj item :: rest =>
      normalize_question idx item :: normalize_questions_loop rest (idx + 1)
  | _ :: rest => normalize_questions_loop rest (idx + 1)
  end.

Definition _normalize_questions (payload : json) : list dict :=
  match payload with
  | JList items => normalize_questions_loop items 1
  | _ => []
  end.

(** The two steps used when the payload yields none. *)
Definition fallback_steps : list dict :=
  [ [ ("id", JStr "s1"); ("type", JStr "code");
      ("title", JStr "Implement required changes");
      ("status", JStr (StepStatus.value StepStatus.PENDING)) ];
    [ ("id", JStr "s2"); ("type", JStr "test"); ("title", JStr "Run tests");
      ("command", JStr "pytest -q");
      ("status", JStr (StepStatus.value StepStatus.PENDING)) ] ].

(** [payload.get(key)], with JSON [null] for a missing key. *)
Definition get_or_none (d : dict) (key : string) : json :=
  default JNull (dict_get d key).

(** [_plan_from_payload]; [now] is what [utc_now_iso()] returns. *)
Definition _plan_from_payload (now : string) (payload : dict) (task : Task.t)
  : Exn + Plan.t :=
  let constraints_payload := default (JObj []) (dict_get payload "constraints") in
  allowed <-- py_get constraints_payload "allowed_paths" ;;
  let allowed_paths :=
    py_or allowed (JList [JStr "src/**"; JStr "tests/**"; JStr "README.md"]) in
  forbidden <-- py_get constraints_payload "forbidden_paths" ;;
  let forbidden_paths :=
    py_or forbidden (JList [JStr ".git/**"; JStr "secrets/**"]) in
  max_raw <-- py_get constraints_payload "max_files_changed" ;;
  max_files_changed <-- py_int B (default (JInt 20) max_raw) ;;
  let steps_payload := get_or_none payload "steps" in
  let normalized_steps := _normalize_steps steps_payload in
  let normalized_steps :=
    match normalized_steps with
    | [] => fallback_steps
    | _ => normalized_steps
    end in
  let questions_payload := get_or_none payload "questions" in
  let normalized_questions := _normalize_questions questions_payload in
  let approval_gate := default (JObj []) (dict_get payload "approval_gate") in
  let metadata := default (JObj []) (dict_get payload "metadata") in
  let plan_id :=
    py_str B (py_or (dict_get payload "plan_id")
                (JStr ("plan_" +:+ Task.task_id task +:+ "_v1"))) in
  let task_id :=
    py_str B (py_or (dict_get payload "task_id") (JStr (Task.task_id task))) in
  version <-- py_int B (default (JInt 1) (dict_get payload "version")) ;;
  let goal :=
    py_str B (py_or (dict_get payload "goal")
                (if truthy_str (Task.description task)
                 then JStr (Task.description task)
                 else JStr (Task.title task))) in
  assumptions <-- py_iter (default (JList []) (dict_get payload "assumptions")) ;;
  allowed_items <-- py_iter allowed_paths ;;
  forbidden_items <-- py_iter forbidden_paths ;;
  before_run <-- py_get approval_gate "required_before_run" ;;
  before_commit <-- py_get approval_gate "required_before_commit" ;;
  created_at <-- py_get metadata "created_at" ;;
  created_by <-- py_get metadata "created_by" ;;
  let plan_dict : dict :=
    [ ("plan_id", JStr plan_id);
      ("task_id", JStr task_id);
      ("version", JInt version);
      ("goal", JStr goal);
      ("assumptions", JList assumptions);
      ("constraints",
       JObj [ ("allowed_paths",
               JList (map (fun item => JStr (py_str B item)) allowed_items));
              ("forbidden_paths",
               JList (map (fun item => JStr (py_str B item)) forbidden_items));
              ("max_files_changed", JInt max_files_changed) ]);
      ("questions", JList (map JObj normalized_questions));
      ("steps", JList (map JObj normalized_steps));
      ("approval_gate",
       JObj [ ("required_before_run",
               JBool (json_truthy (default (JBool true) before_run)));
              ("required_before_commit",
               JBool (json_truthy (default (JBool true) before_commit))) ]);
      ("metadata",
       JObj [ ("created_at", JStr (py_str B (py_or created_at (JStr now))));
              ("created_by",
               JStr (py_str B (py_or created_by
                                 (JStr "opencode-plan-agent")))) ]) ] in
  Plan.from_dict B now plan_dict.

End PlanPayload.

End opencode.

(* ------------------------------------------------------------------ *)
(** ** re (Python standard library): the patterns of intent.py *)

Module re.

Local Open Scope N_scope.

(** The pieces the patterns of intent.py are made of. *)
Inductive atom : Type :=
  | Char (c : N)              (* a literal character *)
  | OptChar (c : N)           (* [(c)?] *)
  | Spaces                    (* [\s+] *)
  | WordBoundary              (* [\b] *)
  | Start                     (* [^] *)
  | End.                      (* [$] *)

Definition pattern : Type := list atom.

(** A literal text, character by character. *)
Definition text (s : string) : pattern := map Char (utf8_decode s).

(** [c.lower()] on a code point: the ASCII letters. *)
Definition lower_point (c : N) : N :=
  if (65 <=? c) && (c <=? 90) then c + 32 else c.

(** Two characters are the same under [re.IGNORECASE]. *)
Definition same_char (a b : N) : bool := lower_point a =? lower_point b.

(** The class [\w] on [str]: letters, digits and the underscore.  Beyond
    ASCII every code point counts as a letter or digit, except those of the
    blocks of punctuation, symbols and spaces: Latin-1 punctuation, General
    Punctuation, CJK Symbols and Punctuation, and the full-width and
    half-width punctuation. *)
Definition is_word (c : N) : bool :=
  if c <? 128 then
    (48 <=? c) && (c <=? 57) || (65 <=? c) && (c <=? 90)
    || (97 <=? c) && (c <=? 122) || (c =? 95)
  else
    negb ((c <=? 191) && negb ((c =? 170) || (c =? 181) || (c =? 186))
          || (c =? 215) || (c =? 247)
          || (8192 <=? c) && (c <=? 8303)
          || (12288 <=? c) && (c <=? 12351)
          || (65280 <=? c) && (c <=? 65295)
          || (65306 <=? c) && (c <=? 65312)
          || (65339 <=? c) && (c <=? 65344)
          || (65371 <=? c) && (c <=? 65381)
          || isspace c).

Definition word_before (prev : option N) : bool :=
  match prev with Some c => is_word c | None => false end.

Definition word_after (s : list N) : bool :=
  match s with c :: _ => is_word c | [] => false end.

(** The pattern matches a prefix of [s]; [prev] is the character before. *)
Fixpoint match_here (p : pattern) (prev : option N) (s : list N) : bool :=
  match p with
  | [] => true
  | Char x :: more =>
      match s with
      | c :: s' => same_char c x && match_here more (Some c) s'
      | [] => false
      end
  | OptChar x :: more =>
      match s with
      | c :: s' => same_char c x && match_here more (Some c) s'
      | [] => false
      end
      || match_here more prev s
  | Spaces :: more =>
      match s with
      | c :: s' =>
          isspace c
          && (fix run (last : N) (s : list N) : bool :=
                match s with
                | c' :: s'' => isspace c' && run c' s''
                | [] => false
                end
                || match_here more (Some last) s) c s'
      | [] => false
      end
  | WordBoundary :: more =>
      xorb (word_before prev) (word_after s) && match_here more prev s
  | Start :: more =>
      match prev with None => match_here more prev s | Some _ => false end
  | End :: more =>
      match s with
      | [] => match_here more prev s
      | [c] => (c =? 10) && match_here more prev s
      | _ => false
      end
  end.

(** The pattern matches somewhere in the text. *)
Fixpoint search_from (p : pattern) (prev : option N) (s : list N) : bool :=
  match_here p prev s
  || match s with
     | c :: s' => search_from p (Some c) s'
     | [] => false
     end.

(** [re.search(pattern, text, re.IGNORECASE)] as a condition. *)
Definition search (p : pattern) (s : list N) : bool := search_from p None s.

End re.

(* ------------------------------------------------------------------ *)
(** ** intent.py: the rule-based classifier *)

Module intent.

Import re.

Module ApprovalIntent.
Inductive t : Type := APPROVE | REJECT | CLARIFY | UNKNOWN.

Definition value (i : t) : string :=
  match i with
  | APPROVE => "approve"
  | REJECT => "reject"
  | CLARIFY => "clarify"
  | UNKNOWN => "unknown"
  end.
End ApprovalIntent.

(** A confidence is held as the decimal fraction written in the source. *)
Module IntentResult.
Record t : Type := mk {
  intent : ApprovalIntent.t;
  confidence : Q;
  reason : string;
  raw : option dict
}.
End IntentResult.

Module RuleBasedIntentClassifier.

Definition word (s : string) : pattern :=
  (WordBoundary :: text s ++ [WordBoundary])%list.

Definition two_words (a b : string) : pattern :=
  (WordBoundary :: text a ++ Spaces :: text b ++ [WordBoundary])%list.

Definition _approve_patterns : list pattern :=
  [ (Start :: text "/approve" ++ [End])%list;      (* ^/approve$ *)
    (WordBoundary :: text "approve"
       ++ [OptChar 100; WordBoundary])%list;       (* \bapprove(d)?\b *)
    two_words "go" "ahead";                        (* \bgo\s+ahead\b *)
    two_words "ship" "it";                         (* \bship\s+it\b *)
    word "ok";                                     (* \bok\b *)
    word "okay";                                   (* \bokay\b *)
    word "lgtm";                                   (* \blgtm\b *)
    text "同意";
    text "通过";
    text "可以开始";
    text "开始吧";
    text "开干";
    text "没问题" ].

Definition _reject_patterns : list pattern :=
  [ (Start :: text "/reject" ++ [End])%list;       (* ^/reject$ *)
    word "reject";                                 (* \breject\b *)
    word "decline";                                (* \bdecline\b *)
    word "cancel";                                 (* \bcancel\b *)
    word "hold";                                   (* \bhold\b *)
    two_words "not" "now";                         (* \bnot\s+now\b *)
    text "不同意";
    text "拒绝";
    text "先别";
    text "不要";
    text "取消";
    text "停止";
    text "停下" ].

Definition _clarify_patterns : list pattern :=
  [ text "?";                                      (* \? *)
    text "为什么";
    text "能不能";
    text "是否";
    text "请解释";
    text "再确认" ].

(** [text.strip()] on the code points. *)
Fixpoint lstrip (s : list N) : list N :=
  match s with
  | c :: s' => if isspace c then lstrip s' else s
  | [] => []
  end.

Definition strip (s : list N) : list N := rev (lstrip (rev (lstrip s))).

(** [re.sub(r"\s+", " ", s)]: every run of white space becomes one space;
    [in_run] says that the character before was white space. *)
Fixpoint collapse (in_run : bool) (s : list N) : list N :=
  match s with
  | [] => []
  | c :: s' =>
      if isspace c then
        if in_run then collapse true s' else 32%N :: collapse true s'
      else c :: collapse false s'
  end.

(** [_normalize]: the code points of the normalised text. *)
Definition _normalize (text : string) : list N :=
  collapse false (map lower_point (strip (utf8_decode text))).

Definition _match_any (text : list N) (patterns : list pattern) : bool :=
  existsb (fun pattern => search pattern text) patterns.

Definition classify (text : string) : IntentResult.t :=
  let normalized := _normalize text in
  match normalized with
  | [] => IntentResult.mk ApprovalIntent.UNKNOWN 0 "empty message" None
  | _ =>
      if _match_any normalized _reject_patterns then
        IntentResult.mk ApprovalIntent.REJECT (95 # 100) "matched reject rule"
          None
      else if _match_any normalized _approve_patterns then
        IntentResult.mk ApprovalIntent.APPROVE (95 # 100)
          "matched approve rule" None
      else if _match_any normalized _clarify_patterns then
        IntentResult.mk ApprovalIntent.CLARIFY (6 # 10) "matched clarify rule"
          None
      else
        IntentResult.mk ApprovalIntent.UNKNOWN (2 # 10) "no rule matched" None
  end.

End RuleBasedIntentClassifier.

(** The [IntentClassifier] protocol: [classify(text, task)] returns a result
    or raises. *)
Definition IntentClassifier : Type :=
  string -> option Task.t -> Exn + IntentResult.t.

Module HybridIntentClassifier.

Record t : Type := mk {
  rule_classifier : IntentClassifier;
  llm_classifier : option IntentClassifier;
  llm_threshold : Q
}.

(** [HybridIntentClassifier(rule_classifier, llm_classifier, llm_threshold)]:
    a missing rule classifier is the rule-based one. *)
Definition init (rule_classifier llm_classifier : option IntentClassifier)
    (llm_threshold : Q) : t :=
  mk (match rule_classifier with
      | Some c => c
      | None => fun text _ => inr (RuleBasedIntentClassifier.classify text)
      end)
     llm_classifier llm_threshold.

Definition is_unknown (i : ApprovalIntent.t) : bool :=
  match i with ApprovalIntent.UNKNOWN => true | _ => false end.

(** [max(a, b)] *)
Definition py_max (a b : Q) : Q := if Qle_bool b a then a else b.

Definition classify (self : t) (text : string) (task : option Task.t)
  : Exn + IntentResult.t :=
  (rule_result <-- rule_classifier self text task ;;
   if negb (is_unknown (IntentResult.intent rule_result)) then inr rule_result
   else
     match llm_classifier self with
     | None => inr rule_result
     | Some llm =>
         llm_result <-- llm text task ;;
         if Qle_bool (llm_threshold self) (IntentResult.confidence llm_result)
         then inr llm_result
         else
           inr (IntentResult.mk ApprovalIntent.UNKNOWN
                  (py_max (IntentResult.confidence rule_result)
                     (IntentResult.confidence llm_result))
                  "llm confidence below threshold"
                  (IntentResult.raw llm_result))
     end)%E.

End HybridIntentClassifier.

End intent.

(* ------------------------------------------------------------------ *)
(** ** orchestrator.py: creating, clarifying and approving a task *)

Module lifecycle.

Import TaskState intent.
Local Open Scope m_scope.

(** adapters/opencode.py, [ClarifyResult] *)
Module ClarifyResult.
Record t : Type := mk {
  summary : string;
  plan : Plan.t;
  usage : dict;
  raw_text : string
}.
End ClarifyResult.

Definition set_plan (v : option Plan.t) (x : Task.t) : Task.t :=
  Task.mk (Task.task_id x) (Task.title x) (Task.description x)
    (Task.source x) (Task.repo x) (Task.state x) (Task.approval x) v
    (Task.execution x) (Task.artifacts x) (Task.event_log x)
    (Task.created_at x) (Task.updated_at x).

Definition set_approval (v : Approval.t) (x : Task.t) : Task.t :=
  Task.mk (Task.task_id x) (Task.title x) (Task.description x)
    (Task.source x) (Task.repo x) (Task.state x) v (Task.plan x)
    (Task.execution x) (Task.artifacts x) (Task.event_log x)
    (Task.created_at x) (Task.updated_at x).

Definition set_clarify_summary (v : option string) (task : Task.t) : Task.t :=
  let a := Task.artifacts task in
  Task.set_artifacts
    (TaskArtifacts.mk v (TaskArtifacts.diff_path a)
       (TaskArtifacts.test_report_path a) (TaskArtifacts.pr_url a)
       (TaskArtifacts.changed_files a) (TaskArtifacts.test_results a)) task.

Definition set_approved_by (v : option string) (task : Task.t) : Task.t :=
  let a := Task.approval task in
  set_approval (Approval.mk (Approval.required a) v (Approval.approved_at a))
    task.

Definition set_approved_at (v : option string) (task : Task.t) : Task.t :=
  let a := Task.approval task in
  set_approval (Approval.mk (Approval.required a) (Approval.approved_by a) v)
    task.

(** [task = self.store.get(task_id)], then the body of the method on the
    task object, then [return task]: the world the call leaves, and the task
    it returns or the exception it raises. *)
Definition on_stored_task (body : M unit) (task_id : string) (w : World)
  : World * (Exn + Task.t) :=
  match store.get w task_id with
  | inl e => (w, inl e)
  | inr task =>
      match body (task, w) with
      | ((task', w'), inr _) => (w', inr task')
      | ((_, w'), inl e) => (w', inl e)
      end
  end.

Section Operations.

(** What is injected into the orchestrator beside the collaborators of
    [run_task]: the [clarify] method of the client and the intent
    classifier.  A confidence is a float, for which [json] has no
    constructor: [json_of_float] is the value a float has in a payload. *)
Variable clarify : Task.t -> Exn + ClarifyResult.t.
Variable intent_classifier : IntentClassifier.
Variable json_of_float : Q -> json.

(** [Orchestrator.create_task]; [task_id] is what [_generate_task_id()]
    returns.  The two timestamps of the new task are two readings of the
    clock. *)
Definition create_task (task_id title description : string)
    (source : TaskSource.t) (repo : RepoContext.t) (w : World)
  : World * (Exn + Task.t) :=
  let body : M unit :=
    created_at <- utc_now_iso ;;
    updated_at <- utc_now_iso ;;
    modify_task (fun _ =>
      Task.mk task_id title description source repo NEW
        (Approval.mk true None None) None (ExecutionInfo.mk 0 3 None)
        (TaskArtifacts.mk None None None None [] []) [] created_at
        updated_at) ;;
    record_event "task.created" "Task created" None ;;
    store.save in
  let blank :=
    Task.mk task_id title description source repo NEW
      (Approval.mk true None None) None (ExecutionInfo.mk 0 3 None)
      (TaskArtifacts.mk None None None None [] []) [] "" "" in
  match body (blank, w) with
  | ((task', w'), inr _) => (w', inr task')
  | ((_, w'), inl e) => (w', inl e)
  end.

(** The body of [Orchestrator.clarify_task]. *)
Definition clarify_loaded_task : M unit :=
  state_machine.transition CLARIFYING "state.change" "Entering CLARIFYING"
    None ;;
  task <- get_task ;;
  clarify_result <- lift (clarify task) ;;
  modify_task (set_plan (Some (ClarifyResult.plan clarify_result))) ;;
  modify_task
    (set_clarify_summary (Some (ClarifyResult.summary clarify_result))) ;;
  plan <- orchestrator.get_plan ;;
  record_event "clarify.completed" "Clarification completed"
    (Some [ ("questions", JInt (Z.of_nat (length (Plan.questions plan))));
            ("steps", JInt (Z.of_nat (length (Plan.steps plan)))) ]) ;;
  state_machine.transition WAIT_APPROVAL "state.change" "Waiting for approval"
    None ;;
  store.save.

Definition clarify_task : string -> World -> World * (Exn + Task.t) :=
  on_stored_task clarify_loaded_task.

(** The body of [Orchestrator.approve_task]. *)
Definition approve_loaded_task (approved_by : string) : M unit :=
  modify_task (set_approved_by (Some approved_by)) ;;
  now <- utc_now_iso ;;
  modify_task (set_approved_at (Some now)) ;;
  record_event "approval.granted" "Task approved"
    (Some [("approved_by", JStr approved_by)]) ;;
  store.save.

Definition approve_task (task_id approved_by : string)
  : World -> World * (Exn + Task.t) :=
  on_stored_task (approve_loaded_task approved_by) task_id.

(** The body of [Orchestrator.handle_approval_message]. *)
Definition handle_loaded_approval_message (user_id text : string) : M unit :=
  task <- get_task ;;
  intent_result <- lift (intent_classifier text (Some task)) ;;
  let confidence := json_of_float (IntentResult.confidence intent_result) in
  record_event "approval.intent.detected" "Approval intent classified"
    (Some [ ("intent",
             JStr (ApprovalIntent.value (IntentResult.intent intent_result)));
            ("confidence", confidence);
            ("reason", JStr (IntentResult.reason intent_result)) ]) ;;
  task <- get_task ;;
  if negb (bool_decide (Task.state task = WAIT_APPROVAL)) then
    record_event "approval.intent.ignored" "Task is not waiting for approval"
      (Some [("state", JStr (value (Task.state task)))]) ;;
    store.save
  else
    match IntentResult.intent intent_result with
    | ApprovalIntent.APPROVE =>
        modify_task (set_approved_by (Some user_id)) ;;
        now <- utc_now_iso ;;
        modify_task (set_approved_at (Some now)) ;;
        record_event "approval.granted"
          "Task approved from natural language intent"
          (Some [("approved_by", JStr user_id); ("confidence", confidence)])
    | ApprovalIntent.REJECT =>
        state_machine.transition CANCELLED "state.change"
          "Task rejected by user"
          (Some [("rejected_by", JStr user_id); ("confidence", confidence)])
    | _ =>
        record_event "approval.pending"
          "Approval intent unclear, waiting for explicit confirmation"
          (Some [("message", JStr (str_strip text))])
    end ;;
    store.save.

Definition handle_approval_message (task_id user_id text : string)
  : World -> World * (Exn + Task.t) :=
  on_stored_task (handle_loaded_approval_message user_id text) task_id.

(** The condition of the list comprehension of
    [_find_latest_waiting_approval_task]. *)
Definition waits_for (chat_id user_id : string) (task : Task.t) : bool :=
  bool_decide (Task.state task = WAIT_APPROVAL)
  && String.eqb (TaskSource.chat_id (Task.source task)) chat_id
  && String.eqb (TaskSource.user_id (Task.source task)) user_id.

(** [sorted(candidates, key=lambda item: item.updated_at, reverse=True)[0]] *)
Definition _find_latest_waiting_approval_task (chat_id user_id : string)
    (w : World) : option Task.t :=
  let tasks := store.list_ w in
  let candidates := List.filter (waits_for chat_id user_id) tasks in
  match candidates with
  | [] => None
  | _ =>
      head (sorted (fun a b => str_lt (Task.updated_at b) (Task.updated_at a))
              candidates)
  end.

End Operations.

End lifecycle.

(* ------------------------------------------------------------------ *)
(** ** channels/feishu.py: the requirement in a message event *)

Module feishu.

Module FeishuRequirement.
Record t : Type := mk {
  user_id : string;
  chat_id : string;
  message_id : string;
  text : string
}.
End FeishuRequirement.

Section Parse.

Variable B : Builtins.

(** [json.loads] is left open: it returns the value a text denotes, or
    raises [JSONDecodeError]. *)
Variable json_loads : string -> Exn + json.

Local Open Scope e_scope.


End Parse.

End feishu.

(* ------------------------------------------------------------------ *)
(** ** channels/feishu_webhook.py *)

Module feishu_webhook.

Import feishu.

Module FeishuWebhookSettings.
Record t : Type := mk {
  repo_name : string;
  base_branch : string;
  worktree_path : option string;
  auto_clarify : bool;
  auto_run_on_approve : bool;
  auto_provision_worktree : bool;
  repo_path : option string;
  worktrees_root : option string;
  branch_prefix : string;
  send_reply : bool;
  allow_from : option (list string);
  verification_token : option string
}.
End FeishuWebhookSettings.

(** [ProcessedMessageStore]: the set of the message ids seen, and the file
    that holds it, as the JSON document in it ([None]: no file, or a file
    that is not JSON). *)
Module ProcessedMessageStore.

Record t : Type := mk {
  _seen : gset string;
  file : option json
}.

Section Load.

Variable B : Builtins.

(** [_load]: what the file makes of [_seen], which starts empty. *)
Definition _load (file : option json) : gset string :=
  match file with
  | Some (JList items) => list_to_set (map (py_str B) items)
  | _ => ∅
  end.

(** [ProcessedMessageStore(file_path)] *)
Definition init (file : option json) : t := mk (_load file) file.

End Load.




End ProcessedMessageStore.

(** What a call of [process_payload] works on: the store of the messages
    seen, the world of the orchestrator, and the replies sent so far, each
    with its chat. *)
Record Server : Type := mkServer {
  processed_store : ProcessedMessageStore.t;
  world : World;
  outbox : list (string * string)
}.


Section Processor.

Variable B : Builtins.
Variable json_loads : string -> Exn + json.

(** The collaborators of the processor: the orchestrator's
    [process_feishu_message], called with the requirement and the settings,
    and the messenger, if there is one, whose [send_text] may depend on what
    was sent before. *)
Variable process_feishu_message :
  FeishuRequirement.t -> FeishuWebhookSettings.t -> World ->
  World * (Exn + (Task.t * string)).
Variable messenger :
  option (list (string * string) -> string -> string -> Exn + unit).
Variable settings : FeishuWebhookSettings.t.




(** [validate_token] *)
Definition validate_token (payload : dict) : bool :=
  match FeishuWebhookSettings.verification_token settings with
  | None => true
  | Some "" => true
  | Some expected =>
      let token := default JNull (dict_get payload "token") in
      let token :=
        if json_truthy token then token
        else
          match default (JObj []) (dict_get payload "header") with
          | JObj header => default JNull (dict_get header "token")
          | _ => token
          end in
      String.eqb (py_str B (if json_truthy token then token else JStr ""))
        expected
  end.

End Processor.

End feishu_webhook.

(* ================================================================== *)
(** * Properties *)

Set Warnings "-clear-no-such-hyp".

Local Open Scope m_scope.

(** Case analysis on the innermost test of a hypothesis. *)
Ltac case_inner H :=
  match type of H with
  | context [match ?x with _ => _ end] =>
      lazymatch x with
      | context [match _ with _ => _ end] => fail
      | _ => destruct x eqn:?
      end
  end.

(* ------------------------------------------------------------------ *)
(** ** Dictionaries *)



Lemma filter_empty_iff {A} (P : A -> Prop) `{!forall x, Decision (P x)}
    (l : list A) :
  filter P l = [] <-> forall x, x ∈ l -> ~ P x.
Proof.
  induction l as [|a l IH].
  - split; [|reflexivity]. intros _ x Hx. by apply elem_of_nil in Hx.
  - rewrite filter_cons. destruct (decide (P a)) as [Ha|Ha].
    + split; [discriminate|]. intros Hall. exfalso.
      apply (Hall a); [apply list_elem_of_here|assumption].
    + rewrite IH. split.
      * intros Hall x Hx. apply elem_of_cons in Hx as [->|Hx]; auto.
      * intros Hall x Hx. apply Hall. by apply list_elem_of_further.
Qed.

Lemma truthy_opt_set (x : option string) :
  truthy_opt x = true <-> exists s, x = Some s /\ s <> "".
Proof.
  destruct x as [s|]; simpl.
  - rewrite negb_true_iff, String.eqb_neq. split; [eauto|].
    by intros (? & [= <-] & ?).
  - split; [discriminate|]. by intros (? & ? & ?).
Qed.

(* ------------------------------------------------------------------ *)
(** ** The state machine *)

Section StateMachine.

Import TaskState state_machine.

(** The transition table, pair by pair. *)
Definition table_pairs : list (TaskState.t * TaskState.t) :=
  [ (NEW, CLARIFYING); (NEW, FAILED); (NEW, CANCELLED);
    (CLARIFYING, WAIT_APPROVAL); (CLARIFYING, FAILED); (CLARIFYING, CANCELLED);
    (WAIT_APPROVAL, RUNNING); (WAIT_APPROVAL, FAILED);
    (WAIT_APPROVAL, CANCELLED);
    (RUNNING, TESTING); (RUNNING, FAILED); (RUNNING, CANCELLED);
    (TESTING, DONE); (TESTING, FAILED); (TESTING, CANCELLED);
    (FAILED, RUNNING); (FAILED, CANCELLED) ].

Lemma allowed_iff_table (s target : TaskState.t) :
  target ∈ _ALLOWED_TRANSITIONS s <-> (s, target) ∈ table_pairs.
Proof.
  assert (E : bool_decide (target ∈ _ALLOWED_TRANSITIONS s)
              = bool_decide ((s, target) ∈ table_pairs))
    by (destruct s, target; vm_compute; reflexivity).
  rewrite <- (bool_decide_spec (target ∈ _)), E.
  apply bool_decide_spec.
Qed.

(** A failed check leaves the task object and the world as they were. *)
Lemma transition_raises task w target event_type message payload e :
  assert_transition task target = inl e ->
  transition target event_type message payload (task, w) = ((task, w), inl e).
Proof.
  intros H. unfold transition, bind, get_task, lift. simpl. by rewrite H.
Qed.

(** The event a successful transition records, and the task it leaves. *)
Definition change_payload (previous target : TaskState.t)
    (payload : option dict) : dict :=
  let base := [("from", JStr (value previous)); ("to", JStr (value target))] in
  match payload with
  | Some (kv :: more) => dict_update base (kv :: more)
  | _ => base
  end.

Definition task_after (task : Task.t) (w : World) (target : TaskState.t)
    (event_type message : string) (payload : option dict) : Task.t :=
  Task.set_updated_at (clock_readings w (S (clock_reads w)))
    (Task.set_event_log
       (Task.event_log task ++
          [TaskEvent.mk (clock_readings w (clock_reads w)) event_type message
             (change_payload (Task.state task) target payload)])
       (Task.set_state target task)).

Lemma transition_passes task w target event_type message payload :
  assert_transition task target = inr tt ->
  transition target event_type message payload (task, w)
  = ((task_after task w target event_type message payload,
      mkWorld (clock_readings w) (S (S (clock_reads w))) (task_files w)
              (report_files w)),
     inr tt).
Proof.
  intros H. unfold transition, bind, get_task, lift. simpl. rewrite H.
  unfold record_event, bind, modify_task, utc_now_iso, task_after,
    change_payload. simpl.
  destruct payload as [[|kv more]|]; reflexivity.
Qed.

Lemma assert_transition_outside task target :
  target ∉ _ALLOWED_TRANSITIONS (Task.state task) ->
  exists msg, assert_transition task target
              = inl (mkExn InvalidTransitionError msg).
Proof.
  intros H. unfold assert_transition.
  rewrite bool_decide_eq_false_2 by assumption. simpl.
  unfold invalid. eauto.
Qed.

Lemma assert_transition_class task target e :
  assert_transition task target = inl e ->
  exn_class e = InvalidTransitionError.
Proof.
  unfold assert_transition, invalid. intros H.
  repeat case_inner H;
    first [ discriminate H | injection H as <-; reflexivity ].
Qed.

Lemma assert_transition_inside task target :
  assert_transition task target = inr tt ->
  target ∈ _ALLOWED_TRANSITIONS (Task.state task).
Proof.
  unfold assert_transition. intros H.
  destruct (bool_decide (target ∈ _ALLOWED_TRANSITIONS (Task.state task)))
    eqn:E.
  - by apply bool_decide_eq_true_1 in E.
  - simpl in H. discriminate.
Qed.

(** C1. [transition] succeeds only on a pair of the fixed table (from [DONE]
    and [CANCELLED] the table has no pair); on any other pair it raises
    [InvalidTransitionError] and the task object, with its state, event log
    and every other field, is what it was. *)
Theorem transition_only_along_table
    (task : Task.t) (w : World) (target : TaskState.t)
    (event_type message : string) (payload : option dict) :
  let result := transition target event_type message payload (task, w) in
  (snd result = inr tt -> (Task.state task, target) ∈ table_pairs)
  /\ ((Task.state task, target) ∉ table_pairs ->
      fst result = (task, w)
      /\ exists msg, snd result = inl (mkExn InvalidTransitionError msg)).
Proof.
  simpl. split.
  - intros H. apply allowed_iff_table.
    destruct (assert_transition task target) as [e|[]] eqn:E.
    + rewrite (transition_raises _ _ _ _ _ _ _ E) in H. discriminate.
    + by apply assert_transition_inside.
  - intros H. rewrite <- allowed_iff_table in H.
    destruct (assert_transition_outside task target H) as [msg E].
    rewrite (transition_raises _ _ _ _ _ _ _ E). simpl. eauto.
Qed.

(** What the entry checks of a target state ask of the task. *)
Definition is_set (x : option string) : Prop := truthy_opt x = true.

Definition approval_satisfied (a : Approval.t) : Prop :=
  Approval.required a = true ->
  is_set (Approval.approved_by a) /\ is_set (Approval.approved_at a).

Definition no_open_required_question (plan : Plan.t) : Prop :=
  forall q, q ∈ Plan.questions plan ->
    ~ (PlanQuestion.required q = true
       /\ PlanQuestion.status q = QuestionStatus.OPEN).

Definition entry_ok (task : Task.t) (target : TaskState.t) : Prop :=
  match target with
  | RUNNING =>
      approval_satisfied (Task.approval task)
      /\ exists plan, Task.plan task = Some plan
                      /\ no_open_required_question plan
  | TESTING => is_set (TaskArtifacts.diff_path (Task.artifacts task))
  | DONE => is_set (TaskArtifacts.test_report_path (Task.artifacts task))
  | _ => True
  end.


Lemma approval_satisfied_iff (a : Approval.t) :
  approval_satisfied a
  <-> Approval.required a && negb (Approval.is_approved a) = false.
Proof.
  unfold approval_satisfied, is_set, Approval.is_approved.
  destruct (Approval.required a); simpl.
  - rewrite negb_false_iff, andb_true_iff. intuition.
  - intuition discriminate.
Qed.

Lemma open_required_nil (plan : Plan.t) :
  Plan.open_required_questions plan = [] <-> no_open_required_question plan.
Proof.
  unfold Plan.open_required_questions, no_open_required_question.
  apply filter_empty_iff.
Qed.

Lemma assert_transition_entry (task : Task.t) (target : TaskState.t) :
  assert_transition task target = inr tt <->
  target ∈ _ALLOWED_TRANSITIONS (Task.state task) /\ entry_ok task target.
Proof.
  unfold assert_transition, invalid.
  destruct (bool_decide (target ∈ _ALLOWED_TRANSITIONS (Task.state task)))
    eqn:E; simpl.
  2:{ apply bool_decide_eq_false_1 in E. split; [discriminate|tauto]. }
  apply bool_decide_eq_true_1 in E.
  destruct target; simpl; try (split; [by intros _ | reflexivity]).
  - (* RUNNING *)
    destruct (Approval.required (Task.approval task)
              && negb (Approval.is_approved (Task.approval task))) eqn:A.
    { split; [discriminate|]. intros (_ & HA & _).
      apply approval_satisfied_iff in HA. congruence. }
    apply approval_satisfied_iff in A.
    destruct (Task.plan task) as [plan|].
    2:{ split; [discriminate|]. by intros (_ & _ & ? & ? & _). }
    destruct (Plan.open_required_questions plan) eqn:Q.
    + apply open_required_nil in Q. split; [eauto 6|reflexivity].
    + split; [discriminate|]. intros (_ & _ & ? & [= <-] & HQ).
      apply open_required_nil in HQ. congruence.
  - (* TESTING *)
    unfold is_set.
    destruct (truthy_opt (TaskArtifacts.diff_path (Task.artifacts task)));
      simpl; [tauto|]. split; [discriminate|]. by intros [_ ?].
  - (* DONE *)
    unfold is_set.
    destruct (truthy_opt
                (TaskArtifacts.test_report_path (Task.artifacts task)));
      simpl; [tauto|]. split; [discriminate|]. by intros [_ ?].
Qed.


End StateMachine.

(* ------------------------------------------------------------------ *)
(** ** The file-change policy *)

Section Policy.

Import policy.

Implicit Types (c : PlanConstraints.t) (changed : list string).

Definition count_ok changed c : Prop :=
  (Z.of_nat (length changed) <= PlanConstraints.max_files_changed c)%Z.

(** The normalised path is matched by a forbidden glob, by an allowed glob. *)
Definition path_forbidden c (file_path : string) : bool :=
  _matches_any (normalize file_path) (PlanConstraints.forbidden_paths c).

Definition path_allowed c (file_path : string) : bool :=
  _matches_any (normalize file_path) (PlanConstraints.allowed_paths c).

Definition has_globs (patterns : list string) : bool :=
  match patterns with [] => false | _ => true end.

(** The two per-path rules as the loop applies them. *)
Definition path_passes c (file_path : string) : bool :=
  negb (path_forbidden c file_path)
  && (negb (has_globs (PlanConstraints.allowed_paths c))
      || path_allowed c file_path).

(** The error the loop raises for a path that does not pass. *)
Definition path_error c (file_path : string) : Exn :=
  if path_forbidden c file_path
  then mkExn PolicyViolationError
         ("File is forbidden by policy: " +:+ normalize file_path)
  else mkExn PolicyViolationError
         ("File is outside allowed paths: " +:+ normalize file_path).

Definition count_error changed c : Exn :=
  mkExn PolicyViolationError
    ("Changed files exceeded max_files_changed: "
     +:+ str_of_Z (Z.of_nat (length changed)) +:+ " > "
     +:+ str_of_Z (PlanConstraints.max_files_changed c)).

Lemma matches_any_nil (path : string) : _matches_any path [] = false.
Proof. reflexivity. Qed.

Lemma check_paths_cons c (file_path : string) (rest : list string) :
  check_paths (file_path :: rest) c
  = if path_passes c file_path then check_paths rest c
    else inl (path_error c file_path).
Proof.
  cbn [check_paths].
  unfold path_passes, path_error, path_forbidden, path_allowed, violation.
  fold (has_globs (PlanConstraints.forbidden_paths c)).
  fold (has_globs (PlanConstraints.allowed_paths c)).
  assert (Hnil : has_globs (PlanConstraints.forbidden_paths c) = false ->
                 _matches_any (normalize file_path)
                   (PlanConstraints.forbidden_paths c) = false)
    by (destruct (PlanConstraints.forbidden_paths c);
        [reflexivity|discriminate]).
  destruct (has_globs (PlanConstraints.forbidden_paths c)).
  - destruct (_matches_any (normalize file_path)
                (PlanConstraints.forbidden_paths c)); simpl; [reflexivity|].
    destruct (has_globs (PlanConstraints.allowed_paths c)); simpl;
      [|reflexivity].
    by destruct (_matches_any (normalize file_path)
                   (PlanConstraints.allowed_paths c)).
  - rewrite Hnil by reflexivity. simpl.
    destruct (has_globs (PlanConstraints.allowed_paths c)); simpl;
      [|reflexivity].
    by destruct (_matches_any (normalize file_path)
                   (PlanConstraints.allowed_paths c)).
Qed.

Lemma check_paths_ok c changed :
  check_paths changed c = inr tt <->
  forall p, p ∈ changed -> path_passes c p = true.
Proof.
  induction changed as [|p rest IH].
  - split; [|reflexivity]. intros _ p Hp. by apply elem_of_nil in Hp.
  - rewrite check_paths_cons. destruct (path_passes c p) eqn:E.
    + rewrite IH. split.
      * intros Hall q Hq. apply elem_of_cons in Hq as [->|Hq]; auto.
      * intros Hall q Hq. apply Hall. by apply list_elem_of_further.
    + split; [discriminate|]. intros Hall.
      rewrite Hall in E; [discriminate|apply list_elem_of_here].
Qed.

(** The loop stops at the first path that does not pass. *)
Lemma check_paths_first c (before after : list string) (p : string) :
  (forall q, q ∈ before -> path_passes c q = true) ->
  path_passes c p = false ->
  check_paths (before ++ p :: after) c = inl (path_error c p).
Proof.
  induction before as [|q before IH]; intros Hb Hp.
  - simpl app. rewrite check_paths_cons. by rewrite Hp.
  - change ((q :: before) ++ p :: after)%list
      with (q :: (before ++ p :: after))%list.
    rewrite check_paths_cons, (Hb q) by apply list_elem_of_here.
    apply IH; [|assumption]. intros r Hr. apply Hb.
    by apply list_elem_of_further.
Qed.

Lemma check_paths_class c changed e :
  check_paths changed c = inl e -> exn_class e = PolicyViolationError.
Proof.
  induction changed as [|p rest IH]; [discriminate|].
  rewrite check_paths_cons. destruct (path_passes c p); [assumption|].
  intros [= <-]. unfold path_error. by destruct (path_forbidden c p).
Qed.

Lemma enforce_count_first c changed :
  ~ count_ok changed c ->
  enforce_file_policy changed c = inl (count_error changed c).
Proof.
  unfold count_ok, enforce_file_policy, violation, count_error. intros H.
  destruct (Z.ltb_spec (PlanConstraints.max_files_changed c)
              (Z.of_nat (length changed))); [reflexivity|lia].
Qed.

Lemma enforce_then_paths c changed :
  count_ok changed c ->
  enforce_file_policy changed c = check_paths changed c.
Proof.
  unfold count_ok, enforce_file_policy. intros H.
  destruct (Z.ltb_spec (PlanConstraints.max_files_changed c)
              (Z.of_nat (length changed))); [lia|reflexivity].
Qed.

#[global] Instance count_ok_dec changed c : Decision (count_ok changed c).
Proof. unfold count_ok. apply _. Defined.

Lemma enforce_ok c changed :
  enforce_file_policy changed c = inr tt <->
  count_ok changed c /\ forall p, p ∈ changed -> path_passes c p = true.
Proof.
  destruct (decide (count_ok changed c)) as [H|H].
  - rewrite enforce_then_paths, check_paths_ok by assumption. tauto.
  - rewrite enforce_count_first by assumption. split; [discriminate|tauto].
Qed.

Lemma enforce_class c changed e :
  enforce_file_policy changed c = inl e ->
  exn_class e = PolicyViolationError.
Proof.
  destruct (decide (count_ok changed c)) as [H|H].
  - rewrite enforce_then_paths by assumption. apply check_paths_class.
  - rewrite enforce_count_first by assumption. by intros [= <-].
Qed.

Lemma path_passes_spec c (p : string) :
  path_passes c p = true <->
  path_forbidden c p = false
  /\ (PlanConstraints.allowed_paths c <> [] -> path_allowed c p = true).
Proof.
  unfold path_passes, has_globs.
  rewrite andb_true_iff, negb_true_iff, orb_true_iff, negb_true_iff.
  destruct (PlanConstraints.allowed_paths c) as [|a als].
  - intuition congruence.
  - intuition discriminate.
Qed.

(** The four cases of tests/test_policy.py. *)
Example policy_tests :
  enforce_file_policy ["src/service.py"; "tests/test_service.py"]
    (PlanConstraints.mk ["src/**"; "tests/**"] ["secrets/**"] 5) = inr tt
  /\ enforce_file_policy ["secrets/token.txt"]
       (PlanConstraints.mk ["src/**"; "tests/**"; "secrets/**"]
          ["secrets/**"] 5)
     = inl (mkExn PolicyViolationError
              "File is forbidden by policy: secrets/token.txt")
  /\ enforce_file_policy ["docs/readme.md"]
       (PlanConstraints.mk ["src/**"] [] 5)
     = inl (mkExn PolicyViolationError
              "File is outside allowed paths: docs/readme.md")
  /\ enforce_file_policy ["src/a.py"; "src/b.py"]
       (PlanConstraints.mk ["src/**"] [] 1)
     = inl (mkExn PolicyViolationError
              "Changed files exceeded max_files_changed: 2 > 1").
Proof. vm_compute. repeat split; reflexivity. Qed.

(** Globs: [**] and [*] cross directory separators, [?] is one character,
    a bracket is a set of characters, and a back-slash in a path counts as a
    slash. *)
Example glob_examples :
  map (fun '(path, glob) => fnmatch.fnmatch (normalize path) glob)
    [ ("src/a/b.py", "src/**"); ("docs/readme.md", "src/**");
      ("src/a/b.py", "src/*.py"); ("src\a.py", "src/?.py");
      ("src/d.py", "src/[a-c].py"); ("src/d.py", "src/[!a-c].py");
      ("README.md", "README.md"); ("readme.md", "README.md");
      ("src/[x", "src/[x") ]
  = [ true; false; true; true; false; true; true; false; true ].
Proof. vm_compute. reflexivity. Qed.

(** C3, as the claim has it, fails: with an empty allow-list the policy
    accepts [docs/readme.md], a path that no allowed glob matches. *)
Lemma empty_allow_list_accepts_unmatched_path :
  let c := PlanConstraints.mk [] [] 5 in
  enforce_file_policy ["docs/readme.md"] c = inr tt
  /\ ~ (forall p, p ∈ ["docs/readme.md"] -> path_allowed c p = true).
Proof.
  split; [reflexivity|]. intros H.
  specialize (H "docs/readme.md" (list_elem_of_here _ _)). discriminate H.
Qed.

(** C3, amended.  [enforce_file_policy] returns normally exactly when the
    number of changed files is at most [max_files_changed], no normalised
    path is matched by a forbidden glob and, if [allowed_paths] is not empty,
    every normalised path is matched by an allowed glob.  Every failure is a
    [PolicyViolationError].  The count is checked first; then the paths are
    taken in order, each against the forbidden globs and then against the
    allowed globs, and the first path that fails stops the check.  An
    allow-list of the single glob [src/**] rejects [docs/readme.md]. *)
Theorem enforce_file_policy_rules changed c :
  (enforce_file_policy changed c = inr tt <->
     count_ok changed c
     /\ forall p, p ∈ changed ->
          path_forbidden c p = false
          /\ (PlanConstraints.allowed_paths c <> [] ->
              path_allowed c p = true))
  /\ (forall e, enforce_file_policy changed c = inl e ->
                exn_class e = PolicyViolationError)
  /\ (~ count_ok changed c ->
      enforce_file_policy changed c = inl (count_error changed c))
  /\ (count_ok changed c ->
      forall before p after,
        changed = (before ++ p :: after)%list ->
        (forall q, q ∈ before -> path_passes c q = true) ->
        path_passes c p = false ->
        enforce_file_policy changed c = inl (path_error c p))
  /\ (forall forbidden max, exists e,
        enforce_file_policy ["docs/readme.md"]
          (PlanConstraints.mk ["src/**"] forbidden max) = inl e
        /\ exn_class e = PolicyViolationError).
Proof.
  split; [|split; [|split; [|split]]].
  - rewrite enforce_ok. setoid_rewrite path_passes_spec. reflexivity.
  - intros e. apply enforce_class.
  - apply enforce_count_first.
  - intros Hc before p after -> Hb Hp.
    rewrite enforce_then_paths by assumption. by apply check_paths_first.
  - intros forbidden max.
    destruct (enforce_file_policy ["docs/readme.md"]
                (PlanConstraints.mk ["src/**"] forbidden max))
      as [e|[]] eqn:E.
    + exists e. split; [reflexivity|]. by apply enforce_class in E.
    + apply enforce_ok in E as [_ E].
      specialize (E "docs/readme.md" (list_elem_of_here _ _)).
      apply path_passes_spec in E as [_ E].
      simpl in E. specialize (E ltac:(discriminate)). discriminate E.
Qed.

(** C10. With an empty [allowed_paths] no path is checked against the
    allow-list: the policy accepts exactly the change sets within the file
    count whose paths no forbidden glob matches.  With an empty
    [forbidden_paths] nothing is forbidden: the policy accepts exactly the
    change sets within the file count whose paths pass the allow-list
    check. *)
Theorem empty_glob_lists_check_nothing changed c :
  (PlanConstraints.allowed_paths c = [] ->
     (enforce_file_policy changed c = inr tt <->
        count_ok changed c
        /\ forall p, p ∈ changed -> path_forbidden c p = false))
  /\ (PlanConstraints.forbidden_paths c = [] ->
      (forall p, path_forbidden c p = false)
      /\ (enforce_file_policy changed c = inr tt <->
            count_ok changed c
            /\ forall p, p ∈ changed ->
                 PlanConstraints.allowed_paths c <> [] ->
                 path_allowed c p = true)).
Proof.
  split.
  - intros Ha. rewrite enforce_ok. setoid_rewrite path_passes_spec.
    rewrite Ha. split.
    + intros [Hc Hp]. split; [assumption|]. intros p Hin. by apply Hp.
    + intros [Hc Hp]. split; [assumption|]. intros p Hin.
      split; [by apply Hp|]. by intros [].
  - intros Hf.
    assert (Hnone : forall p, path_forbidden c p = false)
      by (intros p; unfold path_forbidden; by rewrite Hf).
    split; [assumption|].
    rewrite enforce_ok. setoid_rewrite path_passes_spec. split.
    + intros [Hc Hp]. split; [assumption|]. intros p Hin. by apply Hp.
    + intros [Hc Hp]. split; [assumption|]. intros p Hin.
      split; [apply Hnone|]. by apply Hp.
Qed.

(** The allow-all fallback on a concrete change set: nothing is allowed
    explicitly, nothing is forbidden, and any path goes through. *)
Lemma empty_glob_lists_check_nothing_witness :
  enforce_file_policy ["docs/readme.md"; "secrets/token.txt"]
    (PlanConstraints.mk [] [] 5) = inr tt.
Proof.
  apply (proj1 (empty_glob_lists_check_nothing
                  ["docs/readme.md"; "secrets/token.txt"]
                  (PlanConstraints.mk [] [] 5)) eq_refl).
  split; [unfold count_ok; simpl; lia|]. intros p _. reflexivity.
Defined.

End Policy.

(* ------------------------------------------------------------------ *)
(** ** The plan validator *)

Section PlanValidator.

Import plan.

(** The message of a rule, when the rule is broken. *)
Definition when (broken : bool) (msg : string) : list string :=
  if broken then [msg] else [].

(** What one step adds to the error list, given the ids seen before it. *)
Definition id_errors (seen : gset string) (step : PlanStep.t) : list string :=
  if negb (truthy_str (PlanStep.id step)) then ["every step must have an id"]
  else when (bool_decide (PlanStep.id step ∈ seen))
         ("duplicate step id: " +:+ PlanStep.id step).

Definition command_errors (step : PlanStep.t) : list string :=
  when (bool_decide (PlanStep.step_type step = StepType.TEST)
        && negb (has_command (PlanStep.command step)))
    ("test step '" +:+ PlanStep.id step +:+ "' requires command").

Definition seen_after (seen : gset string) (step : PlanStep.t) : gset string :=
  if truthy_str (PlanStep.id step) then seen ∪ {[ PlanStep.id step ]}
  else seen.

Fixpoint steps_errors (seen : gset string) (steps : list PlanStep.t)
  : list string :=
  match steps with
  | [] => []
  | step :: rest =>
      (id_errors seen step ++ command_errors step
       ++ steps_errors (seen_after seen step) rest)%list
  end.

Definition types_of (steps : list PlanStep.t) : gset StepType.t :=
  list_to_set (map PlanStep.step_type steps).

Lemma loop_body_spec (st : loop_state) (step : PlanStep.t) :
  loop_body st step
  = mk_loop (seen_after (seen_step_ids st) step)
      (step_types st ∪ {[ PlanStep.step_type step ]})
      (errors st ++ id_errors (seen_step_ids st) step
       ++ command_errors step)%list.
Proof.
  unfold loop_body, seen_after, id_errors, command_errors, when.
  destruct (truthy_str (PlanStep.id step)) eqn:Hid; simpl.
  - destruct (bool_decide (PlanStep.id step ∈ seen_step_ids st)) eqn:Hin.
    + apply bool_decide_eq_true_1 in Hin.
      replace (seen_step_ids st ∪ {[PlanStep.id step]})
        with (seen_step_ids st) by set_solver.
      destruct (_ && _); simpl; by rewrite <- ?app_assoc.
    + destruct (_ && _); simpl; by rewrite ?app_nil_r.
  - destruct (_ && _); simpl; by rewrite <- ?app_assoc.
Qed.

Lemma loop_errors (steps : list PlanStep.t) (st : loop_state) :
  errors (fold_left loop_body steps st)
  = (errors st ++ steps_errors (seen_step_ids st) steps)%list.
Proof.
  revert st. induction steps as [|step rest IH]; intros st; simpl.
  - by rewrite app_nil_r.
  - rewrite IH, loop_body_spec. simpl. by rewrite <- !app_assoc.
Qed.

Lemma loop_types (steps : list PlanStep.t) (st : loop_state) :
  step_types (fold_left loop_body steps st) = step_types st ∪ types_of steps.
Proof.
  revert st. induction steps as [|step rest IH]; intros st; simpl.
  - unfold types_of. simpl. set_solver.
  - rewrite IH, loop_body_spec. unfold types_of. simpl. set_solver.
Qed.

(** The error list is the concatenation of what each rule reports. *)
Lemma validate_plan_eq (p : Plan.t) :
  validate_plan p
  = (when (negb (truthy_str (Plan.plan_id p))) "plan_id is required"
     ++ when (negb (truthy_str (Plan.task_id p))) "task_id is required"
     ++ when (negb (nonblank (Plan.goal p))) "goal is required"
     ++ when (negb (has_globs
                      (PlanConstraints.allowed_paths (Plan.constraints p))))
          "constraints.allowed_paths must not be empty"
     ++ when (PlanConstraints.max_files_changed (Plan.constraints p) <=? 0)%Z
          "constraints.max_files_changed must be > 0"
     ++ match Plan.steps p with
        | [] => ["at least one plan step is required"]
        | steps =>
            steps_errors ∅ steps
            ++ when (negb (bool_decide (StepType.CODE ∈ types_of steps)))
                 "plan requires at least one code step"
            ++ when (negb (bool_decide (StepType.TEST ∈ types_of steps)))
                 "plan requires at least one test step"
        end)%list.
Proof.
  unfold validate_plan.
  set (e1 := when (negb (truthy_str (Plan.plan_id p))) _).
  set (e2 := when (negb (truthy_str (Plan.task_id p))) _).
  set (e3 := when (negb (nonblank (Plan.goal p))) _).
  set (e4 := when (negb (has_globs _)) _).
  set (e5 := when (_ <=? 0)%Z _).
  set (errs := if (_ <=? 0)%Z then _ else _).
  assert (E : errs = (e1 ++ e2 ++ e3 ++ e4 ++ e5)%list).
  { subst errs e1 e2 e3 e4 e5. unfold when, has_globs.
    destruct (truthy_str (Plan.plan_id p)), (truthy_str (Plan.task_id p)),
      (nonblank (Plan.goal p)),
      (PlanConstraints.allowed_paths (Plan.constraints p)),
      (PlanConstraints.max_files_changed (Plan.constraints p) <=? 0)%Z;
      reflexivity. }
  clearbody errs. subst errs.
  destruct (Plan.steps p) as [|step rest].
  - by rewrite <- !app_assoc.
  - set (steps := step :: rest). rewrite loop_errors, loop_types. simpl.
    replace (∅ ∪ types_of steps) with (types_of steps) by set_solver.
    unfold when.
    destruct (bool_decide (StepType.CODE ∈ types_of steps)),
      (bool_decide (StepType.TEST ∈ types_of steps)); simpl;
      by rewrite <- ?app_assoc, ?app_nil_r.
Qed.

Lemma when_nil (b : bool) (msg : string) : when b msg = [] <-> b = false.
Proof. destruct b; simpl; split; congruence. Qed.

Lemma elem_of_when (b : bool) (msg : string) : b = true -> msg ∈ when b msg.
Proof. intros ->. apply list_elem_of_here. Qed.

Lemma truthy_str_neq (x : string) : truthy_str x = true <-> x <> "".
Proof. unfold truthy_str. by rewrite negb_true_iff, String.eqb_neq. Qed.

Lemma app_nil_iff {A} (l1 l2 : list A) :
  (l1 ++ l2)%list = [] <-> l1 = [] /\ l2 = [].
Proof.
  split; [apply app_eq_nil|]. by intros [-> ->].
Qed.

(** What the loop asks of a step. *)
Definition step_ok (step : PlanStep.t) : Prop :=
  PlanStep.id step <> ""
  /\ (PlanStep.step_type step = StepType.TEST ->
      has_command (PlanStep.command step) = true).

Lemma steps_errors_nil (seen : gset string) (steps : list PlanStep.t) :
  steps_errors seen steps = [] <->
  (forall step, step ∈ steps -> step_ok step /\ PlanStep.id step ∉ seen)
  /\ NoDup (map PlanStep.id steps).
Proof.
  revert seen. induction steps as [|step rest IH]; intros seen.
  - simpl. split; [|reflexivity]. intros _. split; [|constructor].
    intros x Hx. by apply elem_of_nil in Hx.
  - simpl. rewrite !app_nil_iff, IH.
    unfold id_errors, command_errors, seen_after, step_ok.
    rewrite NoDup_cons, list_elem_of_fmap.
    destruct (truthy_str (PlanStep.id step)) eqn:Hid; simpl.
    + apply truthy_str_neq in Hid. rewrite !when_nil, bool_decide_eq_false.
      rewrite andb_false_iff, bool_decide_eq_false, negb_false_iff.
      split.
      * intros (Hseen & Hcmd & Hrest & Hnd). split; [|split; [|done]].
        -- intros x Hx. apply elem_of_cons in Hx as [->|Hx].
           ++ split; [split; [done|]|done]. intros Ht. by destruct Hcmd.
           ++ destruct (Hrest x Hx) as [? ?]. split; [done|set_solver].
        -- intros (x & Heq & Hx). destruct (Hrest x Hx) as [_ ?]. set_solver.
      * intros (Hall & Hnot & Hnd).
        destruct (Hall step (list_elem_of_here _ _)) as [[_ Hcmd] Hseen].
        split; [done|]. split.
        -- destruct (decide (PlanStep.step_type step = StepType.TEST)); auto.
        -- split; [|done]. intros x Hx.
           destruct (Hall x (list_elem_of_further _ _ _ Hx)) as [? ?].
           split; [done|]. intros Hin.
           apply elem_of_union in Hin as [Hin|Hin]; [done|].
           apply elem_of_singleton in Hin. apply Hnot. eauto.
    + assert (Hempty : PlanStep.id step = "").
      { destruct (decide (PlanStep.id step = "")) as [|Hne]; [done|].
        apply truthy_str_neq in Hne. congruence. }
      split; [by intros [[=] _]|]. intros (Hall & _).
      by destruct (Hall step (list_elem_of_here _ _)) as [[? _] _].
Qed.

Lemma types_of_elem (ty : StepType.t) (steps : list PlanStep.t) :
  ty ∈ types_of steps <->
  exists step, step ∈ steps /\ PlanStep.step_type step = ty.
Proof.
  unfold types_of. rewrite elem_of_list_to_set, list_elem_of_fmap.
  split; intros (x & ? & ?); eauto.
Qed.

(** The rules of the validator. *)
Definition plan_rules (p : Plan.t) : Prop :=
  Plan.plan_id p <> "" /\ Plan.task_id p <> ""
  /\ nonblank (Plan.goal p) = true
  /\ PlanConstraints.allowed_paths (Plan.constraints p) <> []
  /\ (0 < PlanConstraints.max_files_changed (Plan.constraints p))%Z
  /\ Plan.steps p <> []
  /\ (forall step, step ∈ Plan.steps p -> PlanStep.id step <> "")
  /\ NoDup (map PlanStep.id (Plan.steps p))
  /\ (exists step, step ∈ Plan.steps p
                   /\ PlanStep.step_type step = StepType.CODE)
  /\ (exists step, step ∈ Plan.steps p
                   /\ PlanStep.step_type step = StepType.TEST)
  /\ (forall step, step ∈ Plan.steps p ->
        PlanStep.step_type step = StepType.TEST ->
        has_command (PlanStep.command step) = true).

Lemma validate_plan_nil (p : Plan.t) :
  validate_plan p = [] <-> plan_rules p.
Proof.
  rewrite validate_plan_eq, !app_nil_iff, !when_nil, !negb_false_iff.
  rewrite !truthy_str_neq. unfold plan_rules.
  assert (Hg : forall l : list string, has_globs l = true <-> l <> [])
    by (intros [|]; simpl; split; congruence).
  rewrite Hg, Z.leb_gt.
  destruct (Plan.steps p) as [|step rest] eqn:Hsteps.
  - split; [by intros (_ & _ & _ & _ & _ & [=])|].
    by intros (_ & _ & _ & _ & _ & ? & _).
  - rewrite !app_nil_iff, !when_nil, !negb_false_iff, !bool_decide_eq_true.
    rewrite steps_errors_nil, !types_of_elem. unfold step_ok.
    split.
    + intros (? & ? & ? & ? & ? & (Hall & ?) & ? & ?).
      repeat (split; [done|]). split; [|split; [done|]].
      * intros x Hx. by destruct (Hall x Hx) as [[? _] _].
      * split; [done|]. split; [done|].
        intros x Hx. by destruct (Hall x Hx) as [[_ ?] _].
    + intros (? & ? & ? & ? & ? & _ & Hid & ? & ? & ? & Hcmd).
      repeat (split; [done|]). split; [|done]. split; [|done].
      intros x Hx. split; [|set_solver]. split; [by apply Hid|].
      by apply Hcmd.
Qed.

(** *** Every broken rule is reported *)

Lemma steps_errors_app (seen : gset string) (l r : list PlanStep.t) :
  steps_errors seen (l ++ r)
  = (steps_errors seen l ++ steps_errors (fold_left seen_after l seen) r)%list.
Proof.
  revert seen. induction l as [|step l IH]; intros seen; simpl.
  - reflexivity.
  - rewrite IH. by rewrite <- !app_assoc.
Qed.

Lemma seen_after_grows (l : list PlanStep.t) (seen : gset string) (x : string) :
  x ∈ seen -> x ∈ fold_left seen_after l seen.
Proof.
  revert seen. induction l as [|step l IH]; intros seen Hx; simpl.
  - assumption.
  - apply IH. unfold seen_after. destruct (truthy_str _); set_solver.
Qed.

Lemma missing_id_reported (seen : gset string) (steps : list PlanStep.t)
    (step : PlanStep.t) :
  step ∈ steps -> PlanStep.id step = "" ->
  "every step must have an id" ∈ steps_errors seen steps.
Proof.
  intros Hin Hid. apply list_elem_of_split in Hin as (l & r & ->).
  rewrite steps_errors_app. simpl. unfold id_errors. rewrite Hid. simpl.
  apply elem_of_app. right. apply list_elem_of_here.
Qed.

Lemma missing_command_reported (seen : gset string)
    (steps : list PlanStep.t) (step : PlanStep.t) :
  step ∈ steps -> PlanStep.step_type step = StepType.TEST ->
  has_command (PlanStep.command step) = false ->
  ("test step '" +:+ PlanStep.id step +:+ "' requires command")
    ∈ steps_errors seen steps.
Proof.
  intros Hin Hty Hcmd. apply list_elem_of_split in Hin as (l & r & ->).
  rewrite steps_errors_app. simpl. unfold command_errors.
  rewrite Hty, Hcmd. simpl.
  apply elem_of_app. right. apply elem_of_app. right.
  apply list_elem_of_here.
Qed.

Lemma duplicate_id_reported (seen : gset string)
    (l1 l2 l3 : list PlanStep.t) (s1 s2 : PlanStep.t) :
  PlanStep.id s1 = PlanStep.id s2 -> PlanStep.id s1 <> "" ->
  ("duplicate step id: " +:+ PlanStep.id s2)
    ∈ steps_errors seen (l1 ++ s1 :: l2 ++ s2 :: l3).
Proof.
  intros Heq Hne.
  rewrite steps_errors_app. apply elem_of_app. right. simpl.
  apply elem_of_app. right. apply elem_of_app. right.
  rewrite steps_errors_app. apply elem_of_app. right. simpl.
  apply elem_of_app. left. unfold id_errors.
  assert (Ht : truthy_str (PlanStep.id s2) = true)
    by (apply truthy_str_neq; congruence).
  rewrite Ht. simpl. apply elem_of_when, bool_decide_eq_true.
  apply seen_after_grows. unfold seen_after.
  rewrite Heq, Ht. set_solver.
Qed.

(** Each rule of the validator, broken, puts its message in the list.  A
    plan without steps is only told so: the loop and the two checks on the
    kinds of steps come after the early return. *)
Definition reports_every_violation (p : Plan.t) : Prop :=
  let errs := validate_plan p in
  let steps := Plan.steps p in
  (Plan.plan_id p = "" -> "plan_id is required" ∈ errs)
  /\ (Plan.task_id p = "" -> "task_id is required" ∈ errs)
  /\ (nonblank (Plan.goal p) = false -> "goal is required" ∈ errs)
  /\ (PlanConstraints.allowed_paths (Plan.constraints p) = [] ->
      "constraints.allowed_paths must not be empty" ∈ errs)
  /\ ((PlanConstraints.max_files_changed (Plan.constraints p) <= 0)%Z ->
      "constraints.max_files_changed must be > 0" ∈ errs)
  /\ (steps = [] -> "at least one plan step is required" ∈ errs)
  /\ (forall step, step ∈ steps -> PlanStep.id step = "" ->
        "every step must have an id" ∈ errs)
  /\ (forall l1 s1 l2 s2 l3,
        steps = (l1 ++ s1 :: l2 ++ s2 :: l3)%list ->
        PlanStep.id s1 = PlanStep.id s2 -> PlanStep.id s1 <> "" ->
        ("duplicate step id: " +:+ PlanStep.id s2) ∈ errs)
  /\ (forall step, step ∈ steps ->
        PlanStep.step_type step = StepType.TEST ->
        has_command (PlanStep.command step) = false ->
        ("test step '" +:+ PlanStep.id step +:+ "' requires command") ∈ errs)
  /\ (steps <> [] ->
      (forall step, step ∈ steps -> PlanStep.step_type step <> StepType.CODE)
      -> "plan requires at least one code step" ∈ errs)
  /\ (steps <> [] ->
      (forall step, step ∈ steps -> PlanStep.step_type step <> StepType.TEST)
      -> "plan requires at least one test step" ∈ errs).

Lemma validate_plan_reports (p : Plan.t) : reports_every_violation p.
Proof.
  unfold reports_every_violation. cbv zeta. rewrite validate_plan_eq.
  assert (Hstr : forall x, x = "" -> negb (truthy_str x) = true)
    by (intros x ->; reflexivity).
  repeat split.
  - intros H. apply elem_of_app. left. by apply elem_of_when, Hstr.
  - intros H. do 1 (apply elem_of_app; right). apply elem_of_app. left.
    by apply elem_of_when, Hstr.
  - intros H. do 2 (apply elem_of_app; right). apply elem_of_app. left.
    apply elem_of_when. by rewrite H.
  - intros H. do 3 (apply elem_of_app; right). apply elem_of_app. left.
    apply elem_of_when. by rewrite H.
  - intros H. do 4 (apply elem_of_app; right). apply elem_of_app. left.
    apply elem_of_when. by apply Z.leb_le.
  - intros ->. do 5 (apply elem_of_app; right). apply list_elem_of_here.
  - intros step Hin Hid. do 5 (apply elem_of_app; right).
    destruct (Plan.steps p) as [|s0 rest] eqn:E;
      [by apply elem_of_nil in Hin|].
    apply elem_of_app. left. by eapply missing_id_reported.
  - intros l1 s1 l2 s2 l3 -> Heq Hne. do 5 (apply elem_of_app; right).
    destruct (l1 ++ s1 :: l2 ++ s2 :: l3)%list as [|s0 rest] eqn:E;
      [by destruct l1|].
    rewrite <- E. apply elem_of_app. left. by apply duplicate_id_reported.
  - intros step Hin Hty Hcmd. do 5 (apply elem_of_app; right).
    destruct (Plan.steps p) as [|s0 rest] eqn:E;
      [by apply elem_of_nil in Hin|].
    apply elem_of_app. left. by apply missing_command_reported.
  - intros Hne Hnone. do 5 (apply elem_of_app; right).
    destruct (Plan.steps p) as [|s0 rest] eqn:E; [done|].
    apply elem_of_app. right. apply elem_of_app. left.
    apply elem_of_when, negb_true_iff, bool_decide_eq_false.
    rewrite types_of_elem. intros (x & Hx & Hty). by apply (Hnone x).
  - intros Hne Hnone. do 5 (apply elem_of_app; right).
    destruct (Plan.steps p) as [|s0 rest] eqn:E; [done|].
    apply elem_of_app. right. apply elem_of_app. right.
    apply elem_of_when, negb_true_iff, bool_decide_eq_false.
    rewrite types_of_elem. intros (x & Hx & Hty). by apply (Hnone x).
Qed.

(** The rules in the words of the claim: identifiers, goal and test commands
    only "non-empty", step ids only "unique". *)
Definition claimed_plan_rules (p : Plan.t) : Prop :=
  Plan.plan_id p <> "" /\ Plan.task_id p <> "" /\ Plan.goal p <> ""
  /\ PlanConstraints.allowed_paths (Plan.constraints p) <> []
  /\ (0 < PlanConstraints.max_files_changed (Plan.constraints p))%Z
  /\ Plan.steps p <> []
  /\ NoDup (map PlanStep.id (Plan.steps p))
  /\ (exists step, step ∈ Plan.steps p
                   /\ PlanStep.step_type step = StepType.CODE)
  /\ (exists step, step ∈ Plan.steps p
                   /\ PlanStep.step_type step = StepType.TEST)
  /\ (forall step, step ∈ Plan.steps p ->
        PlanStep.step_type step = StepType.TEST ->
        exists cmd, PlanStep.command step = Some cmd /\ cmd <> "").

(** Plans in the style of tests/test_plan_validator.py. *)
Definition plan_with (goal : string) (steps : list PlanStep.t) : Plan.t :=
  Plan.mk "plan_1" "task_1" 1 goal []
    (PlanConstraints.mk ["src/**"; "tests/**"] ["secrets/**"] 10) []
    steps true true "2026-02-07T10:00:00Z" "orchestrator".

Definition code_step (id : string) : PlanStep.t :=
  PlanStep.mk id StepType.CODE "Write code" None StepStatus.PENDING.

Definition test_step (id command : string) : PlanStep.t :=
  PlanStep.mk id StepType.TEST "Run tests" (Some command) StepStatus.PENDING.

Lemma claimed_plan_rules_with (goal : string) (c t cmd : string) :
  goal <> "" -> c <> t -> cmd <> "" ->
  claimed_plan_rules (plan_with goal [code_step c; test_step t cmd]).
Proof.
  intros Hg Hct Hcmd. unfold claimed_plan_rules. simpl.
  repeat (split; [done|]). split; [|split; [|split]].
  - repeat constructor; set_solver.
  - exists (code_step c). split; [set_solver|done].
  - exists (test_step t cmd). split; [set_solver|done].
  - intros step Hin Hty. exists cmd.
    apply elem_of_cons in Hin as [->|Hin]; [discriminate Hty|].
    apply elem_of_cons in Hin as [->|Hin]; [done|].
    by apply elem_of_nil in Hin.
Qed.

(** C7, as the claim has it, fails in three ways: a step with an empty id, a
    goal of blanks and a test command of blanks each satisfy the rules as
    worded and are each reported by [validate_plan]. *)
Lemma validate_plan_rejects_empty_id_and_blanks :
  let p1 := plan_with "Implement feature"
              [code_step ""; test_step "s2" "pytest -q"] in
  let p2 := plan_with " " [code_step "s1"; test_step "s2" "pytest -q"] in
  let p3 := plan_with "Implement feature"
              [code_step "s1"; test_step "s2" " "] in
  (claimed_plan_rules p1
   /\ validate_plan p1 = ["every step must have an id"])
  /\ (claimed_plan_rules p2 /\ validate_plan p2 = ["goal is required"])
  /\ (claimed_plan_rules p3
      /\ validate_plan p3 = ["test step 's2' requires command"]).
Proof.
  repeat split; try (by apply claimed_plan_rules_with);
    vm_compute; reflexivity.
Qed.

(** C7, amended.  [validate_plan] returns the empty list exactly when
    [plan_id] and [task_id] are non-empty, [goal] is not blank,
    [allowed_paths] is non-empty, [max_files_changed] is positive, there is a
    step, every step id is non-empty and no id occurs twice, there is a code
    step and a test step, and every test step has a command that is not
    blank.  Every broken rule is reported in the one pass (for a plan without
    steps the pass ends at the missing steps).  [assert_plan_valid] raises
    [PlanValidationError], with the errors joined by a semicolon, exactly
    when the list is not empty. *)
Theorem validate_plan_rules (p : Plan.t) :
  (validate_plan p = [] <-> plan_rules p)
  /\ reports_every_violation p
  /\ (assert_plan_valid p = inr tt <-> validate_plan p = [])
  /\ (validate_plan p <> [] ->
      assert_plan_valid p
      = inl (mkExn PlanValidationError (join "; " (validate_plan p)))).
Proof.
  split; [apply validate_plan_nil|]. split; [apply validate_plan_reports|].
  unfold assert_plan_valid. destruct (validate_plan p) as [|e errs].
  - split; [tauto|]. by intros [].
  - split; [|reflexivity]. split; discriminate.
Qed.

End PlanValidator.

(* ------------------------------------------------------------------ *)
(** ** Reasoning about computations in [M] *)

Section WeakestPrecondition.

(** [wp m Q E s]: run from [s], [m] returns a value and a state that satisfy
    [Q], or raises an exception in a state that satisfy [E]. *)
Definition wp {A} (m : M A) (Q : A -> State -> Prop)
    (E : Exn -> State -> Prop) (s : State) : Prop :=
  match m s with
  | (s', inr a) => Q a s'
  | (s', inl e) => E e s'
  end.

Context {A B : Type}.
Implicit Types (Q : A -> State -> Prop) (E : Exn -> State -> Prop).

Lemma wp_ret (a : A) Q E s : Q a s -> wp (ret a) Q E s.
Proof. done. Qed.

Lemma wp_raise (e : Exn) Q E s : E e s -> wp (raise e) Q E s.
Proof. done. Qed.

Lemma wp_lift (r : Exn + A) Q E s :
  match r with inl e => E e s | inr a => Q a s end -> wp (lift r) Q E s.
Proof. unfold wp, lift. by destruct r. Qed.

Lemma wp_bind (m : M A) (k : A -> M B) (Q : B -> State -> Prop) E s :
  wp m (fun a s' => wp (k a) Q E s') E s -> wp (bind m k) Q E s.
Proof. unfold wp, bind. by destruct (m s) as [s' [e|a]]. Qed.

Lemma wp_try (body : M A) (handler : Exn -> M A) Q E s :
  wp body Q (fun e s' => wp (handler e) Q E s') s ->
  wp (try_except body handler) Q E s.
Proof. unfold wp, try_except. by destruct (body s) as [s' [e|a]]. Qed.

Lemma wp_conseq (m : M A) Q Q' E E' s :
  wp m Q E s ->
  (forall a s', Q a s' -> Q' a s') ->
  (forall e s', E e s' -> E' e s') ->
  wp m Q' E' s.
Proof. unfold wp. destruct (m s) as [s' [e|a]]; auto. Qed.

End WeakestPrecondition.

Lemma wp_get_task Q E (s : State) : Q s.1 s -> wp get_task Q E s.
Proof. done. Qed.

Lemma wp_modify_task f (Q : unit -> State -> Prop) E (s : State) :
  Q tt (f s.1, s.2) -> wp (modify_task f) Q E s.
Proof. done. Qed.

(** The world after [n] more readings of the clock. *)
Definition tick (n : nat) (w : World) : World :=
  mkWorld (clock_readings w) (n + clock_reads w) (task_files w)
    (report_files w).

Definition with_event (w : World) (event_type message : string)
    (payload : dict) (task : Task.t) : Task.t :=
  Task.set_updated_at (clock_readings w (S (clock_reads w)))
    (Task.set_event_log
       (Task.event_log task ++
          [TaskEvent.mk (clock_readings w (clock_reads w)) event_type message
             payload])
       task).

Lemma wp_record_event event_type message payload
    (Q : unit -> State -> Prop) E (s : State) :
  Q tt (with_event s.2 event_type message
          (match payload with Some d => d | None => [] end) s.1,
        tick 2 s.2) ->
  wp (record_event event_type message payload) Q E s.
Proof. destruct s as [task w]. done. Qed.

Lemma wp_transition target event_type message payload
    (Q : unit -> State -> Prop) E (s : State) :
  match state_machine.assert_transition s.1 target with
  | inl e => E e s
  | inr _ =>
      Q tt (task_after s.1 s.2 target event_type message payload, tick 2 s.2)
  end ->
  wp (state_machine.transition target event_type message payload) Q E s.
Proof.
  destruct s as [task w]. unfold wp. simpl.
  destruct (state_machine.assert_transition task target) as [e|[]] eqn:H.
  - by rewrite (transition_raises _ _ _ _ _ _ _ H).
  - by rewrite (transition_passes _ _ _ _ _ _ H).
Qed.

Lemma wp_save (Q : unit -> State -> Prop) E (s : State) :
  Q tt (s.1,
        mkWorld (clock_readings s.2) (clock_reads s.2)
          (<[ Task.task_id s.1 := s.1 ]> (task_files s.2))
          (report_files s.2)) ->
  wp store.save Q E s.
Proof. destruct s as [task w]. done. Qed.

Lemma wp_utc_now_iso (Q : string -> State -> Prop) E (s : State) :
  Q (clock_readings s.2 (clock_reads s.2)) (s.1, tick 1 s.2) ->
  wp utc_now_iso Q E s.
Proof. destruct s as [task w]. done. Qed.

Lemma wp_modify_world f (Q : unit -> State -> Prop) E (s : State) :
  Q tt (s.1, f s.2) -> wp (modify_world f) Q E s.
Proof. done. Qed.

(* ------------------------------------------------------------------ *)
(** ** Error messages are not empty *)

Lemma append_nonempty (prefix rest : string) :
  prefix <> "" -> prefix +:+ rest <> "".
Proof. destruct prefix; [done|]. discriminate. Qed.

Lemma assert_transition_msg task target e :
  state_machine.assert_transition task target = inl e -> exn_msg e <> "".
Proof.
  unfold state_machine.assert_transition, state_machine.invalid. intros H.
  repeat case_inner H;
    first [ discriminate H | injection H as <-; simpl; discriminate ].
Qed.

Lemma enforce_file_policy_msg changed c e :
  policy.enforce_file_policy changed c = inl e -> exn_msg e <> "".
Proof.
  destruct (decide (count_ok changed c)) as [H|H].
  - rewrite enforce_then_paths by assumption.
    induction changed as [|p rest IH]; [discriminate|].
    rewrite check_paths_cons. destruct (path_passes c p).
    + apply IH. unfold count_ok in *. simpl length in H. lia.
    + intros [= <-]. unfold path_error.
      destruct (path_forbidden c p); simpl; discriminate.
  - rewrite enforce_count_first by assumption. intros [= <-].
    simpl. discriminate.
Qed.

Lemma when_nonempty (b : bool) (msg x : string) :
  msg <> "" -> x ∈ when b msg -> x <> "".
Proof.
  destruct b; simpl; intros Hm Hx.
  - apply list_elem_of_singleton in Hx. by subst.
  - by apply elem_of_nil in Hx.
Qed.

Lemma steps_errors_nonempty seen steps x :
  x ∈ steps_errors seen steps -> x <> "".
Proof.
  revert seen. induction steps as [|step rest IH]; intros seen Hx; simpl in Hx.
  - by apply elem_of_nil in Hx.
  - rewrite !elem_of_app in Hx. destruct Hx as [Hx|[Hx|Hx]].
    + unfold id_errors in Hx. destruct (negb _).
      * apply list_elem_of_singleton in Hx. by subst.
      * by apply when_nonempty in Hx.
    + by apply when_nonempty in Hx.
    + by apply IH in Hx.
Qed.

Lemma validate_plan_nonempty p x : x ∈ plan.validate_plan p -> x <> "".
Proof.
  rewrite validate_plan_eq, !elem_of_app.
  intros [H|[H|[H|[H|[H|H]]]]]; try (by apply when_nonempty in H).
  destruct (Plan.steps p) as [|s0 rest].
  - apply list_elem_of_singleton in H. by subst.
  - rewrite !elem_of_app in H. destruct H as [H|[H|H]];
      try (by apply when_nonempty in H).
    by apply steps_errors_nonempty in H.
Qed.

Lemma join_nonempty sep x rest : x <> "" -> join sep (x :: rest) <> "".
Proof.
  intros Hx. unfold join. simpl. destruct rest; [done|].
  by apply append_nonempty.
Qed.

Lemma assert_plan_valid_msg p e :
  plan.assert_plan_valid p = inl e -> exn_msg e <> "".
Proof.
  unfold plan.assert_plan_valid.
  destruct (plan.validate_plan p) as [|x rest] eqn:E; [discriminate|].
  intros [= <-]. simpl. apply join_nonempty.
  apply (validate_plan_nonempty p). rewrite E. apply list_elem_of_here.
Qed.

(* ------------------------------------------------------------------ *)
(** ** [run_task] *)

Section RunTask.

Import TaskState orchestrator.

Variable self : Orchestrator.

(** The exception comes out of the injected client. *)
Definition raised_by_client (e : Exn) : Prop :=
  (exists task, build (opencode_client self) task = inl e)
  \/ (exists n task command,
        run_test (opencode_client self) n task command = inl e).

(** What the steps of a run leave alone: the id of the task, its attempt
    counters, and the task files (written only at the end). *)
Definition framed (t0 : Task.t) (w0 : World) (s : State) : Prop :=
  Task.task_id s.1 = Task.task_id t0
  /\ ExecutionInfo.attempt (Task.execution s.1)
     = ExecutionInfo.attempt (Task.execution t0)
  /\ ExecutionInfo.max_attempts (Task.execution s.1)
     = ExecutionInfo.max_attempts (Task.execution t0)
  /\ task_files s.2 = task_files w0.

Lemma run_test_steps_raise task steps n acc e :
  run_test_steps (opencode_client self) task steps n acc = inl e ->
  raised_by_client e.
Proof.
  revert n acc. induction steps as [|step rest IH]; intros n acc H; simpl in H.
  - discriminate.
  - destruct (run_test (opencode_client self) n task _) as [e'|r] eqn:R.
    + injection H as <-. right. eauto.
    + destruct (negb _); [discriminate|]. by apply IH in H.
Qed.

Definition body_returns (t0 : Task.t) (w0 : World) (s : State) : Prop :=
  framed t0 w0 s /\ (Task.state s.1 = DONE \/ Task.state s.1 = FAILED).

Definition body_raises (t0 : Task.t) (w0 : World) (e : Exn) (s : State)
  : Prop :=
  framed t0 w0 s
  /\ (Task.state s.1 = Task.state t0 \/ Task.state s.1 = RUNNING
      \/ Task.state s.1 = TESTING)
  /\ (exn_msg e <> "" \/ raised_by_client e).

Ltac frame_leaf :=
  repeat split; simpl;
    first [ reflexivity | tauto | eauto using assert_transition_msg,
              assert_plan_valid_msg, enforce_file_policy_msg ].

Lemma run_task_body_spec (t0 : Task.t) (w0 : World) :
  wp (run_task_body self) (fun _ => body_returns t0 w0) (body_raises t0 w0)
    (t0, w0).
Proof.
  unfold run_task_body, body_returns, body_raises, framed.
  apply wp_bind, wp_transition. cbn [fst snd].
  destruct (state_machine.assert_transition t0 RUNNING) as [e|[]] eqn:HR;
    [frame_leaf|].
  apply wp_bind, wp_get_task. cbn [fst snd].
  change (Task.plan (task_after t0 w0 RUNNING "state.change"
                       "Entering RUNNING" None)) with (Task.plan t0).
  destruct (Task.plan t0) as [plan0|] eqn:HP;
    [|apply wp_raise; frame_leaf; left; discriminate].
  apply wp_bind, wp_lift.
  destruct (plan.assert_plan_valid plan0) as [e|[]] eqn:HV; [frame_leaf|].
  apply wp_bind, wp_get_task. cbn [fst snd].
  apply wp_bind, wp_lift.
  destruct (build (opencode_client self) _) as [e|build_result] eqn:HB.
  { frame_leaf. right. left. eauto. }
  apply wp_bind, wp_modify_task. cbn [fst snd].
  apply wp_bind, wp_modify_task. cbn [fst snd].
  apply wp_bind, wp_get_task. cbn [fst snd].
  apply wp_bind. unfold get_plan at 1. apply wp_bind, wp_get_task.
  cbn [fst snd].
  match goal with
  | |- context [match Task.plan ?t with _ => _ end] =>
      change (Task.plan t) with (Task.plan t0); rewrite HP
  end.
  apply wp_ret. apply wp_bind, wp_lift.
  destruct (policy.enforce_file_policy _ _) as [e|[]] eqn:HE; [frame_leaf|].
  apply wp_bind, wp_get_task. cbn [fst snd].
  apply wp_bind, wp_record_event. cbn [fst snd].
  apply wp_bind, wp_transition. cbn [fst snd].
  destruct (state_machine.assert_transition _ TESTING) as [e|[]] eqn:HT;
    [frame_leaf|].
  apply wp_bind. unfold get_plan at 1. apply wp_bind, wp_get_task.
  cbn [fst snd].
  match goal with
  | |- context [match Task.plan ?t with _ => _ end] =>
      change (Task.plan t) with (Task.plan t0); rewrite HP
  end.
  apply wp_ret. apply wp_bind, wp_get_task. cbn [fst snd].
  apply wp_bind, wp_lift.
  destruct (run_test_steps _ _ _ _ _) as [e|[test_results all_passed]] eqn:HS.
  { frame_leaf. right. by eapply run_test_steps_raise. }
  apply wp_bind. unfold _write_test_report.
  apply wp_bind, wp_utc_now_iso. cbn [fst snd].
  apply wp_bind, wp_modify_world. cbn [fst snd]. apply wp_ret.
  apply wp_bind, wp_modify_task. cbn [fst snd].
  apply wp_bind, wp_modify_task. cbn [fst snd].
  destruct all_passed.
  - apply wp_bind, wp_modify_task. cbn [fst snd].
    apply wp_transition. cbn [fst snd].
    destruct (state_machine.assert_transition _ DONE) as [e|[]] eqn:HD;
      frame_leaf.
  - apply wp_bind, wp_modify_task. cbn [fst snd].
    apply wp_transition. cbn [fst snd].
    destruct (state_machine.assert_transition _ FAILED) as [e|[]] eqn:HD;
      frame_leaf.
Qed.

(** The failure of a run as the task records it: [last_error] is the text of
    the exception and the last event is [run.failed] with the same text. *)
Definition failure_recorded (exc : Exn) (task : Task.t) : Prop :=
  ExecutionInfo.last_error (Task.execution task) = Some (exn_msg exc)
  /\ exists ev, last (Task.event_log task) = Some ev
                /\ TaskEvent.event_type ev = "run.failed"
                /\ dict_get (TaskEvent.payload ev) "error"
                   = Some (JStr (exn_msg exc)).

(** The attempts guard at the head of [run_task]. *)
Definition attempts_exhausted (task : Task.t) : Prop :=
  Task.state task = FAILED
  /\ (ExecutionInfo.max_attempts (Task.execution task)
      <= ExecutionInfo.attempt (Task.execution task))%Z.

Definition attempts_error (task : Task.t) : Exn :=
  mkExn OrchestratorError
    ("Task exceeded max attempts: "
     +:+ str_of_Z (ExecutionInfo.attempt (Task.execution task)) +:+ "/"
     +:+ str_of_Z (ExecutionInfo.max_attempts (Task.execution task))).

(** [task] is what the file of the task holds in [w]. *)
Definition persisted (w : World) (t0 task : Task.t) : Prop :=
  task_files w !! Task.task_id t0 = Some task.

Lemma files_after_save (t0 task x : Task.t) (w0 w : World) :
  Task.task_id task = Task.task_id t0 ->
  task_files w = task_files w0 ->
  <[ Task.task_id task := x ]> (task_files w)
  = <[ Task.task_id t0 := x ]> (task_files w0).
Proof. by intros -> ->. Qed.

Lemma failed_always_enterable (task : Task.t) :
  Task.state task ∉ [FAILED; DONE; CANCELLED] ->
  state_machine.assert_transition task FAILED = inr tt.
Proof.
  intros H. apply assert_transition_entry. split; [|done].
  destruct (Task.state task); simpl; set_solver.
Qed.

Definition handled (t0 : Task.t) (w0 : World) (start : TaskState.t)
    (exc e : Exn) (s : State) : Prop :=
  e = exc
  /\ task_files s.2 = <[ Task.task_id t0 := s.1 ]> (task_files w0)
  /\ ExecutionInfo.attempt (Task.execution s.1)
     = ExecutionInfo.attempt (Task.execution t0)
  /\ failure_recorded exc s.1
  /\ (Task.state s.1 = FAILED \/ Task.state s.1 = CANCELLED
      \/ (Task.state s.1 = DONE /\ start = DONE)).

Lemma run_task_handler_spec (t0 : Task.t) (w0 : World) (start : TaskState.t)
    (exc : Exn) (s : State) :
  framed t0 w0 s ->
  (Task.state s.1 = start \/ Task.state s.1 = RUNNING
   \/ Task.state s.1 = TESTING) ->
  wp (run_task_handler exc) (fun _ _ => False) (handled t0 w0 start exc) s.
Proof.
  destruct s as [task w]. intros (Hid & Hn & Hm & Hf) Hst. cbn [fst snd] in *.
  unfold run_task_handler, handled.
  apply wp_bind, wp_modify_task. cbn [fst snd].
  apply wp_bind, wp_get_task. cbn [fst snd].
  change (Task.state (set_last_error (Some (exn_msg exc)) task))
    with (Task.state task).
  destruct (bool_decide (Task.state task ∈ [FAILED; DONE; CANCELLED])) eqn:D;
    cbn [negb].
  - apply bool_decide_eq_true_1 in D.
    apply wp_bind, wp_ret. apply wp_bind, wp_record_event. cbn [fst snd].
    apply wp_bind, wp_save. cbn [fst snd]. apply wp_raise. cbn [fst snd].
    split; [done|].
    split; [exact (files_after_save t0 task _ w0 w Hid Hf)|].
    split; [done|]. split.
    + split; [done|]. eexists. split; [apply last_snoc|]. done.
    + simpl. rewrite !elem_of_cons in D.
      destruct D as [D|[D|[D|D]]]; [tauto|right; right|tauto|
        by apply elem_of_nil in D].
      split; [done|]. destruct Hst as [<-|[?|?]]; congruence.
  - apply bool_decide_eq_false_1 in D.
    apply wp_bind, wp_try, wp_transition. cbn [fst snd].
    rewrite failed_always_enterable by done.
    apply wp_bind, wp_record_event. cbn [fst snd].
    apply wp_bind, wp_save. cbn [fst snd]. apply wp_raise. cbn [fst snd].
    split; [done|].
    split; [exact (files_after_save t0 task _ w0 w Hid Hf)|].
    split; [done|]. split; [|by left].
    split; [done|]. eexists. split; [apply last_snoc|]. done.
Qed.

Definition run_returns (t0 : Task.t) (w0 : World) (s : State) : Prop :=
  task_files s.2 = <[ Task.task_id t0 := s.1 ]> (task_files w0)
  /\ ExecutionInfo.attempt (Task.execution s.1)
     = (ExecutionInfo.attempt (Task.execution t0) + 1)%Z
  /\ (Task.state s.1 = DONE \/ Task.state s.1 = FAILED).

Definition run_raises (t0 : Task.t) (w0 : World) (e : Exn) (s : State)
  : Prop :=
  task_files s.2 = <[ Task.task_id t0 := s.1 ]> (task_files w0)
  /\ ExecutionInfo.attempt (Task.execution s.1)
     = (ExecutionInfo.attempt (Task.execution t0) + 1)%Z
  /\ failure_recorded e s.1
  /\ (Task.state s.1 = FAILED \/ Task.state s.1 = CANCELLED
      \/ (Task.state s.1 = DONE /\ Task.state t0 = DONE))
  /\ (exn_msg e <> "" \/ raised_by_client e).

Lemma run_loaded_task_rejects (t0 : Task.t) (w0 : World) :
  attempts_exhausted t0 ->
  run_loaded_task self (t0, w0) = ((t0, w0), inl (attempts_error t0)).
Proof.
  intros [Hs Hn]. unfold run_loaded_task, bind, get_task. simpl.
  rewrite bool_decide_eq_true_2 by done.
  by rewrite (proj2 (Z.leb_le _ _) Hn).
Qed.

Lemma run_loaded_task_spec (t0 : Task.t) (w0 : World) :
  ~ attempts_exhausted t0 ->
  wp (run_loaded_task self) (fun _ => run_returns t0 w0) (run_raises t0 w0)
    (t0, w0).
Proof.
  intros Hg. unfold run_loaded_task.
  apply wp_bind, wp_get_task. cbn [fst snd].
  destruct (bool_decide (Task.state t0 = FAILED)
            && (ExecutionInfo.max_attempts (Task.execution t0)
                <=? ExecutionInfo.attempt (Task.execution t0))%Z) eqn:G.
  { exfalso. apply Hg. apply andb_true_iff in G as [G1 G2].
    split; [by apply bool_decide_eq_true_1 in G1|by apply Z.leb_le]. }
  apply wp_bind, wp_modify_task. cbn [fst snd].
  apply wp_bind, wp_get_task. cbn [fst snd].
  apply wp_bind, wp_record_event. cbn [fst snd].
  match goal with |- wp _ _ _ (?t, ?w) => set (t2 := t); set (w2 := w) end.
  apply wp_bind, wp_try.
  eapply wp_conseq; [apply (run_task_body_spec t2 w2)| |].
  - intros _ s' [(Hid & Hn & Hm & Hf) Hst].
    apply wp_save. unfold run_returns. cbn [fst snd].
    split; [exact (files_after_save t0 s'.1 _ w0 s'.2 Hid Hf)|].
    split; [by rewrite Hn|done].
  - intros e s' (Hfr & Hst & Hwhy).
    eapply wp_conseq;
      [apply (run_task_handler_spec t2 w2 (Task.state t0) e s' Hfr Hst)
      |done|].
    intros e' s'' (-> & Hf & Hn & Hrec & Hfin). unfold run_raises.
    split; [done|]. split; [by rewrite Hn|]. done.
Qed.

Lemma run_task_unknown (task_id : string) (w : World) :
  task_files w !! task_id = None ->
  run_task self task_id w
  = (w, inl (mkExn TaskNotFoundError ("Task not found: " +:+ task_id))).
Proof. intros H. unfold run_task, store.get. by rewrite H. Qed.

Lemma run_task_rejects (task_id : string) (w : World) (t0 : Task.t) :
  task_files w !! task_id = Some t0 ->
  attempts_exhausted t0 ->
  run_task self task_id w = (w, inl (attempts_error t0)).
Proof.
  intros H G. unfold run_task, store.get. rewrite H.
  by rewrite run_loaded_task_rejects.
Qed.

Lemma run_task_runs (task_id : string) (w : World) (t0 : Task.t) :
  task_files w !! task_id = Some t0 ->
  ~ attempts_exhausted t0 ->
  match run_task self task_id w with
  | (w', inr task') => run_returns t0 w (task', w')
  | (w', inl e) =>
      exists task', persisted w' t0 task' /\ run_raises t0 w e (task', w')
  end.
Proof.
  intros H G. unfold run_task, store.get. rewrite H.
  pose proof (run_loaded_task_spec t0 w G) as S. unfold wp in S.
  destruct (run_loaded_task self (t0, w)) as [[task' w'] [e|[]]].
  - exists task'. split; [|done]. unfold persisted.
    destruct S as (Hf & _). cbn [fst snd] in Hf. rewrite Hf.
    apply lookup_insert_eq.
  - done.
Qed.

(** C4, amended.  When [run_task] on a stored task raises, then either the
    attempts guard rejected the call, before anything was changed or
    recorded, or the task as persisted afterwards has [last_error] set to the
    text of the exception and [run.failed] as its last event, its state is
    [FAILED], or [CANCELLED], or [DONE] for a task that was [DONE] already,
    and the exception raised to the caller is the one recorded.  The text is
    not empty for every error of the state machine, the plan validator and
    the file policy; an error of the client carries the text the client gave
    it. *)
Theorem run_task_error_is_recorded
    (task_id : string) (w w' : World) (t0 : Task.t) (e : Exn) :
  task_files w !! task_id = Some t0 ->
  run_task self task_id w = (w', inl e) ->
  (attempts_exhausted t0 /\ w' = w /\ e = attempts_error t0)
  \/ (~ attempts_exhausted t0
      /\ exists task',
           persisted w' t0 task'
           /\ failure_recorded e task'
           /\ (Task.state task' = FAILED \/ Task.state task' = CANCELLED
               \/ (Task.state task' = DONE /\ Task.state t0 = DONE))
           /\ (exn_msg e <> "" \/ raised_by_client e)).
Proof.
  intros H R. destruct (decide (Task.state t0 = FAILED)) as [Hs|Hs].
  - destruct (Z_le_dec (ExecutionInfo.max_attempts (Task.execution t0))
                (ExecutionInfo.attempt (Task.execution t0))) as [Hn|Hn].
    + left. assert (G : attempts_exhausted t0) by done.
      rewrite (run_task_rejects _ _ _ H G) in R. by injection R as <- <-.
    + right. assert (G : ~ attempts_exhausted t0) by (intros [_ ?]; lia).
      split; [done|]. pose proof (run_task_runs _ _ _ H G) as S.
      rewrite R in S. destruct S as (task' & Hp & _ & _ & Hrec & Hst & Hwhy).
      eauto 6.
  - right. assert (G : ~ attempts_exhausted t0) by (by intros [? _]).
    split; [done|]. pose proof (run_task_runs _ _ _ H G) as S.
    rewrite R in S. destruct S as (task' & Hp & _ & _ & Hrec & Hst & Hwhy).
    eauto 6.
Qed.

(** C6, amended.  A [run_task] call on a stored task that the attempts guard
    lets through adds exactly one to [execution.attempt] in the persisted
    task, whether the call returns or raises.  The guard rejects the call
    with an [OrchestratorError], leaving the stored task and its counter as
    they were, when the task is [FAILED] and [attempt >= max_attempts]; for a
    task in any other state the counter is not compared with
    [max_attempts]. *)
Theorem run_task_counts_attempts
    (task_id : string) (w : World) (t0 : Task.t) :
  task_files w !! task_id = Some t0 ->
  let w' := (run_task self task_id w).1 in
  let result := (run_task self task_id w).2 in
  (attempts_exhausted t0 ->
     w' = w /\ result = inl (attempts_error t0)
     /\ is_OrchestratorError (attempts_error t0) = true)
  /\ (~ attempts_exhausted t0 ->
      exists task',
        persisted w' t0 task'
        /\ ExecutionInfo.attempt (Task.execution task')
           = (ExecutionInfo.attempt (Task.execution t0) + 1)%Z
        /\ (forall returned, result = inr returned -> returned = task')).
Proof.
  intros H. cbv zeta. split.
  - intros G. by rewrite (run_task_rejects _ _ _ H G).
  - intros G. pose proof (run_task_runs _ _ _ H G) as S.
    destruct (run_task self task_id w) as [w' [e|task']]; cbn [fst snd].
    + destruct S as (task' & Hp & _ & Hn & _). exists task'.
      split; [done|]. split; [done|]. discriminate.
    + destruct S as (Hf & Hn & _). cbn [fst snd] in Hf. exists task'. split.
      * unfold persisted. rewrite Hf. apply lookup_insert_eq.
      * split; [done|]. by intros ? [= <-].
Qed.

End RunTask.

(* ------------------------------------------------------------------ *)
(** ** Scenarios of tests/test_orchestrator.py *)

Module scenario.

Import TaskState orchestrator.

(** [FakeOpenCodeClient(test_exit_code)] *)
Definition fake_client (test_exit_code : Z) : OpenCodeClient :=
  mkClient
    (fun _ =>
       inr (BuildExecutionResult.mk ["src/new_module.py"] "/tmp/diff.patch"
              "" []))
    (fun _ _ command =>
       inr (TestExecutionResult.mk command test_exit_code "/tmp/test.log"
              10)).

Definition fake_orchestrator (test_exit_code : Z) : Orchestrator :=
  mkOrchestrator (fake_client test_exit_code) ".orchestrator/reports".

(** The plan the fake client returns from [clarify]. *)
Definition fake_plan : Plan.t :=
  Plan.mk "plan_task_1_1" "task_1" 1 "Implement task" []
    (PlanConstraints.mk ["src/**"; "tests/**"] ["secrets/**"] 10) []
    [ PlanStep.mk "s1" StepType.CODE "code" None StepStatus.PENDING;
      PlanStep.mk "s2" StepType.TEST "test" (Some "pytest -q")
        StepStatus.PENDING ]
    true true "2026-02-07T10:00:00Z" "orchestrator".

(** A stored task after [clarify_task], given its state, approval and
    attempt counters. *)
Definition stored_task (state : TaskState.t) (approved : bool)
    (attempt max_attempts : Z) : Task.t :=
  Task.mk "task_1" "Task" "Implement task"
    (TaskSource.mk "feishu" "ou_xxx" "oc_xxx" "om_xxx")
    (RepoContext.mk "repo" "main" (Some "/workspace") None)
    state
    (if approved
     then Approval.mk true (Some "ou_xxx") (Some "2026-02-07T10:00:00Z")
     else Approval.mk true None None)
    (Some fake_plan)
    (ExecutionInfo.mk attempt max_attempts None)
    (TaskArtifacts.mk (Some "ok") None None None [] [])
    [TaskEvent.mk "2026-02-07T10:00:00Z" "task.created" "Task created" []]
    "2026-02-07T10:00:00Z" "2026-02-07T10:00:00Z".

Definition world_of (task : Task.t) : World :=
  mkWorld (fun _ => "2026-02-07T10:00:00Z") 0
    {[ Task.task_id task := task ]} ∅.

(** Built-ins for the scenarios: [int] on plain decimal numerals, and a
    stand-in for the [repr] of lists and dicts, which no scenario prints. *)
Definition decimal_int (s : string) : option Z :=
  option_map Z.of_int (NilZero.int_of_string s).

Definition placeholder_repr (x : json) : string :=
  match x with
  | JObj _ => "{...}"
  | _ => "[...]"
  end.

Definition builtins : Builtins := mkBuiltins placeholder_repr decimal_int.

(** The payload of tests/test_opencode_adapter.py: one code step, no test
    step. *)
Definition payload_without_test_step : dict :=
  [ ("goal", JStr "Implement feature");
    ("constraints",
     JObj [ ("allowed_paths", JList [JStr "src/**"]);
            ("max_files_changed", JInt 10) ]);
    ("steps",
     JList [ JObj [ ("id", JStr "s1"); ("type", JStr "code");
                    ("title", JStr "Implement");
                    ("status", JStr "pending") ] ]) ].

(** The state, attempt count and event types of the stored task. *)
Definition stored_summary (w : World)
  : option (TaskState.t * Z * option string * list string) :=
  match task_files w !! "task_1" with
  | Some task =>
      Some (Task.state task,
            ExecutionInfo.attempt (Task.execution task),
            ExecutionInfo.last_error (Task.execution task),
            map TaskEvent.event_type (Task.event_log task))
  | None => None
  end.

End scenario.

(* ------------------------------------------------------------------ *)
(** ** The state machine on the cases of tests/test_state_machine.py *)

Section StateMachineTests.

Import TaskState state_machine scenario.

(** The task of the tests: one required question, open or answered. *)
Definition task_with_question (state : TaskState.t) (approved : bool)
    (status : QuestionStatus.t) : Task.t :=
  let t := stored_task state approved 0 3 in
  Task.mk (Task.task_id t) (Task.title t) (Task.description t)
    (Task.source t) (Task.repo t) (Task.state t) (Task.approval t)
    (Some (Plan.mk "plan_1" "task_1" 1 "goal" []
             (PlanConstraints.mk ["src/**"] [] 10)
             [PlanQuestion.mk "q1" "question" true status JNull]
             (Plan.steps fake_plan) true true "2026-02-07T10:00:00Z"
             "orchestrator"))
    (Task.execution t) (Task.artifacts t) (Task.event_log t)
    (Task.created_at t) (Task.updated_at t).

Example running_requires_approval :
  assert_transition
    (task_with_question WAIT_APPROVAL false QuestionStatus.ANSWERED) RUNNING
  = inl (mkExn InvalidTransitionError
           "Task approval is required before RUNNING").
Proof. vm_compute. reflexivity. Qed.

Example running_requires_questions_closed :
  assert_transition
    (task_with_question WAIT_APPROVAL true QuestionStatus.OPEN) RUNNING
  = inl (mkExn InvalidTransitionError "Open required questions remain: q1").
Proof. vm_compute. reflexivity. Qed.

Example testing_requires_diff_path :
  assert_transition
    (task_with_question RUNNING true QuestionStatus.ANSWERED) TESTING
  = inl (mkExn InvalidTransitionError
           "Diff artifact is required before TESTING").
Proof. vm_compute. reflexivity. Qed.

(** The happy path up to [RUNNING]: three transitions, three events. *)
Example happy_path_transitions :
  let start := task_with_question NEW true QuestionStatus.ANSWERED in
  let run :=
    (transition CLARIFYING "state.change" "to clarifying" None ;;
     transition WAIT_APPROVAL "state.change" "to wait approval" None ;;
     transition RUNNING "state.change" "to running" None)
      (start, world_of start) in
  run.2 = inr tt
  /\ Task.state run.1.1 = RUNNING
  /\ map TaskEvent.payload (Task.event_log run.1.1)
     = [ [];
         [("from", JStr "NEW"); ("to", JStr "CLARIFYING")];
         [("from", JStr "CLARIFYING"); ("to", JStr "WAIT_APPROVAL")];
         [("from", JStr "WAIT_APPROVAL"); ("to", JStr "RUNNING")] ].
Proof. vm_compute. repeat split; reflexivity. Qed.

End StateMachineTests.

(* ------------------------------------------------------------------ *)
(** ** [run_task] on the scenarios *)

Section RunTaskScenarios.

Import TaskState orchestrator scenario.

(** The three runs of tests/test_orchestrator.py: all tests pass, a test
    fails, the approval is missing. *)
Example happy_path :
  stored_summary
    (run_task (fake_orchestrator 0) "task_1"
       (world_of (stored_task WAIT_APPROVAL true 0 3))).1
  = Some (DONE, 1, None,
          ["task.created"; "run.started"; "state.change"; "build.completed";
           "state.change"; "state.change"]).
Proof. vm_compute. reflexivity. Qed.

Example tests_fail :
  stored_summary
    (run_task (fake_orchestrator 1) "task_1"
       (world_of (stored_task WAIT_APPROVAL true 0 3))).1
  = Some (FAILED, 1, Some "One or more tests failed",
          ["task.created"; "run.started"; "state.change"; "build.completed";
           "state.change"; "state.change"]).
Proof. vm_compute. reflexivity. Qed.

Definition approval_missing : Exn :=
  mkExn InvalidTransitionError "Task approval is required before RUNNING".

Example requires_approval :
  let run := run_task (fake_orchestrator 0) "task_1"
               (world_of (stored_task WAIT_APPROVAL false 0 3)) in
  run.2 = inl approval_missing
  /\ stored_summary run.1
     = Some (FAILED, 1, Some "Task approval is required before RUNNING",
             ["task.created"; "run.started"; "state.change"; "run.failed"]).
Proof. vm_compute. split; reflexivity. Qed.

(** C4, as the claim has it, fails on two error paths.  A run of a task that
    is already [DONE] raises, and the task persisted afterwards is still
    [DONE].  A run that the attempts guard rejects raises and persists
    nothing: the stored task, [FAILED] by a failing test of the run before,
    has no [run.failed] event. *)
Lemma run_task_error_outside_failed_cancelled :
  (let run := run_task (fake_orchestrator 0) "task_1"
                (world_of (stored_task DONE true 1 3)) in
   run.2 = inl (mkExn InvalidTransitionError
                  "Invalid transition: DONE -> RUNNING")
   /\ stored_summary run.1
      = Some (DONE, 2, Some "Invalid transition: DONE -> RUNNING",
              ["task.created"; "run.started"; "run.failed"]))
  /\ (let before :=
        (run_task (fake_orchestrator 1) "task_1"
           (world_of (stored_task WAIT_APPROVAL true 0 1))).1 in
      let run := run_task (fake_orchestrator 1) "task_1" before in
      run.2 = inl (mkExn OrchestratorError "Task exceeded max attempts: 1/1")
      /\ run.1 = before
      /\ stored_summary run.1
         = Some (FAILED, 1, Some "One or more tests failed",
                 ["task.created"; "run.started"; "state.change";
                  "build.completed"; "state.change"; "state.change"])).
Proof. vm_compute. repeat split; reflexivity. Qed.

(** The run without approval, through the theorem: the failure is recorded
    in the persisted task. *)
Lemma run_task_error_is_recorded_witness :
  let w := world_of (stored_task WAIT_APPROVAL false 0 3) in
  let w' := (run_task (fake_orchestrator 0) "task_1" w).1 in
  exists task',
    persisted w' (stored_task WAIT_APPROVAL false 0 3) task'
    /\ failure_recorded approval_missing task'.
Proof.
  cbv zeta.
  destruct (run_task_error_is_recorded (fake_orchestrator 0) "task_1"
              (world_of (stored_task WAIT_APPROVAL false 0 3))
              (run_task (fake_orchestrator 0) "task_1"
                 (world_of (stored_task WAIT_APPROVAL false 0 3))).1
              (stored_task WAIT_APPROVAL false 0 3) approval_missing)
    as [[[Hs _] _]|(_ & task' & Hp & Hrec & _)].
  - vm_compute. reflexivity.
  - vm_compute. reflexivity.
  - discriminate Hs.
  - exists task'. split; assumption.
Defined.

(** C6, as the claim has it, fails both ways.  A task that waits for
    approval with its attempts used up ([attempt = max_attempts = 3]) is run
    to [DONE] as attempt 4, and nothing is raised.  A [FAILED] task with its
    attempts used up is rejected, and the rejected call is not counted. *)
Lemma run_task_attempts_guard_depends_on_state :
  (let run := run_task (fake_orchestrator 0) "task_1"
                (world_of (stored_task WAIT_APPROVAL true 3 3)) in
   (exists task, run.2 = inr task)
   /\ stored_summary run.1
      = Some (DONE, 4, None,
              ["task.created"; "run.started"; "state.change";
               "build.completed"; "state.change"; "state.change"]))
  /\ (let run := run_task (fake_orchestrator 0) "task_1"
                   (world_of (stored_task FAILED true 3 3)) in
      run.2 = inl (mkExn OrchestratorError "Task exceeded max attempts: 3/3")
      /\ stored_summary run.1 = Some (FAILED, 3, None, ["task.created"])).
Proof.
  vm_compute. split; [split; [eexists|]; reflexivity|split; reflexivity].
Qed.

(** The happy path, through the theorem: the run is counted. *)
Lemma run_task_counts_attempts_witness :
  let t0 := stored_task WAIT_APPROVAL true 0 3 in
  let w' := (run_task (fake_orchestrator 0) "task_1" (world_of t0)).1 in
  exists task',
    persisted w' t0 task'
    /\ ExecutionInfo.attempt (Task.execution task') = 1%Z.
Proof.
  cbv zeta.
  destruct (run_task_counts_attempts (fake_orchestrator 0) "task_1"
              (world_of (stored_task WAIT_APPROVAL true 0 3))
              (stored_task WAIT_APPROVAL true 0 3)) as [_ H].
  - vm_compute. reflexivity.
  - destruct H as (task' & Hp & Hn & _).
    + intros [Hs _]. discriminate Hs.
    + exists task'. split; assumption.
Defined.

End RunTaskScenarios.

(* ------------------------------------------------------------------ *)
(** ** The task store on the disk *)

Section StoreOnDisk.

Import store scenario.

(** The pieces of a text, put together again. *)
Definition text_of (pieces : list string) : string :=
  fold_right String.append "" pieces.

Lemma append_cons (x : ascii) (a b : string) :
  String x a +:+ b = String x (a +:+ b).
Proof. reflexivity. Qed.

Lemma append_assoc (a b c : string) : (a +:+ b) +:+ c = a +:+ (b +:+ c).
Proof.
  induction a as [|x a IH]; [reflexivity|]. by rewrite !append_cons, IH.
Qed.

Lemma append_empty_r (a : string) : a +:+ "" = a.
Proof.
  induction a as [|x a IH]; [reflexivity|]. by rewrite append_cons, IH.
Qed.

Lemma text_of_app (l1 l2 : list string) :
  text_of (l1 ++ l2) = text_of l1 +:+ text_of l2.
Proof.
  induction l1 as [|x l1 IH]; [reflexivity|].
  change (x +:+ text_of (l1 ++ l2) = (x +:+ text_of l1) +:+ text_of l2).
  by rewrite IH, append_assoc.
Qed.

(** Every record begins with a brace: no record is the empty text. *)
Lemma record_text_nonempty (task : Task.t) : record_text task <> "".
Proof.
  unfold record_text, json_dumps, Task.to_dict.
  cbn [dumps_at]. discriminate.
Qed.

Lemma apply_appends (path : string) (pieces : list string) (disk : Disk)
    (current : string) :
  disk !! path = Some current ->
  apply_ops (map (Append path) pieces) disk !! path
  = Some (current +:+ text_of pieces)
  /\ forall other, other <> path ->
       apply_ops (map (Append path) pieces) disk !! other = disk !! other.
Proof.
  revert disk current.
  induction pieces as [|piece pieces IH]; intros disk current H.
  - simpl. by rewrite append_empty_r.
  - unfold apply_ops in *. simpl.
    destruct (IH (<[path:=default "" (disk !! path) +:+ piece]> disk)
                (current +:+ piece)) as [IH1 IH2].
    { rewrite H. simpl. apply lookup_insert_eq. }
    split.
    + change (text_of (piece :: pieces)) with (piece +:+ text_of pieces).
      by rewrite IH1, append_assoc.
    + intros other Hne. rewrite IH2 by done. by apply lookup_insert_ne.
Qed.

Lemma apply_rewrite (path : string) (pieces : list string) (disk : Disk) :
  apply_ops (Truncate path :: map (Append path) pieces) disk !! path
  = Some (text_of pieces)
  /\ forall other, other <> path ->
       apply_ops (Truncate path :: map (Append path) pieces) disk !! other
       = disk !! other.
Proof.
  change (apply_ops (Truncate path :: map (Append path) pieces) disk)
    with (apply_ops (map (Append path) pieces) (<[ path := "" ]> disk)).
  destruct (apply_appends path pieces (<[ path := "" ]> disk) "")
    as [H1 H2]; [apply lookup_insert_eq|].
  split; [exact H1|].
  intros other Hne. rewrite H2 by done. by apply lookup_insert_ne.
Qed.

Lemma save_interrupted_spec (n : nat) (root_dir : string) (task : Task.t)
    (pieces : list string) (disk : Disk) :
  let path := _task_path root_dir (Task.task_id task) in
  let disk' := save_interrupted n root_dir task pieces disk in
  (forall other, other <> path -> disk' !! other = disk !! other)
  /\ disk' !! path
     = match n with
       | O => disk !! path
       | S k => Some (text_of (take k pieces))
       end.
Proof.
  cbv zeta. unfold save_interrupted, save_ops. destruct n as [|k].
  - done.
  - cbn [take firstn]. rewrite List.firstn_map.
    destruct (apply_rewrite (_task_path root_dir (Task.task_id task))
                (take k pieces) disk) as [H1 H2].
    split; [exact H2|exact H1].
Qed.

(** C5, as the claim has it, fails: [save] opens the file of the task for
    writing, which empties it, before a piece of the new record is written.
    Interrupted there, [save] leaves a file that is neither the previous
    record nor the new one, nor the record of any task. *)
Lemma save_interrupted_leaves_torn_file :
  let previous := stored_task TaskState.WAIT_APPROVAL false 0 3 in
  let new := stored_task TaskState.WAIT_APPROVAL true 0 3 in
  let path := _task_path ".orchestrator/tasks" "task_1" in
  let disk : Disk := {[ path := record_text previous ]} in
  let disk' :=
    save_interrupted 1 ".orchestrator/tasks" new [record_text new] disk in
  disk' !! path = Some ""
  /\ "" <> record_text previous
  /\ "" <> record_text new
  /\ forall task, record_text task <> "".
Proof.
  cbv zeta. split; [vm_compute; reflexivity|].
  split; [apply not_eq_sym, record_text_nonempty|].
  split; [apply not_eq_sym, record_text_nonempty|].
  apply record_text_nonempty.
Qed.

(** C5, amended.  [save] rewrites the file of the task in place: it empties
    the file and then writes the new record into it.  Whatever the pieces in
    which the text reaches the file, a [save] that runs to completion leaves
    exactly the complete new record; a [save] interrupted before it opens
    the file leaves the file as it was; interrupted later, it leaves the
    part of the new record written so far, a prefix of it that starts out
    empty.  No other file is touched. *)
Theorem save_rewrites_in_place (n : nat) (root_dir : string) (task : Task.t)
    (pieces : list string) (disk : Disk) :
  text_of pieces = record_text task ->
  let path := _task_path root_dir (Task.task_id task) in
  let disk' := save_interrupted n root_dir task pieces disk in
  (forall other, other <> path -> disk' !! other = disk !! other)
  /\ (n = O -> disk' !! path = disk !! path)
  /\ (n = 1%nat -> disk' !! path = Some "")
  /\ (forall k, n = S k ->
        exists rest,
          disk' !! path = Some (text_of (take k pieces))
          /\ record_text task = text_of (take k pieces) +:+ rest)
  /\ ((length pieces < n)%nat ->
      disk' !! path = Some (record_text task)
      /\ disk' = apply_ops (save_ops root_dir task pieces) disk).
Proof.
  intros Htext. cbv zeta.
  destruct (save_interrupted_spec n root_dir task pieces disk) as [Ho Hp].
  split; [done|]. split; [by intros ->|]. split; [by intros ->|]. split.
  - intros k ->. exists (text_of (drop k pieces)). split; [done|].
    by rewrite <- Htext, <- text_of_app, take_drop.
  - intros Hn. destruct n as [|k]; [lia|]. split.
    + rewrite Hp, firstn_all2 by lia. by rewrite Htext.
    + unfold save_interrupted. rewrite firstn_all2; [done|].
      unfold save_ops. simpl. rewrite length_map. lia.
Qed.

(** A complete save of the approved task over its earlier record. *)
Lemma save_rewrites_in_place_witness :
  let previous := stored_task TaskState.WAIT_APPROVAL false 0 3 in
  let new := stored_task TaskState.WAIT_APPROVAL true 0 3 in
  let path := _task_path ".orchestrator/tasks" "task_1" in
  let disk : Disk := {[ path := record_text previous ]} in
  save_interrupted 2 ".orchestrator/tasks" new [record_text new] disk !! path
  = Some (record_text new).
Proof.
  cbv zeta.
  refine (proj1 (proj2 (proj2 (proj2 (proj2
    (save_rewrites_in_place 2 ".orchestrator/tasks"
       (stored_task TaskState.WAIT_APPROVAL true 0 3)
       [record_text (stored_task TaskState.WAIT_APPROVAL true 0 3)]
       {[ _task_path ".orchestrator/tasks" "task_1"
          := record_text (stored_task TaskState.WAIT_APPROVAL false 0 3) ]}
       _)))) _)).
  - simpl. apply append_empty_r.
  - simpl. lia.
Defined.

End StoreOnDisk.

(* ------------------------------------------------------------------ *)
(** ** From the agent's payload to a plan *)

Lemma str_of_Z_nonempty (z : Z) : str_of_Z z <> "".
Proof.
  unfold str_of_Z. destruct (Z.to_int z) as [d|d]; simpl; [|discriminate].
  unfold NilZero.string_of_uint. destruct d; simpl; discriminate.
Qed.

Lemma nonblank_nonempty (x : string) : nonblank x = true -> x <> "".
Proof. by intros H ->. Qed.

Lemma ebind_inr {A C} (r : Exn + A) (k : A -> Exn + C) (c : C) :
  ebind r k = inr c -> exists a, r = inr a /\ k a = inr c.
Proof. destruct r as [e|a]; simpl; [discriminate|eauto]. Qed.

Lemma emap_inr {A C} (f : A -> Exn + C) (items : list A) (out : list C) :
  emap f items = inr out -> Forall2 (fun a c => f a = inr c) items out.
Proof.
  revert out. induction items as [|a items IH]; intros out H; simpl in H.
  - injection H as <-. constructor.
  - apply ebind_inr in H as (c & Hc & H).
    apply ebind_inr in H as (cs & Hcs & [= <-]).
    constructor; [done|by apply IH].
Qed.

Lemma emap_as_str (f : json -> string) (items : list json) :
  emap as_str (map (fun item => JStr (f item)) items) = inr (map f items).
Proof.
  induction items as [|a items IH]; simpl; [reflexivity|]. by rewrite IH.
Qed.

Section PlanPayload.

Import plan opencode.

Variable B : Builtins.

(** Python prints something for every list and dict. *)
Hypothesis repr_nonempty : forall x, repr_container B x <> "".

Lemma py_str_truthy (x : json) : json_truthy x = true -> py_str B x <> "".
Proof.
  destruct x as [|[]|z|s|l|d]; simpl; try discriminate; intros H.
  - apply str_of_Z_nonempty.
  - by apply truthy_str_neq.
  - apply repr_nonempty.
  - apply repr_nonempty.
Qed.

Lemma py_str_or (x : option json) (fallback : string) :
  fallback <> "" -> py_str B (py_or x (JStr fallback)) <> "".
Proof.
  intros Hf. unfold py_or. destruct x as [v|]; [|done].
  destruct (json_truthy v) eqn:T; [by apply py_str_truthy|done].
Qed.

(** A step dict whose parsed step, if it parses, passes the per-step checks
    of the validator. *)
Definition sound_step (d : dict) : Prop :=
  forall step, PlanStep.from_dict d = inr step ->
    PlanStep.id step <> ""
    /\ (PlanStep.step_type step = StepType.TEST ->
        has_command (PlanStep.command step) = true).

(** The step type a step dict names. *)
Definition names_type (d : dict) (ty : StepType.t) : Prop :=
  dict_get d "type" = Some (JStr (StepType.value ty)).

Lemma from_dict_type (d : dict) (ty : StepType.t) (step : PlanStep.t) :
  names_type d ty -> PlanStep.from_dict d = inr step ->
  PlanStep.step_type step = ty.
Proof.
  unfold names_type, PlanStep.from_dict, py_item. intros Hty H.
  apply ebind_inr in H as (id & _ & H). rewrite Hty in H.
  apply ebind_inr in H as (ty' & Hty' & H).
  apply ebind_inr in H as (title & _ & H).
  apply ebind_inr in H as (command & _ & H).
  apply ebind_inr in H as (status & _ & [= <-]). simpl.
  destruct ty; simpl in Hty'; by injection Hty' as <-.
Qed.

Lemma step_dict_sound (id type title status : string) (command : json) :
  id <> "" ->
  (type = "test" -> exists s, command = JStr s /\ nonblank s = true) ->
  sound_step (step_dict id type title command status).
Proof.
  intros Hid Hcmd step H. unfold PlanStep.from_dict, step_dict, py_item in H.
  simpl in H.
  apply ebind_inr in H as (ty & Hty & H).
  apply ebind_inr in H as (cmd & Hc & H).
  apply ebind_inr in H as (st & _ & [= <-]). simpl. split; [done|].
  intros ->.
  assert (type = "test") as Htest.
  { unfold StepType.of_value in Hty.
    repeat case_inner Hty; try discriminate Hty; reflexivity. }
  destruct (Hcmd Htest) as (s & -> & Hs). simpl in Hc. injection Hc as <-.
  simpl. rewrite Hs, andb_true_r. by apply truthy_str_neq, nonblank_nonempty.
Qed.

Lemma normalize_step_sound (idx : Z) (item : dict) :
  sound_step (normalize_step B idx item).1.
Proof.
  unfold normalize_step. cbn [fst]. apply step_dict_sound.
  - apply py_str_or. by apply append_nonempty.
  - intros Htest.
    destruct (String.eqb (lower (py_str B (default (JStr "code")
                                             (dict_get item "type"))))
                (StepType.value StepType.TEST)); [|discriminate Htest].
    cbn [String.eqb StepType.value Ascii.eqb Bool.eqb andb].
    destruct (default JNull (dict_get item "command")) as [| | |s| |];
      cbn [negb is_str]; eauto.
    destruct (nonblank s) eqn:Hs; cbn [negb is_str]; eauto.
Qed.

Lemma normalize_step_names (idx : Z) (item : dict) :
  let '(d, step_type) := normalize_step B idx item in
  (step_type = "code" /\ names_type d StepType.CODE)
  \/ (step_type = "test" /\ names_type d StepType.TEST).
Proof.
  unfold normalize_step, names_type.
  destruct (String.eqb _ (StepType.value StepType.TEST)); simpl; auto.
Qed.

(** A list of step dicts with sound members, a code step and a test step. *)
Definition has_type (steps : list dict) (ty : StepType.t) : Prop :=
  exists d, d ∈ steps /\ names_type d ty.

Lemma has_type_mono (l1 l2 l3 : list dict) (ty : StepType.t) :
  has_type l2 ty -> has_type (l1 ++ l2 ++ l3) ty.
Proof.
  intros (d & Hd & Hty). exists d. split; [|done].
  rewrite !elem_of_app. auto.
Qed.

Lemma normalize_steps_loop_spec (items : list json) (idx : Z)
    (output : list dict) (has_code has_test : bool) :
  Forall sound_step output ->
  (has_code = true -> has_type output StepType.CODE) ->
  (has_test = true -> has_type output StepType.TEST) ->
  let '(out, has_code', has_test') :=
    normalize_steps_loop B items idx output has_code has_test in
  Forall sound_step out
  /\ (has_code' = true -> has_type out StepType.CODE)
  /\ (has_test' = true -> has_type out StepType.TEST).
Proof.
  revert idx output has_code has_test.
  induction items as [|item items IH]; intros idx output hc ht Hs Hc Ht.
  - simpl. auto.
  - destruct item as [| | | | |item]; cbn [normalize_steps_loop];
      try (by apply IH).
    pose proof (normalize_step_sound idx item) as Hsound.
    pose proof (normalize_step_names idx item) as Hnames.
    destruct (normalize_step B idx item) as [d step_type] eqn:E.
    cbn [fst] in Hsound.
    apply IH.
    + apply Forall_app. split; [done|]. by constructor.
    + intros H. apply orb_true_iff in H as [H|H].
      * destruct (Hc H) as (d' & ? & ?). exists d'. split; [|done].
        apply elem_of_app. by left.
      * exists d. split; [apply elem_of_app; right; apply list_elem_of_here|].
        destruct Hnames as [[_ ?]|[-> _]]; [done|discriminate H].
    + intros H. apply orb_true_iff in H as [H|H].
      * destruct (Ht H) as (d' & ? & ?). exists d'. split; [|done].
        apply elem_of_app. by left.
      * exists d. split; [apply elem_of_app; right; apply list_elem_of_here|].
        destruct Hnames as [[-> _]|[_ ?]]; [discriminate H|done].
Qed.

Lemma default_code_step_sound : sound_step default_code_step.
Proof. apply step_dict_sound; [discriminate|discriminate]. Qed.

Lemma default_test_step_sound : sound_step default_test_step.
Proof. apply step_dict_sound; [discriminate|]. intros _. by eexists. Qed.

Definition complete_steps (steps : list dict) : Prop :=
  Forall sound_step steps
  /\ has_type steps StepType.CODE /\ has_type steps StepType.TEST.

Lemma normalize_steps_spec (payload : json) :
  _normalize_steps B payload = [] \/ complete_steps (_normalize_steps B payload).
Proof.
  unfold _normalize_steps. destruct payload as [| | | |items|]; auto.
  pose proof (normalize_steps_loop_spec items 1 [] false false
                (List.Forall_nil _) ltac:(discriminate) ltac:(discriminate))
    as H.
  destruct (normalize_steps_loop B items 1 [] false false)
    as [[out hc] ht]. destruct H as (Hs & Hc & Ht).
  destruct out as [|d out]; [by left|]. right.
  set (o1 := if negb hc then default_code_step :: d :: out else d :: out).
  assert (H1 : Forall sound_step o1 /\ has_type o1 StepType.CODE
               /\ (ht = true -> has_type o1 StepType.TEST)
               /\ o1 <> []).
  { subst o1. destruct hc; simpl.
    - auto.
    - split; [constructor; [apply default_code_step_sound|done]|].
      split; [exists default_code_step; split;
                [apply list_elem_of_here|reflexivity]|].
      split; [|done]. intros H. destruct (Ht H) as (d' & ? & ?).
      exists d'. split; [by apply list_elem_of_further|done]. }
  clearbody o1. destruct H1 as (Hs1 & Hc1 & Ht1 & Hne).
  destruct o1 as [|d1 o1]; [done|].
  unfold complete_steps. destruct ht; cbn [negb].
  - auto.
  - split; [apply Forall_app; split;
              [done|constructor; [apply default_test_step_sound|done]]|].
    split.
    + destruct Hc1 as (d' & ? & ?). exists d'. split; [|done].
      apply elem_of_app. by left.
    + exists default_test_step. split; [|reflexivity].
      apply elem_of_app. right. apply list_elem_of_here.
Qed.

Lemma fallback_steps_complete : complete_steps fallback_steps.
Proof.
  unfold complete_steps, fallback_steps. split; [|split].
  - constructor; [|constructor; [|constructor]].
    + intros st H. vm_compute in H. injection H as <-. simpl.
      split; discriminate.
    + intros st H. vm_compute in H. injection H as <-. simpl.
      split; [discriminate|reflexivity].
  - eexists. split; [apply list_elem_of_here|reflexivity].
  - eexists. split; [apply list_elem_of_further, list_elem_of_here|].
    reflexivity.
Qed.

(** The steps [_plan_from_payload] hands to [Plan.from_dict]. *)
Definition steps_for_plan (payload : dict) : list dict :=
  let normalized_steps := _normalize_steps B (get_or_none payload "steps") in
  match normalized_steps with
  | [] => fallback_steps
  | _ => normalized_steps
  end.

Lemma steps_for_plan_complete (payload : dict) :
  steps_for_plan payload <> [] /\ complete_steps (steps_for_plan payload).
Proof.
  unfold steps_for_plan. cbv zeta.
  destruct (normalize_steps_spec (get_or_none payload "steps")) as [E|H].
  - rewrite E. split; [discriminate|apply fallback_steps_complete].
  - destruct (_normalize_steps B (get_or_none payload "steps")) eqn:E.
    + split; [discriminate|apply fallback_steps_complete].
    + split; [discriminate|done].
Qed.

Lemma emap_dicts {C} (f : dict -> Exn + C) (ds : list dict) (out : list C) :
  emap (fun item => ebind (as_dict item) f) (map JObj ds) = inr out ->
  Forall2 (fun d c => f d = inr c) ds out.
Proof.
  intros H. apply emap_inr in H. revert out H.
  induction ds as [|d ds IH]; intros out H; inversion H; subst;
    constructor; auto.
Qed.

Lemma chars_nonempty (x : string) : x <> "" -> chars x <> [].
Proof.
  destruct x as [|c x]; [done|]. intros _. unfold chars. simpl.
  destruct (chars_from x) as [pending done].
  destruct (_ && _); [discriminate|].
  destruct pending; discriminate.
Qed.

Lemma py_iter_truthy (x : json) (items : list json) :
  json_truthy x = true -> py_iter x = inr items -> items <> [].
Proof.
  destruct x as [|b|z|x|l|d]; simpl; try discriminate.
  - intros Hx [= <-]. apply truthy_str_neq, chars_nonempty in Hx.
    by destruct (chars x).
  - intros Hl [= <-]. by destruct l.
  - intros Hd [= <-]. by destruct d.
Qed.

Definition default_allowed_paths : list string :=
  ["src/**"; "tests/**"; "README.md"].

Definition default_forbidden_paths : list string := [".git/**"; "secrets/**"].

(** What a successful [_plan_from_payload] has computed. *)
Lemma plan_from_payload_inv (now : string) (payload : dict) (task : Task.t)
    (p : Plan.t) :
  _plan_from_payload B now payload task = inr p ->
  exists (allowed max_raw : option json) (allowed_items : list json),
    py_get (default (JObj []) (dict_get payload "constraints"))
      "allowed_paths" = inr allowed
    /\ py_iter (py_or allowed (JList (map JStr default_allowed_paths)))
       = inr allowed_items
    /\ PlanConstraints.allowed_paths (Plan.constraints p)
       = map (py_str B) allowed_items
    /\ py_get (default (JObj []) (dict_get payload "constraints"))
         "max_files_changed" = inr max_raw
    /\ py_int B (default (JInt 20) max_raw)
       = inr (PlanConstraints.max_files_changed (Plan.constraints p))
    /\ Plan.plan_id p
       = py_str B (py_or (dict_get payload "plan_id")
                     (JStr ("plan_" +:+ Task.task_id task +:+ "_v1")))
    /\ Plan.task_id p
       = py_str B (py_or (dict_get payload "task_id")
                     (JStr (Task.task_id task)))
    /\ Plan.goal p
       = py_str B (py_or (dict_get payload "goal")
                     (if truthy_str (Task.description task)
                      then JStr (Task.description task)
                      else JStr (Task.title task)))
    /\ Forall2 (fun d step => PlanStep.from_dict d = inr step)
         (steps_for_plan payload) (Plan.steps p).
Proof.
  unfold _plan_from_payload. intros H.
  apply ebind_inr in H as (allowed & Hallowed & H).
  apply ebind_inr in H as (forbidden & Hforbidden & H).
  apply ebind_inr in H as (max_raw & Hmax_raw & H).
  apply ebind_inr in H as (max_files & Hmax & H).
  apply ebind_inr in H as (version & Hversion & H).
  apply ebind_inr in H as (assumptions & Hassum & H).
  apply ebind_inr in H as (allowed_items & Hai & H).
  apply ebind_inr in H as (forbidden_items & Hfi & H).
  apply ebind_inr in H as (before_run & Hbr & H).
  apply ebind_inr in H as (before_commit & Hbc & H).
  apply ebind_inr in H as (created_at & Hca & H).
  apply ebind_inr in H as (created_by & Hcb & H).
  change (match _normalize_steps B (get_or_none payload "steps") with
          | [] => fallback_steps
          | _ :: _ => _normalize_steps B (get_or_none payload "steps")
          end) with (steps_for_plan payload) in H.
  unfold Plan.from_dict, PlanConstraints.from_dict in H.
  cbn [dict_get String.eqb Ascii.eqb Bool.eqb default from_option py_item id
       ebind as_str as_dict py_int py_iter py_get andb] in H.
  rewrite !emap_as_str in H. cbn [ebind] in H.
  apply ebind_inr in H as (questions & Hq & H).
  apply ebind_inr in H as (steps & Hsteps & H).
  injection H as <-. cbn [Plan.constraints Plan.plan_id Plan.task_id Plan.goal
    Plan.steps PlanConstraints.allowed_paths
    PlanConstraints.max_files_changed].
  exists allowed, max_raw, allowed_items.
  repeat (split; [done|]). by apply emap_dicts.
Qed.

(** The steps of the plan, seen through the dicts they were parsed from. *)
Lemma parsed_steps_complete (ds : list dict) (steps : list PlanStep.t) :
  Forall2 (fun d step => PlanStep.from_dict d = inr step) ds steps ->
  complete_steps ds ->
  (forall step, step ∈ steps ->
     PlanStep.id step <> ""
     /\ (PlanStep.step_type step = StepType.TEST ->
         has_command (PlanStep.command step) = true))
  /\ (forall ty, has_type ds ty ->
        exists step, step ∈ steps /\ PlanStep.step_type step = ty).
Proof.
  intros HF (Hs & _ & _). split.
  - intros step Hin.
    apply list_elem_of_lookup in Hin as [i Hi].
    destruct (Forall2_lookup_r _ _ _ _ _ HF Hi) as (d & Hd & Hp).
    rewrite Forall_forall in Hs. apply (Hs d); [|done].
    by eapply list_elem_of_lookup_2.
  - intros ty (d & Hd & Hty).
    apply list_elem_of_lookup in Hd as [i Hi].
    destruct (Forall2_lookup_l _ _ _ _ _ HF Hi) as (step & Hstep & Hp).
    exists step. split; [by eapply list_elem_of_lookup_2|].
    by eapply from_dict_type.
Qed.

(** C8, amended.  Whatever plan [_plan_from_payload] makes of a payload, the
    plan has a code step and a test step (a default step of the missing kind
    is put in), every test step has a command that is not blank ([pytest -q]
    where the payload gave none), every step has an id, the plan has an id,
    and [allowed_paths] is not empty (the defaults where the payload gave
    none).  These are the rules the normalisation secures; the validator
    then returns no error exactly when the remaining rules hold, which the
    payload decides: [task_id] is not empty, the goal is not blank,
    [max_files_changed] is positive and no step id occurs twice. *)
Theorem plan_from_payload_normalizes (now : string) (payload : dict)
    (task : Task.t) (p : Plan.t) :
  _plan_from_payload B now payload task = inr p ->
  (exists step, step ∈ Plan.steps p
                /\ PlanStep.step_type step = StepType.CODE)
  /\ (exists step, step ∈ Plan.steps p
                   /\ PlanStep.step_type step = StepType.TEST)
  /\ (forall step, step ∈ Plan.steps p ->
        PlanStep.step_type step = StepType.TEST ->
        has_command (PlanStep.command step) = true)
  /\ (forall step, step ∈ Plan.steps p -> PlanStep.id step <> "")
  /\ Plan.plan_id p <> ""
  /\ PlanConstraints.allowed_paths (Plan.constraints p) <> []
  /\ (dict_get payload "constraints" = None ->
      PlanConstraints.allowed_paths (Plan.constraints p)
      = default_allowed_paths)
  /\ (validate_plan p = [] <->
        Plan.task_id p <> "" /\ nonblank (Plan.goal p) = true
        /\ (0 < PlanConstraints.max_files_changed (Plan.constraints p))%Z
        /\ NoDup (map PlanStep.id (Plan.steps p))).
Proof.
  intros H.
  destruct (plan_from_payload_inv _ _ _ _ H)
    as (allowed & max_raw & allowed_items & Hallowed & Hai & Hpaths & _ & _
        & Hid & _ & _ & HF).
  destruct (steps_for_plan_complete payload) as [Hne Hcomplete].
  destruct (parsed_steps_complete _ _ HF Hcomplete) as [Hsound Htypes].
  destruct (Htypes StepType.CODE (proj1 (proj2 Hcomplete))) as (c & Hc & Hct).
  destruct (Htypes StepType.TEST (proj2 (proj2 Hcomplete))) as (t & Ht & Htt).
  assert (Hpid : Plan.plan_id p <> "").
  { rewrite Hid. apply py_str_or. by apply append_nonempty. }
  assert (Hap : PlanConstraints.allowed_paths (Plan.constraints p) <> []).
  { rewrite Hpaths. intros E. apply map_eq_nil in E. subst allowed_items.
    unfold py_or in Hai. destruct allowed as [v|]; [|discriminate Hai].
    destruct (json_truthy v) eqn:T; [|discriminate Hai].
    by apply (py_iter_truthy v []). }
  split; [eauto|]. split; [eauto|].
  split; [intros step Hin; by apply Hsound|].
  split; [intros step Hin; by apply Hsound|].
  split; [done|]. split; [done|]. split.
  - intros Hnone. rewrite Hnone in Hallowed. simpl in Hallowed.
    injection Hallowed as <-. simpl in Hai. injection Hai as <-.
    by rewrite Hpaths.
  - rewrite validate_plan_nil. unfold plan_rules. split.
    + intros (_ & ? & ? & _ & ? & _ & _ & ? & _). done.
    + intros (? & ? & ? & ?). repeat (split; [done|]).
      split; [intros E; rewrite E in Hc; by apply elem_of_nil in Hc|].
      split; [intros step Hin; by apply Hsound|]. split; [done|].
      split; [eauto|]. split; [eauto|].
      intros step Hin. by apply Hsound.
Qed.

End PlanPayload.

Section PlanPayloadScenarios.

Import plan opencode scenario.

Definition some_task : Task.t := stored_task TaskState.CLARIFYING false 0 3.

Definition now : string := "2026-02-07T10:00:00Z".

(** The plan that the payload of the test is made into. *)
Definition plan_with_test_step : Plan.t :=
  Plan.mk "plan_task_1_v1" "task_1" 1 "Implement feature" []
    (PlanConstraints.mk ["src/**"] [".git/**"; "secrets/**"] 10) []
    [ PlanStep.mk "s1" StepType.CODE "Implement" None StepStatus.PENDING;
      PlanStep.mk "s_test" StepType.TEST "Run tests" (Some "pytest -q")
        StepStatus.PENDING ]
    true true now "opencode-plan-agent".

(** What the validator says of the plan made of a payload, if one is made. *)
Definition validation_of (made : Exn + Plan.t) : option (list string) :=
  match made with
  | inr p => Some (validate_plan p)
  | inl _ => None
  end.

(** tests/test_opencode_adapter.py, test_plan_normalization_adds_test_step:
    the default test step is appended, and the validator passes. *)
Example plan_normalization_adds_test_step :
  _plan_from_payload builtins now payload_without_test_step some_task
  = inr plan_with_test_step
  /\ validate_plan plan_with_test_step = [].
Proof. split; vm_compute; reflexivity. Qed.

(** C8, as the claim has it, fails: the normalisation leaves alone what the
    payload says about the size of the change, the step ids and the goal.
    A payload with [max_files_changed] 0, a payload with the step id [a]
    twice, and a payload with a goal of blanks are each made into a plan,
    and the validator rejects each plan. *)
Lemma normalized_plan_may_fail_validation :
  validation_of
    (_plan_from_payload builtins now
       [("constraints", JObj [("max_files_changed", JInt 0)])] some_task)
  = Some ["constraints.max_files_changed must be > 0"]
  /\ validation_of
       (_plan_from_payload builtins now
          [("steps", JList [JObj [("id", JStr "a")]; JObj [("id", JStr "a")]])]
          some_task)
     = Some ["duplicate step id: a"]
  /\ validation_of
       (_plan_from_payload builtins now [("goal", JStr "  ")] some_task)
     = Some ["goal is required"].
Proof. repeat split; vm_compute; reflexivity. Qed.

Lemma placeholder_repr_nonempty (x : json) :
  repr_container builtins x <> "".
Proof. destruct x; discriminate. Qed.

(** The payload of the test, through the theorem: its plan validates. *)
Lemma plan_from_payload_normalizes_witness :
  validate_plan plan_with_test_step = [].
Proof.
  apply (plan_from_payload_normalizes builtins placeholder_repr_nonempty
           now payload_without_test_step some_task plan_with_test_step).
  - vm_compute. reflexivity.
  - split; [discriminate|]. split; [vm_compute; reflexivity|].
    split; [reflexivity|]. simpl. apply NoDup_cons. split.
    + intros H. apply list_elem_of_singleton in H. discriminate H.
    + apply NoDup_singleton.
Defined.

End PlanPayloadScenarios.

(* ------------------------------------------------------------------ *)
(** ** The rule-based intent classifier *)

Section IntentClassifier.

Import re intent intent.RuleBasedIntentClassifier.

Local Open Scope N_scope.

Implicit Types (s : list N) (c : N).

(** *** The normalised text *)

















Local Open Scope Q_scope.

Definition result (i : ApprovalIntent.t) (confidence : Q) (reason : string)
  : IntentResult.t :=
  IntentResult.mk i confidence reason None.



(** The texts of tests/test_intent.py and of the scenarios, and the order of
    the lists: [不同意] holds the approve pattern [同意] and is rejected. *)
Example classify_examples :
  map (fun text => IntentResult.intent (classify text))
    [ "同意，开始吧"; "先别做，取消"; "为什么要改这个？"; "可以，开始吧";
      "先别做，取消这个任务"; "不同意"; "  OK  "; "Go   Ahead please";
      "token"; "/approve"; "hold on, not ok?" ]%string
  = [ ApprovalIntent.APPROVE; ApprovalIntent.REJECT; ApprovalIntent.CLARIFY;
      ApprovalIntent.APPROVE; ApprovalIntent.REJECT; ApprovalIntent.REJECT;
      ApprovalIntent.APPROVE; ApprovalIntent.APPROVE; ApprovalIntent.UNKNOWN;
      ApprovalIntent.APPROVE; ApprovalIntent.REJECT ].
Proof. vm_compute. reflexivity. Qed.

End IntentClassifier.


(* ------------------------------------------------------------------ *)
(** * Further properties of the code *)

(* ------------------------------------------------------------------ *)
(** ** models.py: a task survives the trip through its JSON form *)

Section JsonRoundTrip.

Variable B : Builtins.

Lemma emap_map {A C D} (f : A -> D) (g : D -> Exn + C) (items : list A)
    (out : list C) :
  emap (fun x => g (f x)) items = inr out -> emap g (map f items) = inr out.
Proof.
  revert out. induction items as [|x rest IH]; intros out; simpl; [done|].
  destruct (g (f x)) as [e|c]; simpl; [done|].
  destruct (emap (fun x => g (f x)) rest) as [e|cs]; simpl; [done|].
  intros [= <-]. by rewrite (IH cs).
Qed.

(** Decoding the encoded elements of a list gives the list back. *)
Lemma emap_round_trip {A} (encode : A -> json) (decode : json -> Exn + A)
    (items : list A) :
  (forall x, decode (encode x) = inr x) ->
  emap decode (map encode items) = inr items.
Proof.
  intros H. apply emap_map.
  induction items as [|x rest IH]; simpl; [done|]. by rewrite H, IH.
Qed.

Lemma as_opt_str_json_of_opt (x : option string) :
  as_opt_str (json_of_opt x) = inr x.
Proof. by destruct x. Qed.

Lemma question_round_trip (q : PlanQuestion.t) :
  PlanQuestion.from_dict (PlanQuestion.to_dict q) = inr q.
Proof. destruct q as [? ? ? [] ?]; reflexivity. Qed.

Lemma step_round_trip (x : PlanStep.t) :
  PlanStep.from_dict (PlanStep.to_dict x) = inr x.
Proof. destruct x as [? [] ? [?|] []]; reflexivity. Qed.

Lemma constraints_round_trip (c : PlanConstraints.t) :
  PlanConstraints.from_dict B (PlanConstraints.to_dict c) = inr c.
Proof.
  destruct c as [allowed forbidden n].
  unfold PlanConstraints.from_dict, PlanConstraints.to_dict. simpl.
  rewrite !(emap_round_trip JStr as_str) by done. reflexivity.
Qed.

Lemma plan_round_trip (now : string) (p : Plan.t) :
  Plan.from_dict B now (Plan.to_dict p) = inr p.
Proof.
  destruct p as [plan_id task_id version goal assumptions constraints
                 questions steps before_run before_commit created_at
                 created_by].
  unfold Plan.from_dict, Plan.to_dict. simpl.
  rewrite constraints_round_trip. simpl.
  rewrite (emap_round_trip (fun q => JObj (PlanQuestion.to_dict q))
             (fun item => ebind (as_dict item) PlanQuestion.from_dict))
    by apply question_round_trip.
  simpl.
  rewrite (emap_round_trip (fun x => JObj (PlanStep.to_dict x))
             (fun item => ebind (as_dict item) PlanStep.from_dict))
    by apply step_round_trip.
  reflexivity.
Qed.

Lemma approval_round_trip (a : Approval.t) :
  Approval.from_dict (Approval.to_dict a) = inr a.
Proof. destruct a as [? [?|] [?|]]; reflexivity. Qed.

Lemma execution_round_trip (x : ExecutionInfo.t) :
  ExecutionInfo.from_dict B (ExecutionInfo.to_dict x) = inr x.
Proof. destruct x as [? ? [?|]]; reflexivity. Qed.

Lemma artifacts_round_trip (a : TaskArtifacts.t) :
  TaskArtifacts.from_dict (TaskArtifacts.to_dict a) = inr a.
Proof.
  destruct a as [summary diff report pr changed results].
  unfold TaskArtifacts.from_dict, TaskArtifacts.to_dict. simpl.
  rewrite !as_opt_str_json_of_opt. simpl.
  rewrite (emap_round_trip JStr as_str) by done. simpl.
  rewrite (emap_round_trip JObj as_dict) by done. reflexivity.
Qed.

Lemma source_round_trip (x : TaskSource.t) :
  TaskSource.from_dict (TaskSource.to_dict x) = inr x.
Proof. by destruct x. Qed.

Lemma repo_round_trip (x : RepoContext.t) :
  RepoContext.from_dict (RepoContext.to_dict x) = inr x.
Proof. destruct x as [? ? [?|] [?|]]; reflexivity. Qed.

Lemma event_round_trip (ev : TaskEvent.t) :
  TaskEvent.from_dict (TaskEvent.to_dict ev) = inr ev.
Proof. by destruct ev. Qed.

Lemma state_round_trip (s : TaskState.t) :
  TaskState.of_value (JStr (TaskState.value s)) = inr s.
Proof. by destruct s. Qed.

(** X1.  [Task.from_dict(task.to_dict())] is the task again, for every task:
    nothing is lost or altered on the way through the dictionary that
    [TaskStore.save] writes and [TaskStore.get] reads, and none of the
    defaults of [from_dict] (among them the clock readings) gets used. *)
Theorem task_json_round_trip
    (now_plan now_created now_updated : string) (task : Task.t) :
  Task.from_dict B now_plan now_created now_updated (Task.to_dict task)
  = inr task.
Proof.
  destruct task as [task_id title description source repo state approval plan
                    execution artifacts event_log created_at updated_at].
  assert (E : emap (fun item => ebind (as_dict item) TaskEvent.from_dict)
                (map (fun ev => JObj (TaskEvent.to_dict ev)) event_log)
              = inr event_log)
    by (apply (emap_round_trip (fun ev => JObj (TaskEvent.to_dict ev)));
        apply event_round_trip).
  unfold Task.from_dict, Task.to_dict.
  cbn -[TaskSource.from_dict TaskSource.to_dict RepoContext.from_dict
        RepoContext.to_dict TaskState.of_value TaskState.value
        Approval.from_dict Approval.to_dict Plan.from_dict Plan.to_dict
        ExecutionInfo.from_dict ExecutionInfo.to_dict
        TaskArtifacts.from_dict TaskArtifacts.to_dict emap].
  rewrite source_round_trip, repo_round_trip, state_round_trip,
    approval_round_trip.
  destruct plan as [p|];
    cbn -[Plan.from_dict Plan.to_dict ExecutionInfo.from_dict
          ExecutionInfo.to_dict TaskArtifacts.from_dict
          TaskArtifacts.to_dict emap];
    rewrite ?plan_round_trip;
    cbn -[ExecutionInfo.from_dict ExecutionInfo.to_dict
          TaskArtifacts.from_dict TaskArtifacts.to_dict emap];
    rewrite execution_round_trip, artifacts_round_trip;
    cbn -[emap]; rewrite E; reflexivity.
Qed.

End JsonRoundTrip.

(* ------------------------------------------------------------------ *)
(** ** state_machine.py: a transition is applied whole or not at all *)

Section TransitionFrame.

Import TaskState state_machine.

(** [task'] differs from [task] at most in [state], [event_log] and
    [updated_at]. *)
Definition same_but_state_and_log (task task' : Task.t) : Prop :=
  Task.set_state (Task.state task)
    (Task.set_event_log (Task.event_log task)
       (Task.set_updated_at (Task.updated_at task) task'))
  = task.

(** X2.  Whatever the target and the reason, a refused [transition] raises
    [InvalidTransitionError] and has changed nothing: no field of the task,
    no event, no clock reading.  An accepted one sets [state] to the target,
    appends exactly one event (stamped with the first of two clock readings)
    after the events already logged, sets [updated_at] to the second
    reading, and leaves every other field of the task and every file as it
    was. *)
Theorem transition_applies_whole_or_not_at_all
    (task : Task.t) (w : World) (target : TaskState.t)
    (event_type message : string) (payload : option dict) :
  match transition target event_type message payload (task, w) with
  | (s', inl e) => s' = (task, w) /\ exn_class e = InvalidTransitionError
  | ((task', w'), inr _) =>
      Task.state task' = target
      /\ (exists ev,
            Task.event_log task' = (Task.event_log task ++ [ev])%list
            /\ TaskEvent.timestamp ev = clock_readings w (clock_reads w)
            /\ TaskEvent.event_type ev = event_type
            /\ TaskEvent.message ev = message)
      /\ Task.updated_at task' = clock_readings w (S (clock_reads w))
      /\ same_but_state_and_log task task'
      /\ w' = tick 2 w
  end.
Proof.
  destruct (assert_transition task target) as [e|[]] eqn:E.
  - rewrite (transition_raises _ _ _ _ _ _ _ E).
    split; [reflexivity|]. by apply assert_transition_class in E.
  - rewrite (transition_passes _ _ _ _ _ _ E).
    split; [reflexivity|]. split; [eexists; repeat split; reflexivity|].
    split; [reflexivity|]. split; [|reflexivity]. by destruct task.
Qed.

End TransitionFrame.

(* ------------------------------------------------------------------ *)
(** ** policy.py: what acceptance does not depend on *)

Section PolicyInvariance.

Import policy.

Implicit Types (c : PlanConstraints.t) (changed : list string).

Lemma normalize_idempotent (file_path : string) :
  normalize (normalize file_path) = normalize file_path.
Proof.
  induction file_path as [|ch rest IH]; [reflexivity|].
  cbn [normalize]. rewrite IH.
  destruct (Ascii.eqb ch "\"%char) eqn:E; [reflexivity|]. by rewrite E.
Qed.

Lemma path_passes_normalize c (p : string) :
  path_passes c (normalize p) = path_passes c p.
Proof.
  unfold path_passes, path_forbidden, path_allowed.
  by rewrite normalize_idempotent.
Qed.

Lemma path_error_normalize c (p : string) :
  path_error c (normalize p) = path_error c p.
Proof.
  unfold path_error, path_forbidden. by rewrite normalize_idempotent.
Qed.

(** X3.  The policy reads a back-slash in a changed path as a slash: a
    change set and the same set written with slashes get the same verdict,
    down to the text of the error. *)
Theorem enforce_file_policy_reads_backslash_as_slash changed c :
  enforce_file_policy (map normalize changed) c
  = enforce_file_policy changed c.
Proof.
  unfold enforce_file_policy. rewrite length_map.
  destruct (_ <? _)%Z; [reflexivity|].
  induction changed as [|p rest IH]; [reflexivity|].
  change (map normalize (p :: rest)) with (normalize p :: map normalize rest).
  rewrite !check_paths_cons, path_passes_normalize, path_error_normalize, IH.
  reflexivity.
Qed.

(** X4.  Acceptance is monotone and does not depend on the order of the
    files: when a change set is accepted, so is every selection of its
    files, in any order. *)
Theorem enforce_file_policy_accepts_every_selection changed selection c :
  selection ⊆+ changed ->
  enforce_file_policy changed c = inr tt ->
  enforce_file_policy selection c = inr tt.
Proof.
  intros Hsub. rewrite !enforce_ok. intros [Hc Hp]. split.
  - unfold count_ok in *. apply submseteq_length in Hsub. lia.
  - intros p Hin. apply Hp. by eapply elem_of_submseteq.
Qed.

Lemma enforce_file_policy_accepts_every_selection_witness :
  enforce_file_policy ["tests/test_service.py"]
    (PlanConstraints.mk ["src/**"; "tests/**"] ["secrets/**"] 5) = inr tt.
Proof.
  apply (enforce_file_policy_accepts_every_selection
           ["src/service.py"; "tests/test_service.py"]).
  - apply submseteq_cons, submseteq_skip, submseteq_nil.
  - vm_compute. reflexivity.
Defined.

End PolicyInvariance.

(* ------------------------------------------------------------------ *)
(** ** orchestrator.py: the loop over the test steps *)

Section TestLoop.

Import orchestrator.

Variable client : OpenCodeClient.

(** [step.command or ""] *)
Definition command_of (step : PlanStep.t) : string :=
  match PlanStep.command step with Some s => s | None => "" end.

Definition passed (r : TestExecutionResult.t) : Prop :=
  TestExecutionResult.exit_code r = 0.

Lemma exit_code_zero_to_dict (r : TestExecutionResult.t) :
  exit_code_zero (TestExecutionResult.to_dict r) = true <-> passed r.
Proof. unfold passed. simpl. apply Z.eqb_eq. Qed.

(** What the loop has done when it returns: [ran] are the results of the
    commands it ran, in the order of the steps. *)
Definition loop_outcome (task : Task.t) (steps : list PlanStep.t)
    (first : nat) (ran : list TestExecutionResult.t) (all_passed : bool)
  : Prop :=
  (forall i r, ran !! i = Some r ->
     exists step, steps !! i = Some step
       /\ run_test client (first + i)%nat task (command_of step) = inr r)
  /\ (forall i r, ran !! i = Some r -> (S i < length ran)%nat -> passed r)
  /\ (if all_passed
      then length ran = length steps /\ Forall passed ran
      else exists r, last ran = Some r /\ ~ passed r).

Lemma run_test_steps_spec (task : Task.t) (steps : list PlanStep.t)
    (first : nat) (acc results : list dict) (all_passed : bool) :
  run_test_steps client task steps first acc = inr (results, all_passed) ->
  exists ran,
    results = (acc ++ map TestExecutionResult.to_dict ran)%list
    /\ loop_outcome task steps first ran all_passed.
Proof.
  revert first acc.
  induction steps as [|step rest IH]; intros first acc H; simpl in H.
  - injection H as <- <-. exists []. split; [by rewrite app_nil_r|].
    repeat split; done.
  - fold (command_of step) in H.
    destruct (run_test client first task (command_of step)) as [e|r] eqn:R;
      [discriminate|].
    destruct (TestExecutionResult.exit_code r =? 0) eqn:Z; simpl in H.
    + apply Z.eqb_eq in Z.
      apply IH in H as (ran & -> & Hrun & Hinit & Hend).
      exists (r :: ran). split; [by rewrite <- app_assoc|].
      split; [|split].
      * intros [|i] r' Hi; simpl in Hi.
        -- injection Hi as <-. exists step. by rewrite Nat.add_0_r.
        -- apply Hrun in Hi as (step' & Hs & Hr). exists step'.
           split; [done|]. by rewrite Nat.add_succ_r.
      * intros [|i] r' Hi Hlen; simpl in Hi, Hlen.
        -- by injection Hi as <-.
        -- apply (Hinit i); [done|lia].
      * destruct all_passed.
        -- destruct Hend as [Hl Hall]. split; [simpl; by rewrite Hl|].
           by constructor.
        -- destruct Hend as (r' & Hl & Hr'). exists r'. split; [|done].
           destruct ran as [|r0 ran']; [done|]. exact Hl.
    + apply Z.eqb_neq in Z. injection H as <- <-.
      exists [r]. split; [reflexivity|]. split; [|split].
      * intros [|i] r' Hi; simpl in Hi; [|by rewrite lookup_nil in Hi].
        injection Hi as <-. exists step. by rewrite Nat.add_0_r.
      * intros [|i] r' Hi Hlen; simpl in Hlen; lia.
      * exists r. split; [reflexivity|exact Z].
Qed.

(** X5.  The test loop of [run_task] runs the commands of the test steps in
    order and stops at the first one that exits non-zero: every result but
    the last has exit code 0, each result is what the client returned for
    the step at its position, [all_passed] holds exactly when every test
    step was run and passed, and otherwise the last result is the failure.
    The steps after a failure are not run. *)
Theorem run_test_steps_stops_at_first_failure
    (task : Task.t) (steps : list PlanStep.t) (results : list dict)
    (all_passed : bool) :
  run_test_steps client task steps 0 [] = inr (results, all_passed) ->
  exists ran,
    results = map TestExecutionResult.to_dict ran
    /\ loop_outcome task steps 0 ran all_passed
    /\ all_passed = forallb exit_code_zero results.
Proof.
  intros H. apply run_test_steps_spec in H as (ran & -> & Hout).
  exists ran. split; [reflexivity|]. split; [exact Hout|].
  destruct Hout as (_ & _ & Hend). simpl. destruct all_passed.
  - destruct Hend as [_ Hall]. symmetry. apply forallb_forall.
    intros d Hd. apply in_map_iff in Hd as (r & <- & Hr).
    apply exit_code_zero_to_dict. rewrite List.Forall_forall in Hall.
    by apply Hall.
  - destruct Hend as (r & Hl & Hr). symmetry.
    apply not_true_iff_false. intros Hall. apply Hr.
    apply exit_code_zero_to_dict.
    rewrite forallb_forall in Hall. apply Hall, in_map.
    apply last_Some in Hl as [ran' ->]. apply in_elt.
Qed.

End TestLoop.

(* ------------------------------------------------------------------ *)
(** ** The event log only grows *)

Section LogGrows.

Import TaskState orchestrator.

(** The log of [s] is the beginning of the log of [s']. *)
Definition extends (s s' : State) : Prop :=
  Task.event_log s.1 `prefix_of` Task.event_log s'.1.

(** Every run of [m] ends, returning or raising, with the log extended. *)
Definition log_grows {A} (m : M A) : Prop := forall s, extends s (m s).1.

Lemma extends_refl (s : State) : extends s s.
Proof. by unfold extends. Qed.

Lemma extends_trans (s1 s2 s3 : State) :
  extends s1 s2 -> extends s2 s3 -> extends s1 s3.
Proof. unfold extends. by etrans. Qed.

Lemma log_grows_ret {A} (a : A) : log_grows (ret a).
Proof. intros s. apply extends_refl. Qed.

Lemma log_grows_raise {A} (e : Exn) : log_grows (@raise A e).
Proof. intros s. apply extends_refl. Qed.

Lemma log_grows_lift {A} (r : Exn + A) : log_grows (lift r).
Proof. intros s. apply extends_refl. Qed.

Lemma log_grows_get_task : log_grows get_task.
Proof. intros s. apply extends_refl. Qed.

Lemma log_grows_bind {A C} (m : M A) (k : A -> M C) :
  log_grows m -> (forall a, log_grows (k a)) -> log_grows (bind m k).
Proof.
  intros Hm Hk s. unfold bind. specialize (Hm s).
  destruct (m s) as [s' [e|a]]; [exact Hm|].
  eapply extends_trans; [exact Hm|apply Hk].
Qed.

Lemma log_grows_try {A} (body : M A) (handler : Exn -> M A) :
  log_grows body -> (forall e, log_grows (handler e)) ->
  log_grows (try_except body handler).
Proof.
  intros Hb Hh s. unfold try_except. specialize (Hb s).
  destruct (body s) as [s' [e|a]]; [|exact Hb].
  eapply extends_trans; [exact Hb|apply Hh].
Qed.

Lemma log_grows_modify_task (f : Task.t -> Task.t) :
  (forall task, Task.event_log (f task) = Task.event_log task) ->
  log_grows (modify_task f).
Proof. intros H s. unfold extends. simpl. by rewrite H. Qed.

Lemma log_grows_modify_world (f : World -> World) :
  log_grows (modify_world f).
Proof. intros s. unfold extends. simpl. reflexivity. Qed.

Lemma log_grows_utc_now_iso : log_grows utc_now_iso.
Proof. intros s. unfold extends. simpl. reflexivity. Qed.

Lemma log_grows_record_event event_type message payload :
  log_grows (record_event event_type message payload).
Proof. intros [task w]. unfold extends. simpl. by apply prefix_app_r. Qed.

Lemma log_grows_transition target event_type message payload :
  log_grows (state_machine.transition target event_type message payload).
Proof.
  intros [task w].
  destruct (state_machine.assert_transition task target) as [e|[]] eqn:E.
  - rewrite (transition_raises _ _ _ _ _ _ _ E). apply extends_refl.
  - rewrite (transition_passes _ _ _ _ _ _ E). unfold extends. simpl.
    by apply prefix_app_r.
Qed.

Lemma log_grows_save : log_grows store.save.
Proof. intros s. unfold extends. simpl. reflexivity. Qed.

Lemma log_grows_wp {A} (m : M A) (s : State) :
  log_grows m ->
  wp m (fun _ s' => extends s s') (fun _ s' => extends s s') s.
Proof. intros H. specialize (H s). unfold wp. by destruct (m s) as [? [?|?]]. Qed.

Lemma wp_and {A} (m : M A) (Q1 Q2 : A -> State -> Prop)
    (E1 E2 : Exn -> State -> Prop) (s : State) :
  wp m Q1 E1 s -> wp m Q2 E2 s ->
  wp m (fun a s' => Q1 a s' /\ Q2 a s') (fun e s' => E1 e s' /\ E2 e s') s.
Proof. unfold wp. destruct (m s) as [? [?|?]]; by split. Qed.

End LogGrows.

(** One step of a proof that the log grows. *)
Ltac log_step :=
  lazymatch goal with
  | |- log_grows (record_event _ _ _) => apply log_grows_record_event
  | |- log_grows (state_machine.transition _ _ _ _) =>
      apply log_grows_transition
  | |- log_grows store.save => apply log_grows_save
  | |- log_grows utc_now_iso => apply log_grows_utc_now_iso
  | |- log_grows get_task => apply log_grows_get_task
  | |- log_grows (modify_world _) => apply log_grows_modify_world
  | |- log_grows (modify_task _) =>
      apply log_grows_modify_task; intros ?; reflexivity
  | |- log_grows (ret _) => apply log_grows_ret
  | |- log_grows (raise _) => apply log_grows_raise
  | |- log_grows (lift _) => apply log_grows_lift
  | |- log_grows (try_except _ _) => apply log_grows_try; [|intros ?]
  | |- log_grows (bind _ _) => apply log_grows_bind; [|intros ?]
  | |- log_grows (match ?x with _ => _ end) => destruct x
  end.

Section RunTaskLog.

Import TaskState orchestrator.

Variable self : Orchestrator.

Lemma log_grows_run_task_body : log_grows (run_task_body self).
Proof. unfold run_task_body, get_plan, _write_test_report. repeat log_step. Qed.

Lemma log_grows_run_task_handler (exc : Exn) :
  log_grows (run_task_handler exc).
Proof. unfold run_task_handler. repeat log_step. Qed.

End RunTaskLog.

(* ------------------------------------------------------------------ *)
(** ** orchestrator.py: what a run that returns has gone through *)

Section RunTaskOutcome.

Import TaskState orchestrator.

Variable self : Orchestrator.

(** [report_dir / f"{task_id}_test_report.json"] *)
Definition report_path_of (task_id : string) : string :=
  report_dir self +:+ "/" +:+ task_id +:+ "_test_report.json".

Definition test_steps_of (p : Plan.t) : list PlanStep.t :=
  filter (fun step => PlanStep.step_type step = StepType.TEST) (Plan.steps p).

(** The gates before the tests: entry into [RUNNING], the plan validator,
    the build of the client, the file policy. *)
Definition gates_passed (t0 : Task.t) (s : State) : Prop :=
  exists plan0 running build_result,
    Task.plan t0 = Some plan0
    /\ Task.plan s.1 = Some plan0
    /\ state_machine.assert_transition t0 RUNNING = inr tt
    /\ plan.validate_plan plan0 = []
    /\ Task.state running = RUNNING
    /\ build (opencode_client self) running = inr build_result
    /\ TaskArtifacts.diff_path (Task.artifacts s.1)
       = Some (BuildExecutionResult.diff_path build_result)
    /\ is_set (TaskArtifacts.diff_path (Task.artifacts s.1))
    /\ TaskArtifacts.changed_files (Task.artifacts s.1)
       = BuildExecutionResult.changed_files build_result
    /\ policy.enforce_file_policy
         (TaskArtifacts.changed_files (Task.artifacts s.1))
         (Plan.constraints plan0) = inr tt.

(** The report document written for [results]. *)
Definition report_of (task_id generated_at : string) (results : list dict)
  : json :=
  JObj [ ("task_id", JStr task_id);
         ("generated_at", JStr generated_at);
         ("results", JList (map JObj results));
         ("passed", JBool (forallb exit_code_zero results)) ].

(** The tests: the loop over the test steps of the plan, the report, and
    the verdict. *)
Definition tests_settled (t0 : Task.t) (s : State) : Prop :=
  exists plan0 testing results all_passed generated_at,
    Task.plan t0 = Some plan0
    /\ Task.state testing = TESTING
    /\ run_test_steps (opencode_client self) testing (test_steps_of plan0)
         0 [] = inr (results, all_passed)
    /\ TaskArtifacts.test_results (Task.artifacts s.1) = results
    /\ TaskArtifacts.test_report_path (Task.artifacts s.1)
       = Some (report_path_of (Task.task_id t0))
    /\ report_files s.2 !! report_path_of (Task.task_id t0)
       = Some (report_of (Task.task_id t0) generated_at results)
    /\ (if all_passed
        then Task.state s.1 = DONE
             /\ ExecutionInfo.last_error (Task.execution s.1) = None
        else Task.state s.1 = FAILED
             /\ ExecutionInfo.last_error (Task.execution s.1)
                = Some "One or more tests failed").

Lemma plan_is_valid (p : Plan.t) :
  plan.assert_plan_valid p = inr tt -> plan.validate_plan p = [].
Proof.
  unfold plan.assert_plan_valid. by destruct (plan.validate_plan p).
Qed.

Lemma run_task_body_outcome (t0 : Task.t) (w0 : World) :
  wp (run_task_body self)
    (fun _ s => gates_passed t0 s /\ tests_settled t0 s) (fun _ _ => True)
    (t0, w0).
Proof.
  unfold run_task_body.
  apply wp_bind, wp_transition. cbn [fst snd].
  destruct (state_machine.assert_transition t0 RUNNING) as [e|[]] eqn:HR;
    [exact I|].
  apply wp_bind, wp_get_task. cbn [fst snd].
  change (Task.plan (task_after t0 w0 RUNNING "state.change"
                       "Entering RUNNING" None)) with (Task.plan t0).
  destruct (Task.plan t0) as [plan0|] eqn:HP; [|by apply wp_raise].
  apply wp_bind, wp_lift.
  destruct (plan.assert_plan_valid plan0) as [e|[]] eqn:HV; [exact I|].
  apply plan_is_valid in HV.
  apply wp_bind, wp_get_task. cbn [fst snd].
  apply wp_bind, wp_lift.
  destruct (build (opencode_client self) _) as [e|build_result] eqn:HB;
    [exact I|].
  apply wp_bind, wp_modify_task. cbn [fst snd].
  apply wp_bind, wp_modify_task. cbn [fst snd].
  apply wp_bind, wp_get_task. cbn [fst snd].
  apply wp_bind. unfold get_plan at 1. apply wp_bind, wp_get_task.
  cbn [fst snd].
  match goal with
  | |- context [match Task.plan ?t with _ => _ end] =>
      change (Task.plan t) with (Task.plan t0); rewrite HP
  end.
  apply wp_ret. apply wp_bind, wp_lift.
  destruct (policy.enforce_file_policy _ _) as [e|[]] eqn:HE; [exact I|].
  apply wp_bind, wp_get_task. cbn [fst snd].
  apply wp_bind, wp_record_event. cbn [fst snd].
  apply wp_bind, wp_transition. cbn [fst snd].
  destruct (state_machine.assert_transition _ TESTING) as [e|[]] eqn:HT;
    [exact I|].
  apply wp_bind. unfold get_plan at 1. apply wp_bind, wp_get_task.
  cbn [fst snd].
  match goal with
  | |- context [match Task.plan ?t with _ => _ end] =>
      change (Task.plan t) with (Task.plan t0); rewrite HP
  end.
  apply wp_ret. apply wp_bind, wp_get_task. cbn [fst snd].
  apply wp_bind, wp_lift.
  fold (test_steps_of plan0).
  destruct (run_test_steps _ _ _ _ _) as [e|[test_results all_passed]] eqn:HS;
    [exact I|].
  apply wp_bind. unfold _write_test_report.
  apply wp_bind, wp_utc_now_iso. cbn [fst snd].
  apply wp_bind, wp_modify_world. cbn [fst snd]. apply wp_ret.
  apply wp_bind, wp_modify_task. cbn [fst snd].
  apply wp_bind, wp_modify_task. cbn [fst snd].
  assert (Hset : is_set (Some (BuildExecutionResult.diff_path build_result)))
    by (apply assert_transition_entry in HT as [_ HT]; exact HT).
  assert (G : forall s : State,
            Task.plan s.1 = Some plan0 ->
            TaskArtifacts.diff_path (Task.artifacts s.1)
            = Some (BuildExecutionResult.diff_path build_result) ->
            TaskArtifacts.changed_files (Task.artifacts s.1)
            = BuildExecutionResult.changed_files build_result ->
            gates_passed t0 s).
  { intros s H1 H2 H3. eexists plan0, _, build_result.
    split; [exact HP|]. split; [exact H1|]. split; [exact HR|].
    split; [exact HV|]. split; [|split; [exact HB|]]; [reflexivity|].
    split; [exact H2|]. split; [rewrite H2; exact Hset|].
    split; [exact H3|]. rewrite H3. exact HE. }
  assert (T : forall (s : State) generated_at,
            TaskArtifacts.test_results (Task.artifacts s.1) = test_results ->
            TaskArtifacts.test_report_path (Task.artifacts s.1)
            = Some (report_path_of (Task.task_id t0)) ->
            report_files s.2 !! report_path_of (Task.task_id t0)
            = Some (report_of (Task.task_id t0) generated_at test_results) ->
            (if all_passed
             then Task.state s.1 = DONE
                  /\ ExecutionInfo.last_error (Task.execution s.1) = None
             else Task.state s.1 = FAILED
                  /\ ExecutionInfo.last_error (Task.execution s.1)
                     = Some "One or more tests failed") ->
            tests_settled t0 s).
  { intros s generated_at H1 H2 H3 H4.
    eexists plan0, _, test_results, all_passed, generated_at.
    split; [exact HP|]. split; [|split; [exact HS|]]; [reflexivity|].
    split; [exact H1|]. split; [exact H2|]. split; [exact H3|exact H4]. }
  destruct all_passed.
  - apply wp_bind, wp_modify_task. cbn [fst snd].
    apply wp_transition. cbn [fst snd].
    destruct (state_machine.assert_transition _ DONE) as [e|[]] eqn:HD;
      [exact I|].
    split.
    + apply G; first [exact HP|reflexivity].
    + eapply T; [reflexivity|reflexivity| |split; reflexivity].
      unfold tick. cbn [fst snd report_files].
      exact (lookup_insert_eq _ _ _).
  - apply wp_bind, wp_modify_task. cbn [fst snd].
    apply wp_transition. cbn [fst snd].
    destruct (state_machine.assert_transition _ FAILED) as [e|[]] eqn:HD;
      [exact I|].
    split.
    + apply G; first [exact HP|reflexivity].
    + eapply T; [reflexivity|reflexivity| |split; reflexivity].
      unfold tick. cbn [fst snd report_files].
      exact (lookup_insert_eq _ _ _).
Qed.

(** The handler of [run_task] always re-raises the exception it got. *)
Lemma run_task_handler_reraises (exc : Exn) (s : State) :
  wp (run_task_handler exc) (fun _ _ => False) (fun e _ => e = exc) s.
Proof.
  unfold run_task_handler.
  apply wp_bind, wp_modify_task. apply wp_bind, wp_get_task. cbn [fst snd].
  assert (Rest : forall s' : State,
            wp (record_event "run.failed" "Task run failed"
                  (Some [("error", JStr (exn_msg exc))]) ;;
                store.save ;; raise exc)
              (fun (_ : unit) _ => False) (fun e _ => e = exc) s').
  { intros s'. apply wp_bind, wp_record_event. apply wp_bind, wp_save.
    by apply wp_raise. }
  destruct (negb _).
  - apply wp_bind, wp_try, wp_transition.
    destruct (state_machine.assert_transition _ FAILED) as [e|[]].
    + apply wp_bind, wp_modify_task. apply wp_bind, wp_utc_now_iso.
      apply wp_modify_task. apply Rest.
    + apply Rest.
  - apply wp_bind, wp_ret. apply Rest.
Qed.

(** The log after a run that was let through: the events logged before,
    then [run.started] with the number of the attempt, then the events of
    the run. *)
Definition started_then_more (t0 task : Task.t) : Prop :=
  exists started more,
    Task.event_log task = (Task.event_log t0 ++ started :: more)%list
    /\ TaskEvent.event_type started = "run.started"
    /\ TaskEvent.payload started
       = [("attempt",
           JInt (ExecutionInfo.attempt (Task.execution t0) + 1))].

Definition returned_through_gates (t0 : Task.t) (s : State) : Prop :=
  gates_passed t0 s /\ tests_settled t0 s /\ started_then_more t0 s.1.

Lemma run_loaded_task_outcome (t0 : Task.t) (w0 : World) :
  ~ attempts_exhausted t0 ->
  wp (run_loaded_task self) (fun _ => returned_through_gates t0)
    (fun _ s => started_then_more t0 s.1) (t0, w0).
Proof.
  intros Hg. unfold run_loaded_task.
  apply wp_bind, wp_get_task. cbn [fst snd].
  destruct (bool_decide (Task.state t0 = FAILED)
            && (ExecutionInfo.max_attempts (Task.execution t0)
                <=? ExecutionInfo.attempt (Task.execution t0))%Z) eqn:G.
  { exfalso. apply Hg. apply andb_true_iff in G as [G1 G2].
    split; [by apply bool_decide_eq_true_1 in G1|by apply Z.leb_le]. }
  apply wp_bind, wp_modify_task. cbn [fst snd].
  apply wp_bind, wp_get_task. cbn [fst snd].
  apply wp_bind, wp_record_event. cbn [fst snd].
  match goal with |- wp _ _ _ (?t, ?w) => set (t2 := t); set (w2 := w) end.
  assert (Hlog : forall s : State,
            extends (t2, w2) s -> started_then_more t0 s.1).
  { intros s' [more Hmore]. cbn [fst] in Hmore. eexists _, more.
    split.
    - rewrite Hmore. subst t2.
      cbn [with_event Task.event_log Task.set_updated_at Task.set_event_log].
      rewrite <- app_assoc. reflexivity.
    - split; reflexivity. }
  apply wp_bind, wp_try.
  eapply wp_conseq;
    [exact (wp_and _ _ _ _ _ _ (run_task_body_outcome t2 w2)
              (log_grows_wp _ (t2, w2) (log_grows_run_task_body self)))| |].
  - intros _ s' [[Hgate Htest] Hext]. apply wp_save.
    split; [exact Hgate|]. split; [exact Htest|]. by apply Hlog.
  - intros e s' [_ Hext].
    eapply wp_conseq;
      [exact (wp_and _ _ _ _ _ _ (run_task_handler_reraises e s')
                (log_grows_wp _ s' (log_grows_run_task_handler e)))| |].
    + by intros _ s'' [[] _].
    + intros e' s'' [_ Hext']. apply Hlog.
      by eapply extends_trans.
Qed.

End RunTaskOutcome.

Section RunTaskReturns.

Import TaskState orchestrator.

Variable self : Orchestrator.

(** Both specifications of a run that the attempts guard lets through. *)
Lemma run_task_outcome (task_id : string) (w : World) (t0 : Task.t) :
  task_files w !! task_id = Some t0 ->
  ~ attempts_exhausted t0 ->
  match run_task self task_id w with
  | (w', inr task') =>
      persisted w' t0 task' /\ returned_through_gates self t0 (task', w')
  | (w', inl e) =>
      exists task', persisted w' t0 task' /\ started_then_more t0 task'
  end.
Proof.
  intros H G.
  pose proof (wp_and _ _ _ _ _ _ (run_loaded_task_spec self t0 w G)
                (run_loaded_task_outcome self t0 w G)) as S.
  unfold wp in S. unfold run_task, store.get. rewrite H.
  destruct (run_loaded_task self (t0, w)) as [[task' w'] [e|[]]].
  - destruct S as [(Hf & _) O]. exists task'. split; [|exact O].
    unfold persisted. cbn [fst snd] in Hf. rewrite Hf.
    apply lookup_insert_eq.
  - destruct S as [(Hf & _) O]. split; [|exact O].
    unfold persisted. cbn [fst snd] in Hf. rewrite Hf.
    apply lookup_insert_eq.
Qed.

Lemma run_task_returns_inv (task_id : string) (w w' : World)
    (t0 task' : Task.t) :
  task_files w !! task_id = Some t0 ->
  run_task self task_id w = (w', inr task') ->
  persisted w' t0 task' /\ returned_through_gates self t0 (task', w').
Proof.
  intros H R.
  destruct (decide (Task.state t0 = FAILED)) as [Hs|Hs];
    [destruct (Z_le_dec (ExecutionInfo.max_attempts (Task.execution t0))
                 (ExecutionInfo.attempt (Task.execution t0))) as [Hn|Hn]|].
  - assert (G : attempts_exhausted t0) by done.
    rewrite (run_task_rejects self _ _ _ H G) in R. discriminate.
  - assert (G : ~ attempts_exhausted t0) by (intros [_ ?]; lia).
    pose proof (run_task_outcome _ _ _ H G) as S. by rewrite R in S.
  - assert (G : ~ attempts_exhausted t0) by (by intros [? _]).
    pose proof (run_task_outcome _ _ _ H G) as S. by rewrite R in S.
Qed.


(** X7.  [run_task] returns only for a task that went through every gate:
    the stored task was [WAIT_APPROVAL] or [FAILED] with attempts left, its
    approval was satisfied, it had a plan with no required question open,
    the plan passed the validator, the client's build succeeded, and the
    files the build changed, as stored in [artifacts.changed_files] beside
    the [diff_path], satisfy the file policy of the plan.  The plan itself
    is not changed by the run. *)
Theorem run_task_returns_only_through_every_gate
    (task_id : string) (w w' : World) (t0 task' : Task.t) :
  task_files w !! task_id = Some t0 ->
  run_task self task_id w = (w', inr task') ->
  ~ attempts_exhausted t0
  /\ (Task.state t0 = WAIT_APPROVAL \/ Task.state t0 = FAILED)
  /\ approval_satisfied (Task.approval t0)
  /\ exists plan0,
       Task.plan t0 = Some plan0
       /\ Task.plan task' = Some plan0
       /\ no_open_required_question plan0
       /\ plan.validate_plan plan0 = []
       /\ is_set (TaskArtifacts.diff_path (Task.artifacts task'))
       /\ policy.enforce_file_policy
            (TaskArtifacts.changed_files (Task.artifacts task'))
            (Plan.constraints plan0) = inr tt.
Proof.
  intros H R.
  destruct (run_task_returns_inv _ _ _ _ _ H R) as (_ & Hg & _ & _).
  destruct Hg as (plan0 & running & build_result & HP & HP' & Henter & Hvalid
                  & _ & _ & _ & Hdiff & _ & Hpolicy).
  cbn [fst snd] in *.
  apply assert_transition_entry in Henter as [Htable Hentry].
  destruct Hentry as (Happroval & plan1 & HP1 & Hquestions).
  assert (plan1 = plan0) as -> by congruence.
  split.
  { intros G. rewrite (run_task_rejects self _ _ _ H G) in R. discriminate. }
  split.
  { destruct (Task.state t0); simpl in Htable; set_solver. }
  split; [exact Happroval|]. exists plan0.
  split; [exact HP|]. split; [exact HP'|]. split; [exact Hquestions|].
  split; [exact Hvalid|]. split; [exact Hdiff|exact Hpolicy].
Qed.

(** X8.  A run never rewrites the history of a task.  A call that the
    attempts guard rejects leaves the store as it was.  After any other
    call, whether it returns or raises, the event log of the stored task is
    the log it had before, then one [run.started] event that carries the
    number of the attempt, then the events of the run. *)
Theorem run_task_log_is_append_only
    (task_id : string) (w : World) (t0 : Task.t) :
  task_files w !! task_id = Some t0 ->
  let w' := (run_task self task_id w).1 in
  (attempts_exhausted t0 -> w' = w)
  /\ (~ attempts_exhausted t0 ->
      exists task', persisted w' t0 task' /\ started_then_more t0 task').
Proof.
  intros H. cbv zeta. split.
  - intros G. by rewrite (run_task_rejects self _ _ _ H G).
  - intros G. pose proof (run_task_outcome _ _ _ H G) as S.
    destruct (run_task self task_id w) as [w' [e|task']]; cbn [fst].
    + exact S.
    + destruct S as (Hp & _ & _ & Hlog). by exists task'.
Qed.

End RunTaskReturns.

(* ------------------------------------------------------------------ *)
(** ** The runs of tests/test_orchestrator.py, through the theorems *)

Section RunTaskOutcomeScenarios.

Import TaskState orchestrator scenario.

(** The task a call returned, or [fallback] when it raised. *)
Definition returned (run : World * (Exn + Task.t)) (fallback : Task.t)
  : Task.t :=
  match run.2 with
  | inr task => task
  | inl _ => fallback
  end.

Definition approved_task : Task.t := stored_task WAIT_APPROVAL true 0 3.

Definition run_of (test_exit_code : Z) : World * (Exn + Task.t) :=
  run_task (fake_orchestrator test_exit_code) "task_1" (world_of approved_task).

(** A plan with two test steps, run by a client whose tests fail: the
    second command is never run. *)
Definition failed_pytest : dict :=
  [ ("command", JStr "pytest -q"); ("exit_code", JInt 1);
    ("log_path", JStr "/tmp/test.log"); ("duration_ms", JInt 10) ].

Lemma run_test_steps_stops_at_first_failure_witness :
  exists ran,
    [failed_pytest] = map TestExecutionResult.to_dict ran
    /\ loop_outcome (fake_client 1) approved_task
         [ PlanStep.mk "s2" StepType.TEST "test" (Some "pytest -q")
             StepStatus.PENDING;
           PlanStep.mk "s3" StepType.TEST "lint" (Some "ruff check")
             StepStatus.PENDING ] 0 ran false
    /\ false = forallb exit_code_zero [failed_pytest].
Proof.
  apply (run_test_steps_stops_at_first_failure (fake_client 1) approved_task).
  vm_compute. reflexivity.
Defined.


(** The happy path: the run returned, so the plan was valid and the file
    the fake build changed is within the policy of the plan. *)
Lemma run_task_returns_only_through_every_gate_witness :
  plan.validate_plan fake_plan = []
  /\ policy.enforce_file_policy
       (TaskArtifacts.changed_files
          (Task.artifacts (returned (run_of 0) approved_task)))
       (Plan.constraints fake_plan) = inr tt.
Proof.
  destruct (run_task_returns_only_through_every_gate (fake_orchestrator 0)
              "task_1" (world_of approved_task) (run_of 0).1 approved_task
              (returned (run_of 0) approved_task))
    as (_ & _ & _ & plan0 & HP & _ & _ & Hvalid & _ & Hpolicy).
  - vm_compute. reflexivity.
  - vm_compute. reflexivity.
  - injection HP as <-. split; [exact Hvalid|exact Hpolicy].
Defined.

(** The run without approval raises, and the log of the stored task is the
    old log followed by [run.started] and the events of the failure. *)
Lemma run_task_log_is_append_only_witness :
  let t0 := stored_task WAIT_APPROVAL false 0 3 in
  let w' := (run_task (fake_orchestrator 0) "task_1" (world_of t0)).1 in
  exists task', persisted w' t0 task' /\ started_then_more t0 task'.
Proof.
  cbv zeta.
  destruct (run_task_log_is_append_only (fake_orchestrator 0) "task_1"
              (world_of (stored_task WAIT_APPROVAL false 0 3))
              (stored_task WAIT_APPROVAL false 0 3)) as [_ Hrun].
  - vm_compute. reflexivity.
  - apply Hrun. intros [Hs _]. discriminate Hs.
Defined.

End RunTaskOutcomeScenarios.

(* ------------------------------------------------------------------ *)
(** ** The order of strings, and [sorted] *)

Section StringOrder.

Lemma str_compare_refl (a : string) : String.compare a a = Eq.
Proof.
  induction a as [|x a IH]; [reflexivity|]. simpl. unfold Ascii.compare.
  by rewrite N.compare_refl.
Qed.

Lemma str_compare_trans (a b c : string) :
  String.compare a b <> Gt -> String.compare b c <> Gt ->
  String.compare a c <> Gt.
Proof.
  revert b c. induction a as [|x a IH]; intros [|y b] [|z c]; simpl;
    try congruence.
  unfold Ascii.compare.
  destruct (N.compare_spec (N_of_ascii x) (N_of_ascii y)),
    (N.compare_spec (N_of_ascii y) (N_of_ascii z)),
    (N.compare_spec (N_of_ascii x) (N_of_ascii z));
    intros; try congruence; try lia; eauto.
Qed.

Lemma str_lt_false (a b : string) :
  str_lt a b = false <-> String.compare b a <> Gt.
Proof.
  unfold str_lt, String.ltb. rewrite (String.compare_antisym a b).
  destruct (String.compare b a); simpl; split; congruence.
Qed.

Lemma str_lt_asym (a b : string) : str_lt a b = true -> str_lt b a = false.
Proof.
  unfold str_lt, String.ltb. rewrite (String.compare_antisym a b).
  by destruct (String.compare b a).
Qed.

Lemma str_lt_le_trans (a b c : string) :
  str_lt b a = false -> str_lt c b = false -> str_lt c a = false.
Proof. rewrite !str_lt_false. apply str_compare_trans. Qed.

(** Two different strings are in order one way or the other. *)
Lemma str_lt_total (a b : string) :
  a <> b -> str_lt b a = false -> str_lt a b = true.
Proof.
  unfold str_lt, String.ltb. rewrite (String.compare_antisym b a).
  destruct (String.compare a b) eqn:E; simpl; try done.
  intros H. by apply String.compare_eq_iff in E.
Qed.

Lemma append_inj_l (a b suffix : string) :
  String.length a = String.length b -> a +:+ suffix = b +:+ suffix -> a = b.
Proof.
  revert b. induction a as [|x a IH]; intros [|y b]; simpl; try done.
  intros [= Hl] [= -> H]. f_equal. by apply IH.
Qed.

Lemma length_append (a b : string) :
  String.length (a +:+ b) = (String.length a + String.length b)%nat.
Proof. induction a as [|x a IH]; simpl; [done|]. by rewrite IH. Qed.

Lemma file_name_inj (a b : string) :
  store.file_name a = store.file_name b -> a = b.
Proof.
  unfold store.file_name. intros H. apply (append_inj_l a b ".json"); [|done].
  apply (f_equal String.length) in H. rewrite !length_append in H. lia.
Qed.

(** With a common suffix, strings of one length compare as they do without
    it. *)
Lemma compare_same_length (a b suffix : string) :
  String.length a = String.length b ->
  String.compare (a +:+ suffix) (b +:+ suffix) = String.compare a b.
Proof.
  revert b. induction a as [|x a IH]; intros [|y b]; simpl; try done.
  - intros _. apply str_compare_refl.
  - intros [= Hl]. rewrite (IH b Hl). reflexivity.
Qed.

End StringOrder.

Section Sorted.

Context {A : Type} (lt : A -> A -> bool).

(** [x] is not above [y]. *)
Definition not_above (x y : A) : Prop := lt y x = false.

Hypothesis lt_asym : forall x y, lt x y = true -> lt y x = false.
Hypothesis le_trans :
  forall x y z, not_above x y -> not_above y z -> not_above x z.

(** Every element stands in [R] to the elements after it. *)
Fixpoint ascending (R : A -> A -> Prop) (l : list A) : Prop :=
  match l with
  | [] => True
  | x :: rest => Forall (R x) rest /\ ascending R rest
  end.

Lemma insert_sorted_perm (x : A) (l : list A) :
  insert_sorted lt x l ≡ₚ x :: l.
Proof.
  induction l as [|y l IH]; simpl; [done|].
  destruct (lt y x); [|done]. rewrite IH. apply Permutation_swap.
Qed.

Lemma sorted_perm (l : list A) : sorted lt l ≡ₚ l.
Proof.
  induction l as [|x l IH]; simpl; [done|].
  by rewrite insert_sorted_perm, IH.
Qed.

Lemma insert_sorted_ascending (x : A) (l : list A) :
  ascending not_above l -> ascending not_above (insert_sorted lt x l).
Proof.
  induction l as [|y l IH]; simpl; [done|]. intros [Hy Hl].
  destruct (lt y x) eqn:E; simpl.
  - split; [|by apply IH].
    rewrite (insert_sorted_perm x l). constructor; [|done].
    by apply lt_asym.
  - split; [|done]. constructor; [done|].
    eapply Forall_impl; [exact Hy|]. intros z Hz. by eapply le_trans.
Qed.

Lemma sorted_ascending (l : list A) : ascending not_above (sorted lt l).
Proof.
  induction l as [|x l IH]; simpl; [done|]. by apply insert_sorted_ascending.
Qed.

(** The head of a sorted list, element by element. *)
Lemma head_sorted_cons (x : A) (l : list A) :
  head (sorted lt (x :: l))
  = match head (sorted lt l) with
    | Some y => if lt y x then Some y else Some x
    | None => Some x
    end.
Proof.
  simpl. destruct (sorted lt l) as [|y s]; simpl; [done|].
  by destruct (lt y x).
Qed.

(** The first element of [sorted]: no element is below it, and it is the
    first such element of the list, every element before it being above. *)
Lemma head_sorted_spec (l : list A) (h : A) :
  head (sorted lt l) = Some h ->
  exists before after,
    l = (before ++ h :: after)%list
    /\ Forall (fun y => lt h y = true) before
    /\ Forall (not_above h) after.
Proof.
  revert h. induction l as [|x l IH]; intros h; [done|].
  rewrite head_sorted_cons.
  destruct (head (sorted lt l)) as [y|] eqn:E.
  - destruct (IH y eq_refl) as (before & after & -> & Hb & Ha).
    destruct (lt y x) eqn:L; intros [= <-].
    + exists (x :: before), after. split; [done|]. split; [|done].
      by constructor.
    + exists [], (before ++ y :: after)%list.
      split; [done|]. split; [done|].
      apply Forall_app. split; [|constructor].
      * eapply Forall_impl; [exact Hb|]. intros z Hz.
        apply (le_trans _ y); [exact L|]. by apply lt_asym.
      * exact L.
      * eapply Forall_impl; [exact Ha|]. intros z Hz.
        by apply (le_trans _ y).
  - intros [= <-]. exists [], l. split; [done|]. split; [done|].
    destruct l as [|z l']; [done|].
    pose proof (sorted_perm (z :: l')) as P.
    destruct (sorted lt (z :: l')); [|done].
    by apply Permutation_nil_cons in P.
Qed.

Lemma head_sorted_none (l : list A) : head (sorted lt l) = None -> l = [].
Proof.
  destruct l as [|x l]; [done|]. rewrite head_sorted_cons.
  by destruct (head (sorted lt l)) as [y|]; [destruct (lt y x)|].
Qed.

End Sorted.

(* ------------------------------------------------------------------ *)
(** ** store.py: [TaskStore.list] *)

Section StoreList.

Import store.

(** The files [list] reads, in the order it reads them, each with the task
    id of its name. *)
Definition listed (w : World) : list (string * Task.t) :=
  sorted path_lt
    (filter (fun kv => has_slash (fst kv) = false)
       (map_to_list (task_files w))).

Lemma path_lt_asym (a b : string * Task.t) :
  path_lt a b = true -> path_lt b a = false.
Proof. apply str_lt_asym. Qed.

Lemma path_le_trans (a b c : string * Task.t) :
  not_above path_lt a b -> not_above path_lt b c -> not_above path_lt a c.
Proof. unfold not_above, path_lt. apply str_lt_le_trans. Qed.

Lemma elem_of_listed (w : World) (id : string) (task : Task.t) :
  (id, task) ∈ listed w <->
  task_files w !! id = Some task /\ has_slash id = false.
Proof.
  unfold listed. rewrite sorted_perm, list_elem_of_filter, elem_of_map_to_list.
  simpl. tauto.
Qed.

Lemma NoDup_fst_filter {V} (P : string * V -> Prop)
    `{!forall x, Decision (P x)} (l : list (string * V)) :
  NoDup (map fst l) -> NoDup (map fst (filter P l)).
Proof.
  induction l as [|x l IH]; simpl; [done|].
  rewrite NoDup_cons. intros [Hx Hl]. rewrite filter_cons.
  destruct (decide (P x)); [|by apply IH].
  simpl. apply NoDup_cons. split; [|by apply IH].
  intros Hin. apply Hx.
  apply list_elem_of_In, in_map_iff in Hin as (y & Hy & Hin).
  apply list_elem_of_In, in_map_iff. exists y. split; [done|].
  apply list_elem_of_In. apply list_elem_of_In in Hin.
  by apply list_elem_of_filter in Hin as [_ ?].
Qed.

Lemma NoDup_listed (w : World) : NoDup (map fst (listed w)).
Proof.
  unfold listed.
  assert (P : map fst (sorted path_lt
                (filter (fun kv => has_slash (fst kv) = false)
                   (map_to_list (task_files w))))
              ≡ₚ map fst (filter (fun kv => has_slash (fst kv) = false)
                            (map_to_list (task_files w))))
    by (apply Permutation_map, sorted_perm).
  rewrite P. apply NoDup_fst_filter.
  exact (NoDup_fst_map_to_list (task_files w)).
Qed.

(** Among entries with different names, "not above" is "below". *)
Lemma ascending_strict (entries : list (string * Task.t)) :
  NoDup (map fst entries) ->
  ascending (not_above path_lt) entries ->
  ascending (fun a b => path_lt a b = true) entries.
Proof.
  induction entries as [|x rest IH]; simpl; [done|].
  rewrite NoDup_cons. intros [Hx Hn] [Hall Hrest].
  split; [|by apply IH].
  rewrite Forall_forall in Hall. apply Forall_forall. intros y Hy.
  apply str_lt_total; [|by apply Hall].
  intros E. apply file_name_inj in E. apply Hx. rewrite E.
  apply list_elem_of_In, in_map. by apply list_elem_of_In.
Qed.

Lemma ascending_impl {A} (R R' : A -> A -> Prop) (l : list A) :
  (forall x y, R x y -> R' x y) -> ascending R l -> ascending R' l.
Proof.
  intros H. induction l as [|x rest IH]; simpl; [done|]. intros [Hx Hr].
  split; [|by apply IH]. eapply Forall_impl; [exact Hx|]. apply H.
Qed.

(** X9.  [TaskStore.list] returns the task of every file that lies in the
    store directory itself, once each, in the ascending order of the file
    names [<task_id>.json].  For task ids of one length, as
    [_generate_task_id] makes them, that is the ascending order of the
    ids. *)
Theorem store_list_is_sorted_by_file_name (w : World) :
  exists entries : list (string * Task.t),
    list_ w = map snd entries
    /\ (forall id task,
          (id, task) ∈ entries <->
          task_files w !! id = Some task /\ has_slash id = false)
    /\ NoDup (map fst entries)
    /\ ascending
         (fun a b => str_lt (file_name (fst a)) (file_name (fst b)) = true)
         entries
    /\ ascending
         (fun a b =>
            String.length (fst a) = String.length (fst b) ->
            str_lt (fst a) (fst b) = true)
         entries.
Proof.
  exists (listed w). split; [reflexivity|].
  split; [apply elem_of_listed|]. split; [apply NoDup_listed|].
  assert (S : ascending (fun a b => path_lt a b = true) (listed w)).
  { apply ascending_strict; [apply NoDup_listed|].
    apply sorted_ascending; [apply path_lt_asym|apply path_le_trans]. }
  split; [exact S|].
  eapply ascending_impl; [|exact S]. intros a b H Hlen.
  unfold path_lt, str_lt, String.ltb, file_name in H.
  rewrite (compare_same_length _ _ _ Hlen) in H. exact H.
Qed.

End StoreList.

(* ------------------------------------------------------------------ *)
(** ** orchestrator.py: the task a chat message is about *)

Section FindLatest.

Import TaskState store lifecycle.

(** The task waits for the approval of [user_id] in [chat_id]. *)
Definition waiting_for (chat_id user_id : string) (task : Task.t) : Prop :=
  Task.state task = WAIT_APPROVAL
  /\ TaskSource.chat_id (Task.source task) = chat_id
  /\ TaskSource.user_id (Task.source task) = user_id.

Lemma waits_for_spec (chat_id user_id : string) (task : Task.t) :
  waits_for chat_id user_id task = true <-> waiting_for chat_id user_id task.
Proof.
  unfold waits_for, waiting_for.
  rewrite !andb_true_iff, bool_decide_eq_true, !String.eqb_eq. tauto.
Qed.

Lemma filter_split {A} (P : A -> bool) (l before after : list A) (h : A) :
  List.filter P l = (before ++ h :: after)%list ->
  exists l1 l2,
    l = (l1 ++ h :: l2)%list
    /\ List.filter P l1 = before /\ List.filter P l2 = after.
Proof.
  revert before. induction l as [|x l IH]; intros before H; simpl in H.
  - by destruct before.
  - destruct (P x) eqn:E.
    + destruct before as [|b before]; simpl in H; injection H as -> H.
      * exists [], l. by split.
      * destruct (IH _ H) as (l1 & l2 & -> & H1 & H2).
        exists (b :: l1), l2. split; [done|]. simpl. by rewrite E, H1.
    + destruct (IH _ H) as (l1 & l2 & -> & H1 & H2).
      exists (x :: l1), l2. split; [done|]. simpl. by rewrite E.
Qed.

(** X10.  The task a message of [user_id] in [chat_id] is matched with is a
    listed task that waits for the approval of that user in that chat, and
    no other such task has a later [updated_at]; among several with that
    latest [updated_at] it is the first in the order of [TaskStore.list].
    No task is matched exactly when no listed task waits for that user in
    that chat. *)
Theorem find_latest_waiting_approval_task_is_latest
    (chat_id user_id : string) (w : World) :
  match _find_latest_waiting_approval_task chat_id user_id w with
  | Some task =>
      waiting_for chat_id user_id task
      /\ exists before after,
           list_ w = (before ++ task :: after)%list
           /\ (forall other, other ∈ before ->
                 waiting_for chat_id user_id other ->
                 str_lt (Task.updated_at other) (Task.updated_at task) = true)
           /\ (forall other, other ∈ after ->
                 waiting_for chat_id user_id other ->
                 str_lt (Task.updated_at task) (Task.updated_at other)
                 = false)
  | None =>
      forall other, other ∈ list_ w -> ~ waiting_for chat_id user_id other
  end.
Proof.
  unfold _find_latest_waiting_approval_task.
  set (lt := fun a b : Task.t =>
               str_lt (Task.updated_at b) (Task.updated_at a)).
  assert (Hasym : forall x y, lt x y = true -> lt y x = false)
    by (intros x y; apply str_lt_asym).
  assert (Htrans : forall x y z,
            not_above lt x y -> not_above lt y z -> not_above lt x z).
  { intros x y z H1 H2. unfold not_above, lt in *.
    exact (str_lt_le_trans _ _ _ H2 H1). }
  destruct (List.filter (waits_for chat_id user_id) (list_ w))
    as [|c candidates] eqn:F.
  - intros other Hin Hw. apply waits_for_spec in Hw.
    assert (Hf : In other (List.filter (waits_for chat_id user_id) (list_ w)))
      by (apply filter_In; split; [by apply list_elem_of_In|done]).
    by rewrite F in Hf.
  - destruct (head (sorted lt (c :: candidates))) as [task|] eqn:H.
    2:{ by apply head_sorted_none in H. }
    destruct (head_sorted_spec lt Hasym Htrans _ _ H)
      as (cb & ca & Hc & Hb & Ha).
    rewrite Hc in F.
    destruct (filter_split _ _ _ _ _ F) as (l1 & l2 & Hl & H1 & H2).
    assert (Hw : waits_for chat_id user_id task = true).
    { assert (Hin : In task
                      (List.filter (waits_for chat_id user_id) (list_ w)))
        by (rewrite F; apply in_elt).
      by apply filter_In in Hin as [_ ?]. }
    split; [by apply waits_for_spec|].
    exists l1, l2. split; [exact Hl|]. split.
    + intros other Hin Hwo. apply waits_for_spec in Hwo.
      rewrite Forall_forall in Hb. apply (Hb other). rewrite <- H1.
      apply list_elem_of_In, filter_In. split; [by apply list_elem_of_In|done].
    + intros other Hin Hwo. apply waits_for_spec in Hwo.
      rewrite Forall_forall in Ha. apply (Ha other). rewrite <- H2.
      apply list_elem_of_In, filter_In. split; [by apply list_elem_of_In|done].
Qed.

End FindLatest.

(* ------------------------------------------------------------------ *)
(** ** orchestrator.py: clarifying a task *)

Section ClarifyTask.

Import TaskState lifecycle.

Variable clarify : Task.t -> Exn + ClarifyResult.t.

(** The task object [clarify] is called with: the stored task, moved to
    [CLARIFYING]. *)
Definition clarifying (t0 : Task.t) (w0 : World) : Task.t :=
  task_after t0 w0 CLARIFYING "state.change" "Entering CLARIFYING" None.

Lemma enter_clarifying (task : Task.t) :
  state_machine.assert_transition task CLARIFYING = inr tt <->
  Task.state task = NEW.
Proof.
  rewrite assert_transition_entry. simpl.
  destruct (Task.state task); simpl; split; try done; try set_solver.
Qed.

Lemma enter_wait_approval (task : Task.t) :
  Task.state task = CLARIFYING ->
  state_machine.assert_transition task WAIT_APPROVAL = inr tt.
Proof.
  intros H. apply assert_transition_entry. rewrite H. simpl.
  split; [set_solver|done].
Qed.

(** What [clarify_task] leaves alone in the task. *)
Definition same_identity (t0 task : Task.t) : Prop :=
  Task.task_id task = Task.task_id t0
  /\ Task.title task = Task.title t0
  /\ Task.description task = Task.description t0
  /\ Task.source task = Task.source t0
  /\ Task.repo task = Task.repo t0
  /\ Task.approval task = Task.approval t0
  /\ Task.execution task = Task.execution t0
  /\ Task.created_at task = Task.created_at t0.

Definition clarified (t0 : Task.t) (w0 : World) (s : State) : Prop :=
  Task.state t0 = NEW
  /\ exists result,
       clarify (clarifying t0 w0) = inr result
       /\ Task.state s.1 = WAIT_APPROVAL
       /\ Task.plan s.1 = Some (ClarifyResult.plan result)
       /\ TaskArtifacts.clarify_summary (Task.artifacts s.1)
          = Some (ClarifyResult.summary result)
       /\ map TaskEvent.event_type (Task.event_log s.1)
          = (map TaskEvent.event_type (Task.event_log t0)
             ++ ["state.change"; "clarify.completed"; "state.change"])%list
       /\ same_identity t0 s.1
       /\ task_files s.2 = <[ Task.task_id t0 := s.1 ]> (task_files w0).

Definition not_clarified (t0 : Task.t) (w0 : World) (e : Exn) (s : State)
  : Prop :=
  task_files s.2 = task_files w0
  /\ report_files s.2 = report_files w0
  /\ ((Task.state t0 <> NEW /\ exn_class e = InvalidTransitionError)
      \/ (Task.state t0 = NEW /\ clarify (clarifying t0 w0) = inl e)).

Lemma clarify_loaded_task_spec (t0 : Task.t) (w0 : World) :
  wp (clarify_loaded_task clarify) (fun _ => clarified t0 w0)
    (not_clarified t0 w0) (t0, w0).
Proof.
  unfold clarify_loaded_task.
  apply wp_bind, wp_transition. cbn [fst snd].
  destruct (state_machine.assert_transition t0 CLARIFYING) as [e|[]] eqn:HC.
  { split; [done|]. split; [done|]. left. split.
    - intros H. apply enter_clarifying in H. congruence.
    - by apply assert_transition_class in HC. }
  apply enter_clarifying in HC.
  apply wp_bind, wp_get_task. cbn [fst snd]. fold (clarifying t0 w0).
  apply wp_bind, wp_lift.
  destruct (clarify (clarifying t0 w0)) as [e|result] eqn:HR.
  { split; [done|]. split; [done|]. by right. }
  apply wp_bind, wp_modify_task. cbn [fst snd].
  apply wp_bind, wp_modify_task. cbn [fst snd].
  apply wp_bind. unfold orchestrator.get_plan.
  apply wp_bind, wp_get_task. cbn [fst snd]. apply wp_ret.
  apply wp_bind, wp_record_event. cbn [fst snd].
  apply wp_bind, wp_transition. cbn [fst snd].
  rewrite enter_wait_approval by reflexivity.
  apply wp_save. cbn [fst snd].
  split; [exact HC|]. exists result. split; [exact HR|].
  split; [reflexivity|]. split; [reflexivity|]. split; [reflexivity|].
  split.
  - unfold clarifying, task_after, with_event. simpl.
    rewrite !map_app, <- !app_assoc. reflexivity.
  - split; [by repeat split|reflexivity].
Qed.

Lemma clarify_task_spec (task_id : string) (w : World) (t0 : Task.t) :
  task_files w !! task_id = Some t0 ->
  match clarify_task clarify task_id w with
  | (w', inr task') => clarified t0 w (task', w')
  | (w', inl e) => exists task', not_clarified t0 w e (task', w')
  end.
Proof.
  intros H. unfold clarify_task, on_stored_task, store.get. rewrite H.
  pose proof (clarify_loaded_task_spec t0 w) as S. unfold wp in S.
  destruct (clarify_loaded_task clarify (t0, w)) as [[task' w'] [e|[]]];
    eauto.
Qed.

(** X11.  When [clarify_task] returns, the stored task was [NEW]; the task
    returned is the task now stored, it waits for approval, and it carries
    the plan and the summary the client's [clarify] returned for it.  Three
    events were appended to its log: the state change to [CLARIFYING],
    [clarify.completed], the state change to [WAIT_APPROVAL].  Its identity,
    approval and attempt counters are as they were. *)
Theorem clarify_task_returns_waiting_for_approval
    (task_id : string) (w w' : World) (t0 task' : Task.t) :
  task_files w !! task_id = Some t0 ->
  clarify_task clarify task_id w = (w', inr task') ->
  Task.state t0 = NEW
  /\ task_files w' !! Task.task_id t0 = Some task'
  /\ Task.state task' = WAIT_APPROVAL
  /\ (exists result,
        clarify (clarifying t0 w) = inr result
        /\ Task.plan task' = Some (ClarifyResult.plan result)
        /\ TaskArtifacts.clarify_summary (Task.artifacts task')
           = Some (ClarifyResult.summary result))
  /\ map TaskEvent.event_type (Task.event_log task')
     = (map TaskEvent.event_type (Task.event_log t0)
        ++ ["state.change"; "clarify.completed"; "state.change"])%list
  /\ same_identity t0 task'.
Proof.
  intros H R. pose proof (clarify_task_spec _ _ _ H) as S. rewrite R in S.
  destruct S as (Hnew & result & Hres & Hstate & Hplan & Hsum & Hlog & Hsame
                 & Hfiles).
  cbn [fst snd] in *. split; [exact Hnew|]. split.
  { rewrite Hfiles. apply lookup_insert_eq. }
  split; [exact Hstate|]. split; [by exists result|]. by split.
Qed.

(** X12.  [clarify_task] persists nothing unless it runs to its end.  When
    it raises for a stored task, either the task was not [NEW] and the error
    is an [InvalidTransitionError], or the task was [NEW] and the error is
    the one the client's [clarify] raised; in both cases every task file and
    report file is what it was, so the stored task is still in the state it
    had. *)
Theorem clarify_task_error_persists_nothing
    (task_id : string) (w w' : World) (t0 : Task.t) (e : Exn) :
  task_files w !! task_id = Some t0 ->
  clarify_task clarify task_id w = (w', inl e) ->
  task_files w' = task_files w
  /\ report_files w' = report_files w
  /\ ((Task.state t0 <> NEW /\ exn_class e = InvalidTransitionError)
      \/ (Task.state t0 = NEW /\ clarify (clarifying t0 w) = inl e)).
Proof.
  intros H R. pose proof (clarify_task_spec _ _ _ H) as S. rewrite R in S.
  destruct S as (task' & S). exact S.
Qed.

End ClarifyTask.

(* ------------------------------------------------------------------ *)
(** ** orchestrator.py: approving a task *)

Section ApproveTask.

Import TaskState lifecycle intent.

Lemma approve_loaded_task_spec (approved_by : string) (t0 : Task.t)
    (w0 : World) :
  approve_loaded_task approved_by (t0, w0)
  = ((with_event (tick 1 w0) "approval.granted" "Task approved"
        [("approved_by", JStr approved_by)]
        (set_approved_at (Some (clock_readings w0 (clock_reads w0)))
           (set_approved_by (Some approved_by) t0)),
      mkWorld (clock_readings w0) (3 + clock_reads w0)
        (<[ Task.task_id t0 :=
              with_event (tick 1 w0) "approval.granted" "Task approved"
                [("approved_by", JStr approved_by)]
                (set_approved_at (Some (clock_readings w0 (clock_reads w0)))
                   (set_approved_by (Some approved_by) t0)) ]>
           (task_files w0))
        (report_files w0)),
     inr tt).
Proof. reflexivity. Qed.

(** X13.  [approve_task] asks nothing of the task: in whatever state the
    stored task is, the call returns, the state and the plan are as they
    were, the approval names the approver and the time of the call, one
    [approval.granted] event is appended, and the task is stored.  The task
    then counts as approved exactly when no approval was required or
    neither the approver nor the reading of the clock is the empty
    string. *)
Theorem approve_task_records_approval_in_any_state
    (task_id approved_by : string) (w : World) (t0 : Task.t) :
  task_files w !! task_id = Some t0 ->
  exists w' task',
    approve_task task_id approved_by w = (w', inr task')
    /\ task_files w' !! Task.task_id t0 = Some task'
    /\ Task.state task' = Task.state t0
    /\ Task.plan task' = Task.plan t0
    /\ Task.approval task'
       = Approval.mk (Approval.required (Task.approval t0))
           (Some approved_by) (Some (clock_readings w (clock_reads w)))
    /\ (exists ev,
          Task.event_log task' = (Task.event_log t0 ++ [ev])%list
          /\ TaskEvent.event_type ev = "approval.granted"
          /\ TaskEvent.payload ev = [("approved_by", JStr approved_by)])
    /\ (Approval.is_approved (Task.approval task') = true <->
        Approval.required (Task.approval t0) = false
        \/ (approved_by <> "" /\ clock_readings w (clock_reads w) <> "")).
Proof.
  intros H. unfold approve_task, on_stored_task, store.get. rewrite H.
  rewrite approve_loaded_task_spec. eexists _, _. split; [reflexivity|].
  split; [apply lookup_insert_eq|]. split; [reflexivity|].
  split; [reflexivity|]. split; [reflexivity|].
  split; [eexists; repeat split; reflexivity|].
  unfold Approval.is_approved. simpl.
  destruct (Approval.required (Task.approval t0)); simpl.
  - rewrite andb_true_iff, !negb_true_iff, !String.eqb_neq.
    split; [by right|]. by intros [|].
  - split; [by left|done].
Qed.

End ApproveTask.

(* ------------------------------------------------------------------ *)
(** ** orchestrator.py: a chat message about a task *)

Section ApprovalMessage.

Import TaskState lifecycle intent.

Variable intent_classifier : IntentClassifier.
Variable json_of_float : Q -> json.

(** What a message with the classified intent does to the stored task
    [t0]: to its state, its approval and the types of its events. *)
Definition message_effect (t0 : Task.t) (w0 : World) (user_id : string)
    (i : ApprovalIntent.t) (task' : Task.t) : Prop :=
  let types := map TaskEvent.event_type in
  let detected := "approval.intent.detected" in
  if decide (Task.state t0 = WAIT_APPROVAL) then
    match i with
    | ApprovalIntent.APPROVE =>
        Task.state task' = WAIT_APPROVAL
        /\ Task.approval task'
           = Approval.mk (Approval.required (Task.approval t0))
               (Some user_id)
               (Some (clock_readings w0 (2 + clock_reads w0)))
        /\ types (Task.event_log task')
           = (types (Task.event_log t0)
              ++ [detected; "approval.granted"])%list
    | ApprovalIntent.REJECT =>
        Task.state task' = CANCELLED
        /\ Task.approval task' = Task.approval t0
        /\ types (Task.event_log task')
           = (types (Task.event_log t0) ++ [detected; "state.change"])%list
    | _ =>
        Task.state task' = WAIT_APPROVAL
        /\ Task.approval task' = Task.approval t0
        /\ types (Task.event_log task')
           = (types (Task.event_log t0)
              ++ [detected; "approval.pending"])%list
    end
  else
    Task.state task' = Task.state t0
    /\ Task.approval task' = Task.approval t0
    /\ types (Task.event_log task')
       = (types (Task.event_log t0)
          ++ [detected; "approval.intent.ignored"])%list.

Definition message_handled (t0 : Task.t) (w0 : World) (user_id : string)
    (i : ApprovalIntent.t) (s : State) : Prop :=
  task_files s.2 = <[ Task.task_id t0 := s.1 ]> (task_files w0)
  /\ Task.task_id s.1 = Task.task_id t0
  /\ Task.plan s.1 = Task.plan t0
  /\ Task.execution s.1 = Task.execution t0
  /\ message_effect t0 w0 user_id i s.1.

Lemma enter_cancelled (task : Task.t) :
  Task.state task = WAIT_APPROVAL ->
  state_machine.assert_transition task CANCELLED = inr tt.
Proof.
  intros H. apply assert_transition_entry. rewrite H. simpl.
  split; [set_solver|done].
Qed.

Lemma log_types_snoc2 (l : list TaskEvent.t) (a b : TaskEvent.t) :
  map TaskEvent.event_type ((l ++ [a]) ++ [b])
  = (map TaskEvent.event_type l
     ++ [TaskEvent.event_type a; TaskEvent.event_type b])%list.
Proof. rewrite !map_app, <- app_assoc. reflexivity. Qed.

Lemma handle_loaded_approval_message_spec (user_id text : string)
    (t0 : Task.t) (w0 : World) (r : IntentResult.t) :
  intent_classifier text (Some t0) = inr r ->
  wp (handle_loaded_approval_message intent_classifier json_of_float user_id
        text)
    (fun _ => message_handled t0 w0 user_id (IntentResult.intent r))
    (fun _ _ => False) (t0, w0).
Proof.
  intros HR. unfold handle_loaded_approval_message.
  apply wp_bind, wp_get_task. cbn [fst snd].
  apply wp_bind, wp_lift. rewrite HR.
  apply wp_bind, wp_record_event. cbn [fst snd].
  apply wp_bind, wp_get_task. cbn [fst snd].
  unfold message_handled, message_effect. cbv zeta.
  change (Task.state (with_event w0 "approval.intent.detected"
                        "Approval intent classified" _ t0))
    with (Task.state t0).
  destruct (decide (Task.state t0 = WAIT_APPROVAL)) as [Hs|Hs].
  - rewrite bool_decide_eq_true_2 by exact Hs. cbn [negb].
    destruct (IntentResult.intent r).
    + apply wp_bind. apply wp_bind, wp_modify_task. cbn [fst snd].
      apply wp_bind, wp_utc_now_iso. cbn [fst snd].
      apply wp_bind, wp_modify_task. cbn [fst snd].
      apply wp_record_event. cbn [fst snd]. apply wp_save. cbn [fst snd].
      split; [reflexivity|]. split; [reflexivity|]. split; [reflexivity|].
      split; [reflexivity|]. split; [exact Hs|]. split; [reflexivity|].
      unfold with_event. simpl. apply log_types_snoc2.
    + apply wp_bind, wp_transition. cbn [fst snd].
      rewrite enter_cancelled by exact Hs.
      apply wp_save. cbn [fst snd].
      split; [reflexivity|]. split; [reflexivity|]. split; [reflexivity|].
      split; [reflexivity|]. split; [reflexivity|]. split; [reflexivity|].
      unfold task_after, with_event. simpl. apply log_types_snoc2.
    + apply wp_bind, wp_record_event. cbn [fst snd].
      apply wp_save. cbn [fst snd].
      split; [reflexivity|]. split; [reflexivity|]. split; [reflexivity|].
      split; [reflexivity|]. split; [exact Hs|]. split; [reflexivity|].
      unfold with_event. simpl. apply log_types_snoc2.
    + apply wp_bind, wp_record_event. cbn [fst snd].
      apply wp_save. cbn [fst snd].
      split; [reflexivity|]. split; [reflexivity|]. split; [reflexivity|].
      split; [reflexivity|]. split; [exact Hs|]. split; [reflexivity|].
      unfold with_event. simpl. apply log_types_snoc2.
  - rewrite bool_decide_eq_false_2 by exact Hs. cbn [negb].
    apply wp_bind, wp_record_event. cbn [fst snd].
    apply wp_save. cbn [fst snd].
    split; [reflexivity|]. split; [reflexivity|]. split; [reflexivity|].
    split; [reflexivity|]. split; [reflexivity|]. split; [reflexivity|].
    unfold with_event. simpl. apply log_types_snoc2.
Qed.

(** X14.  What a chat message does to the stored task it is about.  When
    the classifier raises, the call raises the same error and nothing is
    changed.  When it returns an intent, the call returns and the task is
    stored, with two more events, its plan and attempt counters untouched;
    for a task that does not wait for approval the intent is ignored, state
    and approval staying as they were; for one that does, [reject] cancels
    it, [approve] records the sender and the time as its approval while the
    state stays [WAIT_APPROVAL] (the run is not started), and any other
    intent changes neither state nor approval. *)
Theorem handle_approval_message_acts_by_intent
    (task_id user_id text : string) (w : World) (t0 : Task.t) :
  task_files w !! task_id = Some t0 ->
  match intent_classifier text (Some t0) with
  | inl e =>
      handle_approval_message intent_classifier json_of_float task_id
        user_id text w = (w, inl e)
  | inr r =>
      exists w' task',
        handle_approval_message intent_classifier json_of_float task_id
          user_id text w = (w', inr task')
        /\ task_files w' !! Task.task_id t0 = Some task'
        /\ Task.task_id task' = Task.task_id t0
        /\ Task.plan task' = Task.plan t0
        /\ Task.execution task' = Task.execution t0
        /\ message_effect t0 w user_id (IntentResult.intent r) task'
  end.
Proof.
  intros H. unfold handle_approval_message, on_stored_task, store.get.
  rewrite H.
  destruct (intent_classifier text (Some t0)) as [e|r] eqn:HR.
  - unfold handle_loaded_approval_message, bind, get_task, lift. simpl.
    by rewrite HR.
  - pose proof (handle_loaded_approval_message_spec user_id text t0 w r HR)
      as S.
    unfold wp in S.
    destruct (handle_loaded_approval_message _ _ _ _ (t0, w))
      as [[task' w'] [e|[]]]; [done|].
    destruct S as (Hf & Hid & Hp & He & Heff). cbn [fst snd] in *.
    exists w', task'. split; [reflexivity|]. split; [|done].
    rewrite Hf. apply lookup_insert_eq.
Qed.

End ApprovalMessage.

(* ------------------------------------------------------------------ *)
(** ** orchestrator.py: the conditions under which a run completes *)

Section RunTaskCompletes.

Import TaskState orchestrator.

Variable self : Orchestrator.

Lemma enter_running (task : Task.t) (p : Plan.t) :
  Task.state task = WAIT_APPROVAL \/ Task.state task = FAILED ->
  approval_satisfied (Task.approval task) ->
  Task.plan task = Some p ->
  no_open_required_question p ->
  state_machine.assert_transition task RUNNING = inr tt.
Proof.
  intros Hs Ha Hp Hq. apply assert_transition_entry. split.
  - destruct Hs as [-> | ->]; simpl; set_solver.
  - simpl. split; [exact Ha|]. by exists p.
Qed.

Lemma enter_testing (task : Task.t) :
  Task.state task = RUNNING ->
  is_set (TaskArtifacts.diff_path (Task.artifacts task)) ->
  state_machine.assert_transition task TESTING = inr tt.
Proof.
  intros Hs Hd. apply assert_transition_entry. rewrite Hs. simpl.
  split; [set_solver|exact Hd].
Qed.

Lemma enter_done (task : Task.t) :
  Task.state task = TESTING ->
  is_set (TaskArtifacts.test_report_path (Task.artifacts task)) ->
  state_machine.assert_transition task DONE = inr tt.
Proof.
  intros Hs Hd. apply assert_transition_entry. rewrite Hs. simpl.
  split; [set_solver|exact Hd].
Qed.

Lemma report_path_is_set (task_id : string) :
  is_set (Some (report_path_of self task_id)).
Proof.
  unfold is_set, report_path_of. simpl. apply negb_true_iff, String.eqb_neq.
  destruct (report_dir self); discriminate.
Qed.

(** Every test command passes. *)
Definition tests_pass : Prop :=
  forall n task command,
    exists r, run_test (opencode_client self) n task command = inr r
              /\ TestExecutionResult.exit_code r = 0.

Lemma run_test_steps_all_pass (task : Task.t) (steps : list PlanStep.t)
    (n : nat) (acc : list dict) :
  tests_pass ->
  exists results,
    run_test_steps (opencode_client self) task steps n acc
    = inr (results, true).
Proof.
  intros H. revert n acc. induction steps as [|step rest IH]; intros n acc.
  - by exists acc.
  - simpl. destruct (H n task (command_of step)) as (r & Hr & Hz).
    unfold command_of in Hr. rewrite Hr, Hz. simpl. apply IH.
Qed.

Lemma run_task_body_completes (t0 : Task.t) (w0 : World) (p : Plan.t)
    (build_result : BuildExecutionResult.t) :
  Task.state t0 = WAIT_APPROVAL \/ Task.state t0 = FAILED ->
  approval_satisfied (Task.approval t0) ->
  Task.plan t0 = Some p ->
  no_open_required_question p ->
  plan.validate_plan p = [] ->
  (forall task, build (opencode_client self) task = inr build_result) ->
  BuildExecutionResult.diff_path build_result <> "" ->
  policy.enforce_file_policy
    (BuildExecutionResult.changed_files build_result) (Plan.constraints p)
  = inr tt ->
  tests_pass ->
  wp (run_task_body self) (fun _ s => Task.state s.1 = DONE)
    (fun _ _ => False) (t0, w0).
Proof.
  intros Hs Ha HP Hq Hv Hb Hd He Ht. unfold run_task_body.
  apply wp_bind, wp_transition. cbn [fst snd].
  rewrite (enter_running t0 p Hs Ha HP Hq).
  apply wp_bind, wp_get_task. cbn [fst snd].
  change (Task.plan (task_after t0 w0 RUNNING "state.change"
                       "Entering RUNNING" None)) with (Task.plan t0).
  rewrite HP. apply wp_bind, wp_lift.
  unfold plan.assert_plan_valid. rewrite Hv.
  apply wp_bind, wp_get_task. cbn [fst snd].
  apply wp_bind, wp_lift. rewrite Hb.
  apply wp_bind, wp_modify_task. cbn [fst snd].
  apply wp_bind, wp_modify_task. cbn [fst snd].
  apply wp_bind, wp_get_task. cbn [fst snd].
  apply wp_bind. unfold get_plan at 1. apply wp_bind, wp_get_task.
  cbn [fst snd].
  match goal with
  | |- context [match Task.plan ?t with _ => _ end] =>
      change (Task.plan t) with (Task.plan t0); rewrite HP
  end.
  apply wp_ret. apply wp_bind, wp_lift.
  match goal with
  | |- context [policy.enforce_file_policy ?files _] =>
      change files with (BuildExecutionResult.changed_files build_result)
  end.
  rewrite He.
  apply wp_bind, wp_get_task. cbn [fst snd].
  apply wp_bind, wp_record_event. cbn [fst snd].
  apply wp_bind, wp_transition. cbn [fst snd].
  rewrite enter_testing;
    [|reflexivity
     |unfold is_set; simpl; by apply negb_true_iff, String.eqb_neq].
  apply wp_bind. unfold get_plan at 1. apply wp_bind, wp_get_task.
  cbn [fst snd].
  match goal with
  | |- context [match Task.plan ?t with _ => _ end] =>
      change (Task.plan t) with (Task.plan t0); rewrite HP
  end.
  apply wp_ret. apply wp_bind, wp_get_task. cbn [fst snd].
  apply wp_bind, wp_lift.
  match goal with
  | |- context [run_test_steps ?c ?t ?steps ?n ?acc] =>
      destruct (run_test_steps_all_pass t steps n acc Ht) as [results ->]
  end.
  apply wp_bind. unfold _write_test_report.
  apply wp_bind, wp_utc_now_iso. cbn [fst snd].
  apply wp_bind, wp_modify_world. cbn [fst snd]. apply wp_ret.
  apply wp_bind, wp_modify_task. cbn [fst snd].
  apply wp_bind, wp_modify_task. cbn [fst snd].
  apply wp_bind, wp_modify_task. cbn [fst snd].
  apply wp_transition. cbn [fst snd].
  rewrite enter_done; [reflexivity|reflexivity|].
  exact (report_path_is_set _).
Qed.

(** X15.  The conditions under which a run completes.  Let the stored task
    wait for approval, or be [FAILED] with attempts left; let its approval
    be satisfied and its plan have no required question open and pass the
    validator; let the client's build succeed with a non-empty diff path
    and changed files that the policy of the plan accepts; let every test
    command exit 0.  Then [run_task] returns, and the task it returns,
    which is the task stored, is [DONE]. *)
Theorem run_task_completes_when_every_gate_is_open
    (task_id : string) (w : World) (t0 : Task.t) (p : Plan.t)
    (build_result : BuildExecutionResult.t) :
  task_files w !! task_id = Some t0 ->
  Task.state t0 = WAIT_APPROVAL
  \/ (Task.state t0 = FAILED
      /\ (ExecutionInfo.attempt (Task.execution t0)
          < ExecutionInfo.max_attempts (Task.execution t0))%Z) ->
  approval_satisfied (Task.approval t0) ->
  Task.plan t0 = Some p ->
  no_open_required_question p ->
  plan.validate_plan p = [] ->
  (forall task, build (opencode_client self) task = inr build_result) ->
  BuildExecutionResult.diff_path build_result <> "" ->
  policy.enforce_file_policy
    (BuildExecutionResult.changed_files build_result) (Plan.constraints p)
  = inr tt ->
  tests_pass ->
  exists w' task',
    run_task self task_id w = (w', inr task')
    /\ Task.state task' = DONE
    /\ task_files w' !! Task.task_id t0 = Some task'.
Proof.
  intros H Hs Ha HP Hq Hv Hb Hd He Ht.
  assert (G : ~ attempts_exhausted t0).
  { intros [G1 G2]. destruct Hs as [Hs|[_ Hs]]; [congruence|lia]. }
  assert (Hs' : Task.state t0 = WAIT_APPROVAL \/ Task.state t0 = FAILED)
    by tauto.
  pose proof (run_task_runs self _ _ _ H G) as R.
  assert (D : wp (run_loaded_task self) (fun _ s => Task.state s.1 = DONE)
                (fun _ _ => False) (t0, w)).
  { unfold run_loaded_task. apply wp_bind, wp_get_task. cbn [fst snd].
    destruct (bool_decide (Task.state t0 = FAILED)
              && (ExecutionInfo.max_attempts (Task.execution t0)
                  <=? ExecutionInfo.attempt (Task.execution t0))%Z) eqn:E.
    { exfalso. apply G. apply andb_true_iff in E as [E1 E2].
      split; [by apply bool_decide_eq_true_1 in E1|by apply Z.leb_le]. }
    apply wp_bind, wp_modify_task. cbn [fst snd].
    apply wp_bind, wp_get_task. cbn [fst snd].
    apply wp_bind, wp_record_event. cbn [fst snd].
    apply wp_bind, wp_try.
    eapply wp_conseq;
      [eapply (run_task_body_completes _ _ p build_result);
       first [exact Hs'|exact Ha|exact HP|exact Hq|eassumption]
      | |done].
    intros [] s' Hdone. apply wp_save. exact Hdone. }
  unfold run_task, store.get in *. rewrite H in *. unfold wp in D.
  destruct (run_loaded_task self (t0, w)) as [[task' w'] [e|[]]]; [done|].
  exists w', task'. split; [reflexivity|]. split; [exact D|].
  destruct R as (Hf & _). cbn [fst snd] in Hf. rewrite Hf.
  apply lookup_insert_eq.
Qed.

End RunTaskCompletes.

(* ------------------------------------------------------------------ *)
(** ** intent.py: the hybrid classifier *)

Section Hybrid.

Import intent intent.HybridIntentClassifier.

Local Open Scope Q_scope.

Implicit Types (self : HybridIntentClassifier.t) (r : IntentResult.t).

Definition known r : Prop := IntentResult.intent r <> ApprovalIntent.UNKNOWN.

Lemma is_unknown_false r : is_unknown (IntentResult.intent r) = false <-> known r.
Proof. unfold known. by destruct (IntentResult.intent r). Qed.


(** X16.  The rules come first: when the rule classifier returns an intent
    other than [unknown], the hybrid classifier returns that very result,
    and the model is not consulted, so that neither its verdict nor an
    error it would raise can change the answer. *)
Theorem hybrid_returns_the_verdict_of_the_rules
    self (text : string) (task : option Task.t) r :
  rule_classifier self text task = inr r ->
  known r ->
  classify self text task = inr r
  /\ forall llm threshold,
       classify (mk (rule_classifier self) llm threshold) text task = inr r.
Proof.
  intros H K. apply is_unknown_false in K.
  assert (G : forall llm threshold,
            classify (mk (rule_classifier self) llm threshold) text task
            = inr r)
    by (intros llm threshold; unfold classify; cbn [rule_classifier];
        rewrite H; cbn [ebind]; by rewrite K).
  split; [|exact G]. destruct self as [rule llm threshold]. apply G.
Qed.


End Hybrid.

(* ------------------------------------------------------------------ *)
(** ** Scenarios of the life of a task *)

Section LifecycleScenarios.

Import TaskState orchestrator lifecycle intent scenario.

(** A task as [create_task] stores it. *)
Definition fresh_task : Task.t :=
  Task.mk "task_1" "Task" "Implement task"
    (TaskSource.mk "feishu" "ou_xxx" "oc_xxx" "om_xxx")
    (RepoContext.mk "repo" "main" (Some "/workspace") None)
    NEW (Approval.mk true None None) None (ExecutionInfo.mk 0 3 None)
    (TaskArtifacts.mk None None None None [] [])
    [TaskEvent.mk "2026-02-07T10:00:00Z" "task.created" "Task created" []]
    "2026-02-07T10:00:00Z" "2026-02-07T10:00:00Z".

(** The [clarify] of [FakeOpenCodeClient], and one that fails. *)
Definition fake_clarify (task : Task.t) : Exn + ClarifyResult.t :=
  inr (ClarifyResult.mk "ok" fake_plan [] "").

Definition agent_down : Exn :=
  mkExn OpenCodeInvocationError "OpenCode plan phase failed".

Definition failing_clarify (task : Task.t) : Exn + ClarifyResult.t :=
  inl agent_down.

Definition clarified_run : World * (Exn + Task.t) :=
  clarify_task fake_clarify "task_1" (world_of fresh_task).

Lemma clarify_task_returns_waiting_for_approval_witness :
  Task.state (returned clarified_run fresh_task) = WAIT_APPROVAL
  /\ map TaskEvent.event_type
       (Task.event_log (returned clarified_run fresh_task))
     = ["task.created"; "state.change"; "clarify.completed"; "state.change"].
Proof.
  destruct (clarify_task_returns_waiting_for_approval fake_clarify "task_1"
              (world_of fresh_task) clarified_run.1 fresh_task
              (returned clarified_run fresh_task))
    as (_ & _ & Hstate & _ & Hlog & _).
  - vm_compute. reflexivity.
  - vm_compute. reflexivity.
  - split; [exact Hstate|exact Hlog].
Defined.

(** The agent fails: the error comes out, and the stored task is still
    [NEW]. *)
Lemma clarify_task_error_persists_nothing_witness :
  task_files (clarify_task failing_clarify "task_1" (world_of fresh_task)).1
  = task_files (world_of fresh_task).
Proof.
  destruct (clarify_task_error_persists_nothing failing_clarify "task_1"
              (world_of fresh_task)
              (clarify_task failing_clarify "task_1" (world_of fresh_task)).1
              fresh_task agent_down)
    as (Hfiles & _).
  - vm_compute. reflexivity.
  - vm_compute. reflexivity.
  - exact Hfiles.
Defined.

(** A task that is [DONE] can still be approved, and stays [DONE]. *)
Lemma approve_task_records_approval_in_any_state_witness :
  exists w' task',
    approve_task "task_1" "ou_boss" (world_of (stored_task DONE false 1 3))
    = (w', inr task')
    /\ Task.state task' = DONE
    /\ Approval.approved_by (Task.approval task') = Some "ou_boss".
Proof.
  destruct (approve_task_records_approval_in_any_state "task_1" "ou_boss"
              (world_of (stored_task DONE false 1 3))
              (stored_task DONE false 1 3))
    as (w' & task' & Hrun & _ & Hstate & _ & Happroval & _).
  - vm_compute. reflexivity.
  - exists w', task'. split; [exact Hrun|]. split; [exact Hstate|].
    by rewrite Happroval.
Defined.

(** The classifier of the scenarios: the rules alone. *)
Definition rules_only : IntentClassifier :=
  fun text _ => inr (RuleBasedIntentClassifier.classify text).

Definition float_placeholder (q : Q) : json := JStr "<float>".

(** A rejection of a task that waits for approval cancels it. *)
Lemma handle_approval_message_acts_by_intent_witness :
  exists w' task',
    handle_approval_message rules_only float_placeholder "task_1" "ou_xxx"
      "先别做，取消" (world_of (stored_task WAIT_APPROVAL false 0 3))
    = (w', inr task')
    /\ Task.state task' = CANCELLED.
Proof.
  pose proof (handle_approval_message_acts_by_intent rules_only
                float_placeholder "task_1" "ou_xxx" "先别做，取消"
                (world_of (stored_task WAIT_APPROVAL false 0 3))
                (stored_task WAIT_APPROVAL false 0 3)) as H.
  destruct H as (w' & task' & Hrun & _ & _ & _ & _ & Heff).
  - vm_compute. reflexivity.
  - exists w', task'. split; [exact Hrun|]. exact (proj1 Heff).
Defined.

(** The happy path of tests/test_orchestrator.py, from the conditions. *)
Lemma run_task_completes_when_every_gate_is_open_witness :
  exists w' task',
    run_task (fake_orchestrator 0) "task_1" (world_of approved_task)
    = (w', inr task')
    /\ Task.state task' = DONE
    /\ task_files w' !! "task_1" = Some task'.
Proof.
  apply (run_task_completes_when_every_gate_is_open (fake_orchestrator 0)
           "task_1" (world_of approved_task) approved_task fake_plan
           (BuildExecutionResult.mk ["src/new_module.py"] "/tmp/diff.patch"
              "" [])).
  - vm_compute. reflexivity.
  - left. reflexivity.
  - intros _. split; reflexivity.
  - reflexivity.
  - intros q Hq. simpl in Hq. by apply elem_of_nil in Hq.
  - vm_compute. reflexivity.
  - intros task. reflexivity.
  - discriminate.
  - vm_compute. reflexivity.
  - intros n task command. eexists. split; reflexivity.
Defined.

(** The rules reject, whatever the model would say. *)
Definition model_down : IntentClassifier :=
  fun _ _ => inl (mkExn OpenCodeInvocationError "timed out").

Lemma hybrid_returns_the_verdict_of_the_rules_witness :
  HybridIntentClassifier.classify
    (HybridIntentClassifier.init None (Some model_down) (8 # 10))
    "先别做，取消" None
  = inr (IntentResult.mk ApprovalIntent.REJECT (95 # 100)
           "matched reject rule" None).
Proof.
  apply (hybrid_returns_the_verdict_of_the_rules
           (HybridIntentClassifier.init None (Some model_down) (8 # 10))).
  - vm_compute. reflexivity.
  - discriminate.
Defined.



End LifecycleScenarios.

(* ------------------------------------------------------------------ *)
(** ** The clock is only read *)

Section ClockKept.

Import TaskState orchestrator lifecycle.

(** No run of [m] changes what the clock will show. *)
Definition clock_kept {A} (m : M A) : Prop :=
  forall s, clock_readings (m s).1.2 = clock_readings s.2.

Lemma clock_kept_ret {A} (a : A) : clock_kept (ret a).
Proof. by intros s. Qed.

Lemma clock_kept_raise {A} (e : Exn) : clock_kept (@raise A e).
Proof. by intros s. Qed.

Lemma clock_kept_lift {A} (r : Exn + A) : clock_kept (lift r).
Proof. by intros s. Qed.

Lemma clock_kept_get_task : clock_kept get_task.
Proof. by intros s. Qed.

Lemma clock_kept_modify_task (f : Task.t -> Task.t) :
  clock_kept (modify_task f).
Proof. by intros s. Qed.

Lemma clock_kept_utc_now_iso : clock_kept utc_now_iso.
Proof. by intros s. Qed.

Lemma clock_kept_bind {A C} (m : M A) (k : A -> M C) :
  clock_kept m -> (forall a, clock_kept (k a)) -> clock_kept (bind m k).
Proof.
  intros Hm Hk s. unfold bind. specialize (Hm s).
  destruct (m s) as [s' [e|a]]; [exact Hm|].
  rewrite <- Hm. apply Hk.
Qed.

Lemma clock_kept_record_event event_type message payload :
  clock_kept (record_event event_type message payload).
Proof. by intros [task w]. Qed.

Lemma clock_kept_transition target event_type message payload :
  clock_kept (state_machine.transition target event_type message payload).
Proof.
  intros [task w].
  destruct (state_machine.assert_transition task target) as [e|[]] eqn:E.
  - by rewrite (transition_raises _ _ _ _ _ _ _ E).
  - by rewrite (transition_passes _ _ _ _ _ _ E).
Qed.

Lemma clock_kept_save : clock_kept store.save.
Proof. by intros s. Qed.

End ClockKept.

Ltac clock_step :=
  lazymatch goal with
  | |- clock_kept (record_event _ _ _) => apply clock_kept_record_event
  | |- clock_kept (state_machine.transition _ _ _ _) =>
      apply clock_kept_transition
  | |- clock_kept store.save => apply clock_kept_save
  | |- clock_kept utc_now_iso => apply clock_kept_utc_now_iso
  | |- clock_kept get_task => apply clock_kept_get_task
  | |- clock_kept (modify_task _) => apply clock_kept_modify_task
  | |- clock_kept (ret _) => apply clock_kept_ret
  | |- clock_kept (raise _) => apply clock_kept_raise
  | |- clock_kept (lift _) => apply clock_kept_lift
  | |- clock_kept (bind _ _) => apply clock_kept_bind; [|intros ?]
  | |- clock_kept (match ?x with _ => _ end) => destruct x
  end.

(* ------------------------------------------------------------------ *)
(** ** orchestrator.py: from the request to the completed task *)

Section WholeLife.

Import TaskState orchestrator lifecycle intent.

Variable self : Orchestrator.
Variable clarify : Task.t -> Exn + ClarifyResult.t.
Variable intent_classifier : IntentClassifier.
Variable json_of_float : Q -> json.

Lemma clock_kept_clarify : clock_kept (clarify_loaded_task clarify).
Proof. unfold clarify_loaded_task, get_plan. repeat clock_step. Qed.

Lemma clock_kept_handle (user_id text : string) :
  clock_kept
    (handle_loaded_approval_message intent_classifier json_of_float user_id
       text).
Proof. unfold handle_loaded_approval_message. repeat clock_step. Qed.

Lemma clock_kept_on_stored_task (body : M unit) (task_id : string)
    (w : World) :
  clock_kept body ->
  clock_readings (on_stored_task body task_id w).1 = clock_readings w.
Proof.
  intros H. unfold on_stored_task.
  destruct (store.get w task_id) as [e|task]; [done|].
  specialize (H (task, w)).
  by destruct (body (task, w)) as [[task' w'] [e|[]]].
Qed.

(** The task [create_task] makes. *)
Definition created (task_id title description : string)
    (source : TaskSource.t) (repo : RepoContext.t) (w : World) : Task.t :=
  with_event (tick 2 w) "task.created" "Task created" []
    (Task.mk task_id title description source repo NEW
       (Approval.mk true None None) None (ExecutionInfo.mk 0 3 None)
       (TaskArtifacts.mk None None None None [] []) []
       (clock_readings w (clock_reads w))
       (clock_readings w (S (clock_reads w)))).

Lemma create_task_spec (task_id title description : string)
    (source : TaskSource.t) (repo : RepoContext.t) (w : World) :
  create_task task_id title description source repo w
  = (mkWorld (clock_readings w) (4 + clock_reads w)
       (<[ task_id := created task_id title description source repo w ]>
          (task_files w))
       (report_files w),
     inr (created task_id title description source repo w)).
Proof. reflexivity. Qed.

(** X18.  The operations of the orchestrator fit together.  Create a task,
    clarify it, let its requester approve it by a chat message, run it:
    when the clock never returns an empty string, the requester has a
    non-empty id, the client's [clarify] returns a plan that passes the
    validator and has no required question open, the classifier reads the
    message as an approval, the client's build succeeds with a non-empty
    diff path and changed files that the plan's policy accepts, and every
    test command exits 0, then each of the four calls returns, and the task
    returned by [run_task], stored under the id given at its creation, is
    [DONE]. *)
Theorem created_task_runs_to_done
    (task_id title description user_id text : string)
    (source : TaskSource.t) (repo : RepoContext.t) (w : World)
    (result : ClarifyResult.t) (verdict : IntentResult.t)
    (build_result : BuildExecutionResult.t) :
  (forall n, clock_readings w n <> "") ->
  user_id <> "" ->
  (forall task, clarify task = inr result) ->
  plan.validate_plan (ClarifyResult.plan result) = [] ->
  no_open_required_question (ClarifyResult.plan result) ->
  (forall task, intent_classifier text task = inr verdict) ->
  IntentResult.intent verdict = ApprovalIntent.APPROVE ->
  (forall task, build (opencode_client self) task = inr build_result) ->
  BuildExecutionResult.diff_path build_result <> "" ->
  policy.enforce_file_policy
    (BuildExecutionResult.changed_files build_result)
    (Plan.constraints (ClarifyResult.plan result)) = inr tt ->
  tests_pass self ->
  exists w1 t1 w2 t2 w3 t3 w4 t4,
    create_task task_id title description source repo w = (w1, inr t1)
    /\ clarify_task clarify task_id w1 = (w2, inr t2)
    /\ handle_approval_message intent_classifier json_of_float task_id
         user_id text w2 = (w3, inr t3)
    /\ run_task self task_id w3 = (w4, inr t4)
    /\ Task.state t1 = NEW
    /\ Task.state t2 = WAIT_APPROVAL
    /\ Task.state t3 = WAIT_APPROVAL
    /\ Task.state t4 = DONE
    /\ task_files w4 !! task_id = Some t4.
Proof.
  intros Hclock Huser Hclarify Hvalid Hquestions Hverdict Hintent Hbuild Hdiff
    Hpolicy Htests.
  (* create *)
  rewrite create_task_spec.
  set (t1 := created task_id title description source repo w).
  set (w1 := mkWorld _ _ _ _).
  assert (S1 : task_files w1 !! task_id = Some t1) by apply lookup_insert_eq.
  (* clarify *)
  pose proof (clarify_task_spec clarify task_id w1 t1 S1) as C.
  pose proof (clock_kept_on_stored_task (clarify_loaded_task clarify)
                task_id w1 clock_kept_clarify) as K2.
  fold (clarify_task clarify task_id w1) in K2.
  destruct (clarify_task clarify task_id w1) as [w2 [e|t2]] eqn:R2.
  { exfalso. destruct C as (task' & _ & _ & [[Hs _]|[_ He]]).
    - by apply Hs.
    - by rewrite Hclarify in He. }
  destruct C as (_ & result' & Hres & Hstate2 & Hplan2 & _ & _ & Hsame2
                 & Hfiles2).
  rewrite Hclarify in Hres. injection Hres as <-. cbn [fst snd] in *.
  destruct Hsame2 as (Hid2 & _ & _ & _ & _ & Happroval2 & Hexec2 & _).
  assert (S2 : task_files w2 !! task_id = Some t2)
    by (rewrite Hfiles2; apply lookup_insert_eq).
  (* approve by message *)
  pose proof (handle_approval_message_acts_by_intent intent_classifier
                json_of_float task_id user_id text w2 t2 S2) as A.
  rewrite Hverdict in A.
  destruct A as (w3 & t3 & R3 & S3 & Hid3 & Hplan3 & Hexec3 & Heff).
  unfold message_effect in Heff. cbv zeta in Heff.
  rewrite decide_True in Heff by exact Hstate2. rewrite Hintent in Heff.
  destruct Heff as (Hstate3 & Happroval3 & _).
  rewrite Hid2 in S3. change (Task.task_id t1) with task_id in S3.
  (* run *)
  destruct (run_task_completes_when_every_gate_is_open self task_id w3 t3
              (ClarifyResult.plan result) build_result)
    as (w4 & t4 & R4 & Hstate4 & S4); try assumption.
  { by left. }
  { intros _. rewrite Happroval3. unfold is_set. simpl.
    rewrite !negb_true_iff, !String.eqb_neq. split; [exact Huser|].
    rewrite K2. apply Hclock. }
  { by rewrite Hplan3. }
  exists w1, t1, w2, t2, w3, t3, w4, t4.
  split; [reflexivity|]. split; [exact R2|]. split; [exact R3|].
  split; [exact R4|]. split; [reflexivity|]. split; [exact Hstate2|].
  split; [exact Hstate3|]. split; [exact Hstate4|].
  rewrite Hid3, Hid2 in S4. exact S4.
Qed.

End WholeLife.

Section WholeLifeScenario.

Import TaskState orchestrator lifecycle intent scenario.

Definition empty_store : World :=
  mkWorld (fun _ => "2026-02-07T10:00:00Z") 0 ∅ ∅.

(** Scenario 1 of the tests: a requirement comes in, the plan is made, the
    requester answers [同意], the run passes. *)
Lemma created_task_runs_to_done_witness :
  let source := TaskSource.mk "feishu" "ou_xxx" "oc_xxx" "om_xxx" in
  let repo := RepoContext.mk "repo" "main" (Some "/workspace") None in
  exists w1 t1 w2 t2 w3 t3 w4 t4,
    create_task "task_1" "Task" "Implement task" source repo empty_store
    = (w1, inr t1)
    /\ clarify_task fake_clarify "task_1" w1 = (w2, inr t2)
    /\ handle_approval_message rules_only float_placeholder "task_1" "ou_xxx"
         "同意" w2 = (w3, inr t3)
    /\ run_task (fake_orchestrator 0) "task_1" w3 = (w4, inr t4)
    /\ Task.state t1 = NEW
    /\ Task.state t2 = WAIT_APPROVAL
    /\ Task.state t3 = WAIT_APPROVAL
    /\ Task.state t4 = DONE
    /\ task_files w4 !! "task_1" = Some t4.
Proof.
  cbv zeta.
  apply (created_task_runs_to_done (fake_orchestrator 0) fake_clarify
           rules_only float_placeholder "task_1" "Task" "Implement task"
           "ou_xxx" "同意" _ _ empty_store
           (ClarifyResult.mk "ok" fake_plan [] "")
           (RuleBasedIntentClassifier.classify "同意")
           (BuildExecutionResult.mk ["src/new_module.py"] "/tmp/diff.patch"
              "" [])).
  - intros n. discriminate.
  - discriminate.
  - intros task. reflexivity.
  - vm_compute. reflexivity.
  - intros q Hq. simpl in Hq. by apply elem_of_nil in Hq.
  - intros task. reflexivity.
  - vm_compute. reflexivity.
  - intros task. reflexivity.
  - discriminate.
  - vm_compute. reflexivity.
  - intros n task command. eexists. split; reflexivity.
Defined.

End WholeLifeScenario.

(* ------------------------------------------------------------------ *)
(** ** channels/feishu_webhook.py: every message is processed once *)

Section Webhook.

Import feishu feishu_webhook.

Variable B : Builtins.
Variable json_loads : string -> Exn + json.
Variable process_feishu_message :
  FeishuRequirement.t -> FeishuWebhookSettings.t -> World ->
  World * (Exn + (Task.t * string)).
Variable messenger :
  option (list (string * string) -> string -> string -> Exn + unit).
Variable settings : FeishuWebhookSettings.t.



Definition seen (server : Server) : gset string :=
  ProcessedMessageStore._seen (processed_store server).











End Webhook.

Section WebhookScenarios.

Import feishu feishu_webhook scenario.










End WebhookScenarios.
